(** * Hourly occupancy pipeline: data preparation and analytics

    A shallow embedding of the three programs of the repository

    - [data_prep/data_prep.py]              (module [DataPrep]),
    - [modeling/compute_metrics.py]         (modules [Metrics], [ComputeMetrics]),
    - [modeling/compute_metrics_refined.py] (modules [Metrics], [Refined]),
    - the file discovery of [data_prep.py] and of the exploration scripts
      (module [Discovery]),

    followed by concrete inputs ([Scenarios]), the vocabulary of the
    statements ([Vocabulary]) and the properties proved about the programs.

    Conventions.  A pandas DataFrame is a list of rows (records); a Series is a
    list.  int64 cells are [Z] (the counts handled here are row counts, far from
    the 64-bit range).  float64 cells are [pyfloat]: NaN, the two infinities, or
    an exact rational; rounding of finite quotients is not modelled.
    Timestamps are nanoseconds since the epoch, as pandas stores them, within
    the int64 range.  A run leaves what it printed, the files it wrote and the
    directories it created; writing into a directory that does not exist is
    an error.
    Identifiers and status labels are strings; status labels are taken to
    differ from the fixed column names of the tables. *)

From Stdlib Require Import List ZArith QArith Bool Lia Permutation Sorted String Ascii Arith.
From Stdlib Require OrderedTypeEx.
Import ListNotations.

Local Open Scope string_scope.
Local Open Scope list_scope.
Local Open Scope Z_scope.

(** ** Python and pandas primitives *)

Module Py.

(** float64 values as produced by dividing integer columns. *)
Inductive pyfloat : Type :=
| NaN
| PosInf
| NegInf
| Fin (q : Q).

(** [a / b] on int64 Series (numpy true division): never raises. *)
Definition truediv (a b : Z) : pyfloat :=
  if b =? 0 then
    (if a =? 0 then NaN else if 0 <? a then PosInf else NegInf)
  else Fin (Qmake a 1 / Qmake b 1).

Definition isna (x : pyfloat) : bool :=
  match x with NaN => true | _ => false end.

(** Exceptions that the programs can raise. *)
Inductive exn : Type :=
| SystemExit (code : Z)
| KeyError (keys : list string)
| ZeroDivisionError
| NameError (name : string)
| TypeError
| OverflowError
| OSError.

(** Pieces of an f-string: literal text and formatted values. *)
Inductive fpart : Type :=
| Lit (s : string)
| Int (n : Z)
| Fixed2 (x : pyfloat).

Definition line : Type := list fpart.

(** The slice [l[:n]]. *)
Definition slice_to {A} (n : Z) (l : list A) : list A :=
  if 0 <=? n then firstn (Z.to_nat n) l
  else firstn (List.length l - Z.to_nat (- n))%nat l.

Section StableSort.
Context {A : Type} (leb : A -> A -> bool).

Fixpoint insert (x : A) (l : list A) : list A :=
  match l with
  | [] => [x]
  | y :: t => if leb x y then x :: y :: t else y :: insert x t
  end.

(** A stable sort: equal keys keep their input order. *)
Definition stable_sort (l : list A) : list A := fold_right insert [] l.
End StableSort.

Fixpoint zip_with {A B C} (f : A -> B -> C) (l : list A) (m : list B) : list C :=
  match l, m with
  | a :: l', b :: m' => f a b :: zip_with f l' m'
  | _, _ => []
  end.

(** [Series.shift(1)]: the first cell becomes missing. *)
Definition shift1 {A} (l : list A) : list (option A) :=
  firstn (List.length l) (None :: map Some l).

(** [cur != prev] on a boolean Series against its shift: a missing
    previous value compares unequal. *)
Definition ne_shift (cur : bool) (prev : option bool) : bool :=
  match prev with
  | None => true
  | Some p => xorb cur p
  end.

(** [Series.cumsum()] of a boolean Series, from a running total. *)
Fixpoint cumsum (acc : Z) (l : list bool) : list Z :=
  match l with
  | [] => []
  | b :: t => let acc' := acc + (if b then 1 else 0) in acc' :: cumsum acc' t
  end.

Definition sum_Z (l : list Z) : Z := fold_right Z.add 0 l.

(** The keys of a [groupby]: distinct values in ascending order. *)
Definition group_keys_str (l : list string) : list string :=
  stable_sort String.leb (nodup string_dec l).

Definition group_keys_Z (l : list Z) : list Z :=
  stable_sort Z.leb (nodup Z.eq_dec l).

Definition str_Z_eq_dec (a b : string * Z) : {a = b} + {a <> b}.
Proof.
  decide equality; [apply Z.eq_dec | apply string_dec].
Defined.

Definition group_keys_str_Z (l : list (string * Z)) : list (string * Z) :=
  stable_sort
    (fun a b => String.ltb (fst a) (fst b)
                || (String.eqb (fst a) (fst b) && (snd a <=? snd b)))
    (nodup str_Z_eq_dec l).

(** float64 comparison [a <= b]; any comparison with NaN is false. *)
Definition fle (a b : pyfloat) : bool :=
  match a, b with
  | NaN, _ | _, NaN => false
  | NegInf, _ => true
  | _, PosInf => true
  | PosInf, _ => false
  | _, NegInf => false
  | Fin x, Fin y => Qle_bool x y
  end.

(** Equality of sort keys: equal floats, and NaN grouped with NaN. *)
Definition fsame (a b : pyfloat) : bool :=
  match a, b with
  | NaN, NaN => true
  | _, _ => fle a b && fle b a
  end.

Definition fadd (a b : pyfloat) : pyfloat :=
  match a, b with
  | NaN, _ | _, NaN => NaN
  | PosInf, NegInf | NegInf, PosInf => NaN
  | PosInf, _ | _, PosInf => PosInf
  | NegInf, _ | _, NegInf => NegInf
  | Fin x, Fin y => Fin (x + y)
  end.

(** A float divided by a positive count. *)
Definition fdiv_count (a : pyfloat) (n : Z) : pyfloat :=
  match a with
  | Fin x => if n =? 0 then (if Qeq_bool x 0 then NaN
                             else if Qle_bool 0 x then PosInf else NegInf)
             else Fin (x / Qmake n 1)
  | other => other
  end.

(** [Series.mean()]: missing values are skipped; an empty mean is NaN.
    This is the exact mean; the rounding of the float64 sum and quotient is
    not modelled, and no property below speaks of the value of a mean. *)
Definition mean (l : list pyfloat) : pyfloat :=
  let present := filter (fun x => negb (isna x)) l in
  match present with
  | [] => NaN
  | _ => fdiv_count (fold_left fadd present (Fin 0)) (Z.of_nat (List.length present))
  end.

Definition ns_per_hour : Z := 3600 * 1000000000.
Definition ns_per_day : Z := 24 * ns_per_hour.

(** [ts.dt.floor('H')], [ts.dt.date] (as a day number) and [ts.dt.hour]. *)
Definition floor_hour (ts : Z) : Z := ts - ts mod ns_per_hour.
Definition date_of (ts : Z) : Z := ts / ns_per_day.
Definition hour_of_day (ts : Z) : Z := (ts / ns_per_hour) mod 24.

(** The range of int64, in which pandas keeps its nanosecond timestamps; the
    least value stands for a missing timestamp (NaT). *)
Definition int64_min : Z := - 2 ^ 63.
Definition int64_max : Z := 2 ^ 63 - 1.

(** Distinct values in order of first appearance. *)
Definition unique_str (l : list string) : list string :=
  rev (nodup string_dec (rev l)).

(** ** Effects: standard output, files written, exceptions *)

Record world (F : Type) : Type := mk_world {
  stdout : list line;
  files : list (string * F);
  dirs : list string
}.
Arguments mk_world {F} _ _ _.
Arguments stdout {F} _.
Arguments files {F} _.
Arguments dirs {F} _.

(** Nothing printed, nothing written, no output directory yet. *)
Definition empty_world {F} : world F := mk_world [] [] [].

(** A computation either raises or returns, and in both cases leaves the
    output produced so far. *)
Definition M (F A : Type) : Type := world F -> (exn + A) * world F.

Definition ret {F A} (a : A) : M F A := fun w => (inr a, w).

Definition bind {F A B} (m : M F A) (k : A -> M F B) : M F B :=
  fun w => match m w with
           | (inl e, w') => (inl e, w')
           | (inr a, w') => k a w'
           end.

Definition raise {F A} (e : exn) : M F A := fun w => (inl e, w).

Definition print {F} (l : line) : M F unit :=
  fun w => (inr tt, mk_world (stdout w ++ [l]) (files w) (dirs w)).

(** [os.makedirs(dir, exist_ok=True)] *)
Definition makedirs {F} (dir : string) : M F unit :=
  fun w => (inr tt, mk_world (stdout w) (files w) (dirs w ++ [dir])).

(** Writing the file [name] into the directory [dir] ([to_csv],
    [to_parquet], [open(.., 'w')]): an error when the directory does not
    exist. *)
Definition write_file {F} (dir name : string) (content : F) : M F unit :=
  fun w => if existsb (String.eqb dir) (dirs w)
           then (inr tt, mk_world (stdout w) (files w ++ [((dir ++ name)%string, content)])
                                  (dirs w))
           else (inl OSError, w).

Definition run {F A} (m : M F A) : (exn + A) * world F := m empty_world.

End Py.

Import Py.

Notation "x <- c1 ;; c2" := (bind c1 (fun x => c2))
  (at level 61, c1 at next level, right associativity).
Notation "c1 ;;; c2" := (bind c1 (fun _ => c2))
  (at level 61, right associativity).

(** ** Functions shared by [compute_metrics.py] and [compute_metrics_refined.py] *)

Module Metrics.

Record downtime_row : Type := mk_downtime_row {
  dr_evse_id : string;
  num_downtime_events : Z;
  total_downtime_hours : Z
}.

Record run_row : Type := mk_run_row {
  run_id : Z;
  run_is_zero : bool;
  count_hours : Z
}.

Section ReliabilityDowntime.
(** Rows of [df_evse]: any row type with the three columns used. *)
Context {R : Type}.
Variable evse_id : R -> string.
Variable hour : R -> Z.
Variable charging_count : R -> Z.

(** [group.sort_values('hour')].  The rows of one connector in an hourly
    table have pairwise distinct hours, and on such rows every sorting
    algorithm gives this result (lemma [sort_by_hour_unique]). *)
Definition sort_by_hour (group : list R) : list R :=
  stable_sort (fun a b => hour a <=? hour b) group.

(** [grp['is_zero'] = grp['charging_count'] == 0] *)
Definition is_zero_col (grp : list R) : list bool :=
  map (fun r => charging_count r =? 0) grp.

(** [(grp['is_zero'] != grp['is_zero'].shift(1)).cumsum()] *)
Definition run_ids (is_zero : list bool) : list Z :=
  cumsum 0 (zip_with ne_shift is_zero (shift1 is_zero)).

Definition run_col (grp : list R) : list Z := run_ids (is_zero_col grp).

(** [grp.groupby('run').agg(is_zero first, count_hours count)] *)
Definition runs_of (is_zero : list bool) (ids : list Z) : list run_row :=
  map (fun k =>
         let members := filter (fun p => snd p =? k) (combine is_zero ids) in
         mk_run_row k (hd false (map fst members)) (Z.of_nat (List.length members)))
      (group_keys_Z ids).

Definition runs (grp : list R) : list run_row :=
  runs_of (is_zero_col grp) (run_col grp).

(** [runs[runs['is_zero'] & (runs['count_hours'] >= gap_hours)]] *)
Definition downtime_runs (gap_hours : Z) (rs : list run_row) : list run_row :=
  filter (fun r => run_is_zero r && (gap_hours <=? count_hours r)) rs.

Definition evse_group (df_evse : list R) (e : string) : list R :=
  filter (fun r => String.eqb (evse_id r) e) df_evse.

Definition downtime_of_group (gap_hours : Z) (e : string) (group : list R)
  : downtime_row :=
  let grp := sort_by_hour group in
  let dr := downtime_runs gap_hours (runs grp) in
  mk_downtime_row e (Z.of_nat (List.length dr)) (sum_Z (map count_hours dr)).

Definition compute_reliability_downtime (df_evse : list R) (gap_hours : Z)
  : list downtime_row :=
  map (fun e => downtime_of_group gap_hours e (evse_group df_evse e))
      (group_keys_str (map evse_id df_evse)).
End ReliabilityDowntime.

Record trend_row : Type := mk_trend_row {
  tr_station_id : string;
  tr_date : Z;
  avg_occupancy_rate : pyfloat
}.

Record global_row : Type := mk_global_row {
  gl_hour_of_day : Z;
  gl_avg_occupancy_rate : pyfloat
}.

Record capacity_row : Type := mk_capacity_row {
  cp_station_id : string;
  total_hours : Z;
  high_pressure_hours : Z;
  high_pressure_ratio : pyfloat
}.

Section StationMetrics.
(** Rows of [df_station]: any row type with the three columns used. *)
Context {S : Type}.
Variable station_id : S -> string.
Variable hour : S -> Z.
Variable occupancy_rate : S -> pyfloat.

Definition same_station (e : string) (r : S) : bool :=
  String.eqb (station_id r) e.

Definition compute_utilization_trends (df_station : list S) : list trend_row :=
  map (fun k =>
         mk_trend_row (fst k) (snd k)
           (mean (map occupancy_rate
                    (filter (fun r => same_station (fst k) r
                                      && (date_of (hour r) =? snd k))
                            df_station))))
      (group_keys_str_Z (map (fun r => (station_id r, date_of (hour r))) df_station)).

(** Sort key of the [occupancy_rate] column with [ascending=False]:
    larger rates first, missing values last. *)
Definition rate_desc_leb (a b : S) : bool :=
  match occupancy_rate a, occupancy_rate b with
  | _, NaN => true
  | NaN, _ => false
  | x, y => fle y x
  end.

Definition station_leb (a b : S) : bool :=
  String.leb (station_id a) (station_id b).

(** [df.sort_values(['station_id', 'occupancy_rate'], ascending=[True, False])]:
    a lexicographic sort, carried out as pandas does by stable passes from
    the least significant key to the most significant one. *)
Definition sort_values_station_rate (df : list S) : list S :=
  stable_sort station_leb (stable_sort rate_desc_leb df).

Definition count_station (e : string) (l : list S) : Z :=
  Z.of_nat (List.length (filter (same_station e) l)).

(** [.groupby('station_id').head(n)]: rows keep the order of the frame; a
    row is kept when its position inside its group lies in the slice
    [[:n]] of that group. *)
Fixpoint groupby_head_from (n : Z) (all seen rest : list S) : list S :=
  match rest with
  | [] => []
  | r :: t =>
      let pos := count_station (station_id r) seen in
      let keep := if 0 <=? n then pos <? n
                  else pos <? count_station (station_id r) all + n in
      (if keep then [r] else []) ++ groupby_head_from n all (seen ++ [r]) t
  end.

Definition groupby_head (n : Z) (df : list S) : list S :=
  groupby_head_from n df [] df.

Definition compute_peak_periods (df_station : list S) (top_n : Z) : list S :=
  groupby_head top_n (sort_values_station_rate df_station).

Definition compute_global_peak_by_hour_of_day (df_station : list S)
  : list global_row :=
  map (fun h =>
         mk_global_row h
           (mean (map occupancy_rate
                    (filter (fun r => hour_of_day (hour r) =? h) df_station))))
      (group_keys_Z (map (fun r => hour_of_day (hour r)) df_station)).

Definition compute_capacity_pressure (df_station : list S) (threshold : pyfloat)
  : list capacity_row :=
  map (fun e =>
         let g := filter (same_station e) df_station in
         let total :=
           Z.of_nat (List.length (filter (fun r => negb (isna (occupancy_rate r))) g)) in
         let high :=
           Z.of_nat (List.length (filter (fun r => fle threshold (occupancy_rate r)) g)) in
         mk_capacity_row e total high (truediv high total))
      (group_keys_str (map station_id df_station)).
End StationMetrics.

(** Default arguments of the five functions. *)
Definition default_top_n : Z := 5.
Definition default_threshold : pyfloat := Fin (9 # 10).
Definition default_gap_hours : Z := 24.

End Metrics.

Import Metrics.


(** ** [data_prep.py] *)

Module DataPrep.

(** The JSON payload of one Avro record, as far as [parse_avro_file]
    reads it; an absent or null field is [None]. *)
Record payload : Type := mk_payload {
  nobilId : option string;
  evseUId : option string;
  p_status : option string;
  p_timestamp : option string
}.

(** One record of an Avro file: without a body, with a body that fails to
    decode to a JSON object, or with a payload. *)
Inductive avro_rec : Type :=
| NoBody
| BadBody
| Body (p : payload).

(** The records of a file that [open] and the Avro reader read to the end;
    an error of the reader itself is outside the [try] and is not modelled. *)
Definition avro_file : Type := list avro_rec.

(** The dictionaries appended to [records]. *)
Record raw_rec : Type := mk_raw {
  raw_station_id : option string;
  raw_evse_id : option string;
  raw_status : option string;
  raw_timestamp : option string
}.

Definition parse_avro_file (f : avro_file) : list raw_rec :=
  flat_map (fun rec =>
              match rec with
              | NoBody => []
              | BadBody => []
              | Body p => [mk_raw (nobilId p) (evseUId p) (p_status p) (p_timestamp p)]
              end) f.

(** Rows of [df] after both [dropna] calls. *)
Record canon : Type := mk_canon {
  station_id : string;
  evse_id : string;
  status : string;
  timestamp : Z
}.

(** Rows of [df_clean]: the canonical columns and [hour]. *)
Record clean : Type := mk_clean {
  rec : canon;
  hour : Z
}.

(** One row of an hourly table: the index [(entity, hour)], one count per
    status column, and the three derived columns. *)
Record hourly_row : Type := mk_hourly_row {
  entity : string;
  h_hour : Z;
  counts : list (string * Z);
  total : Z;
  charging : Z;
  occupancy_rate : pyfloat
}.

(** An hourly table: its status columns (those observed in the input) and
    its rows. *)
Record hourly_table : Type := mk_hourly_table {
  status_columns : list string;
  rows : list hourly_row
}.

Record unknown_report : Type := mk_unknown_report {
  report_lines : list line
}.

Inductive artifact : Type :=
| StatusSummary (l : list (string * Z))
| Hourly (t : hourly_table)
| Flattened (l : list clean)
| Report (r : unknown_report).

Section Main.
(** [pd.to_datetime(column, utc=True, errors='coerce')]: given the whole
    column (pandas may take the format from its first value), the instant
    read from one cell, in nanoseconds since the epoch, or [None] when the
    cell does not parse. *)
Variable to_datetime : list string -> string -> option Z.

(** [df.dropna(subset=[...])] followed by the timestamp conversion and the
    second [dropna]. *)
Definition complete (r : raw_rec) : option (string * string * string * string) :=
  match raw_station_id r, raw_evse_id r, raw_status r, raw_timestamp r with
  | Some s, Some e, Some st, Some ts => Some (s, e, st, ts)
  | _, _, _, _ => None
  end.

(** Rows left by the first [dropna]. *)
Definition complete_rows (all_recs : list raw_rec)
  : list (string * string * string * string) :=
  flat_map (fun r => match complete r with Some x => [x] | None => [] end) all_recs.

(** An instant that fits the int64 range; any other is coerced to NaT. *)
Definition in_bounds (t : Z) : bool := (int64_min <? t) && (t <=? int64_max).

(** The timestamp conversion of one row against the column it stands in,
    and the second [dropna]. *)
Definition canonical (column : list string) (x : string * string * string * string)
  : option canon :=
  match x with
  | (s, e, st, ts) =>
      match to_datetime column ts with
      | Some t => if in_bounds t then Some (mk_canon s e st t) else None
      | None => None
      end
  end.

Definition normalize (all_recs : list raw_rec) : list canon :=
  let rows := complete_rows all_recs in
  let column := map snd rows in
  flat_map (fun x => match canonical column x with Some c => [c] | None => [] end) rows.

(** [df['status'].value_counts()]: counts per status, most frequent first,
    equal counts in order of first appearance. *)
Definition value_counts (df : list canon) : list (string * Z) :=
  stable_sort (fun a b => snd b <=? snd a)
    (map (fun s => (s, Z.of_nat (List.length
                                   (filter (fun r => String.eqb (status r) s) df))))
         (unique_str (map status df))).

(** Number of rows of [df] with a given status. *)
Definition count_status (s : string) (df : list canon) : Z :=
  Z.of_nat (List.length (filter (fun r => String.eqb (status r) s) df)).

Fixpoint get {V} (l : list (string * V)) (k : string) (default : V) : V :=
  match l with
  | [] => default
  | (k', v) :: t => if String.eqb k' k then v else get t k default
  end.

(** [df[df['status'] != 'UNKNOWN']] with the [hour] column added. *)
Definition exclude_unknown (df : list canon) : list clean :=
  map (fun r => mk_clean r (floor_hour (timestamp r)))
      (filter (fun r => negb (String.eqb (status r) "UNKNOWN")) df).

(** [dt.floor('H')] works on int64: a row whose hour would start before the
    least int64 value makes it raise. *)
Definition floor_overflows (c : clean) : bool := hour c <? int64_min.

(** [df_clean.groupby([key, 'hour', 'status']).size()] at one index. *)
Definition size_at (key : canon -> string) (df_clean : list clean)
           (e : string) (h : Z) (s : string) : Z :=
  Z.of_nat (List.length
              (filter (fun r => String.eqb (key (rec r)) e && (hour r =? h)
                                && String.eqb (status (rec r)) s) df_clean)).

(** The four lines that build an hourly table: unstack with
    [fill_value=0], then [total], [charging] and [occupancy_rate]. *)
Definition aggregate (key : canon -> string) (df_clean : list clean)
  : hourly_table :=
  let cols := group_keys_str (map (fun r => status (rec r)) df_clean) in
  let index := group_keys_str_Z (map (fun r => (key (rec r), hour r)) df_clean) in
  mk_hourly_table cols
    (map (fun k =>
            let cnt := map (fun s => (s, size_at key df_clean (fst k) (snd k) s)) cols in
            let tot := sum_Z (map snd cnt) in
            let chg := get cnt "CHARGING" 0 in
            mk_hourly_row (fst k) (snd k) cnt tot chg (truediv chg tot))
         index).

Definition subset : list string := ["station_id"; "evse_id"; "status"; "timestamp"].
(** The output directory, written with its separator: the path of a file
    is the directory followed by the file name. *)
Definition outdir : string := "/root/output/data/".

(** [main()], given the contents of the Avro files in the order in which
    [find_avro_files] lists them, each read to its end by the Avro reader,
    and [args.sample_size]. *)
Definition main (avro_files : list avro_file) (sample_size : Z) : M artifact unit :=
  print [Lit "Found "; Int (Z.of_nat (List.length avro_files)); Lit " Avro files."] ;;;
  (match avro_files with
   | [] => print [Lit "No Avro files found. Exiting."] ;;; raise (SystemExit 1)
   | _ => ret tt
   end) ;;;
  let sample_files := slice_to sample_size avro_files in
  print [Lit "Processing sample of "; Int (Z.of_nat (List.length sample_files));
         Lit " files..."] ;;;
  let all_recs := flat_map parse_avro_file sample_files in
  print [Lit "Parsed "; Int (Z.of_nat (List.length all_recs));
         Lit " records from sample."] ;;;
  (* a frame built from no record has no column to drop on *)
  (match all_recs with
   | [] => raise (KeyError subset)
   | _ => ret tt
   end) ;;;
  let df := normalize all_recs in
  let status_counts := value_counts df in
  let total := Z.of_nat (List.length df) in
  let unknown_count := get status_counts "UNKNOWN" 0 in
  unknown_pct <- (if total =? 0 then raise ZeroDivisionError
                  else ret (Fin (Qmake unknown_count 1 / Qmake total 1 * 100))) ;;
  print [Lit "UNKNOWN status: "; Int unknown_count; Lit "/"; Int total;
         Lit " ("; Fixed2 unknown_pct; Lit "%)"] ;;;
  let df_clean := exclude_unknown df in
  (* flooring below the least int64 value overflows *)
  (if existsb floor_overflows df_clean then raise OverflowError else ret tt) ;;;
  let agg := aggregate station_id df_clean in
  makedirs outdir ;;;
  write_file outdir "status_summary.csv" (StatusSummary status_counts) ;;;
  write_file outdir "occupancy_station_hourly.parquet" (Hourly agg) ;;;
  let agg_evse := aggregate evse_id df_clean in
  write_file outdir "occupancy_evse_hourly.parquet" (Hourly agg_evse) ;;;
  write_file outdir "flattened_sample.parquet" (Flattened df_clean) ;;;
  write_file outdir "unknown_analysis.txt"
    (Report (mk_unknown_report
       [ [Lit "Total records: "; Int total];
         [Lit "UNKNOWN count: "; Int unknown_count];
         [Lit "UNKNOWN percentage: "; Fixed2 unknown_pct; Lit "%"];
         [Lit "Decision: Excluded 'UNKNOWN' status from occupancy metrics."] ])) ;;;
  print [Lit "Data preparation complete."].
End Main.

End DataPrep.

(** ** The two analytics entry points *)

Module Analytics.
Import DataPrep.

(** Rows of [evse_df]: the hourly row and the added [charging_count]. *)
Record evse_row : Type := mk_evse_row {
  base : hourly_row;
  charging_count : Z
}.

(** The five output tables; [S] is the row type of the station frame. *)
Inductive table (S : Type) : Type :=
| DailyUtil (l : list trend_row)
| PeakPeriods (l : list S)
| GlobalPeak (l : list global_row)
| CapacityPressure (l : list capacity_row)
| Reliability (l : list downtime_row).
Arguments DailyUtil {S} _.
Arguments PeakPeriods {S} _.
Arguments GlobalPeak {S} _.
Arguments CapacityPressure {S} _.
Arguments Reliability {S} _.

(** Module-level functions, called with their default arguments. *)
Inductive pyfunc (S : Type) : Type :=
| StationFn (f : list S -> table S)
| EvseFn (f : list evse_row -> table S).
Arguments StationFn {S} _.
Arguments EvseFn {S} _.

(** The global names of a module. *)
Definition namespace (S : Type) : Type := list (string * pyfunc S).

Fixpoint lookup {S} (g : namespace S) (name : string) : option (pyfunc S) :=
  match g with
  | [] => None
  | (n, f) :: t => if String.eqb n name then Some f else lookup t name
  end.

(** A call [name(df)]: the name is resolved when the call is executed. *)
Definition call_station {S} (g : namespace S) (name : string) (df : list S)
  : M (table S) (table S) :=
  match lookup g name with
  | None => raise (NameError name)
  | Some (StationFn f) => ret (f df)
  | Some (EvseFn _) => raise TypeError
  end.

Definition call_evse {S} (g : namespace S) (name : string) (df : list evse_row)
  : M (table S) (table S) :=
  match lookup g name with
  | None => raise (NameError name)
  | Some (EvseFn f) => ret (f df)
  | Some (StationFn _) => raise TypeError
  end.

Definition outputs : string := "/root/output/outputs/".

(** [evse_df['charging_count'] = evse_df['charging']] *)
Definition with_charging_count (t : hourly_table) : list evse_row :=
  map (fun r => mk_evse_row r (charging r)) (rows t).

Definition reliability_fn {S} : pyfunc S :=
  EvseFn (fun df =>
    Reliability
      (compute_reliability_downtime (fun r => entity (base r))
         (fun r => h_hour (base r)) charging_count df default_gap_hours)).

End Analytics.

(** *** [compute_metrics.py] *)

Module ComputeMetrics.
Import DataPrep Analytics.

(** The fourth function of this module carries the name
    [compute_capacity_pressure_messages]. *)
Definition compute_capacity_pressure_messages {S} := @compute_capacity_pressure S.

Definition globals : namespace hourly_row :=
  [ ("compute_utilization_trends",
     StationFn (fun df =>
       DailyUtil (compute_utilization_trends entity h_hour occupancy_rate df)));
    ("compute_peak_periods",
     StationFn (fun df =>
       PeakPeriods (compute_peak_periods entity occupancy_rate df default_top_n)));
    ("compute_global_peak_by_hour_of_day",
     StationFn (fun df =>
       GlobalPeak (compute_global_peak_by_hour_of_day h_hour occupancy_rate df)));
    ("compute_capacity_pressure_messages",
     StationFn (fun df => CapacityPressure
                            (compute_capacity_pressure_messages entity occupancy_rate df
                               default_threshold)));
    ("compute_reliability_downtime", reliability_fn) ].

(** [main()], given the contents of the two hourly tables it loads. *)
Definition main (station_tbl evse_tbl : hourly_table) : M (table hourly_row) unit :=
  let station_df := rows station_tbl in
  let evse_df := with_charging_count evse_tbl in
  daily_util <- call_station globals "compute_utilization_trends" station_df ;;
  peak_periods <- call_station globals "compute_peak_periods" station_df ;;
  global_peak <- call_station globals "compute_global_peak_by_hour_of_day" station_df ;;
  capacity_pressure <- call_station globals "compute_capacity_pressure" station_df ;;
  reliability <- call_evse globals "compute_reliability_downtime" evse_df ;;
  write_file outputs "daily_utilization_trends.csv" daily_util ;;;
  write_file outputs "peak_periods_station.csv" peak_periods ;;;
  write_file outputs "global_peak_hour_of_day.csv" global_peak ;;;
  write_file outputs "capacity_pressure_station.csv" capacity_pressure ;;;
  write_file outputs "reliability_evse_downtime.csv" reliability.

End ComputeMetrics.

(** *** [compute_metrics_refined.py] *)

Module Refined.
Import DataPrep Analytics.

(** Rows of [station_ref] restricted to the columns handed to the metric
    functions; [occupancy_rate] is the refined rate. *)
Record station_view : Type := mk_station_view {
  station_id : string;
  hour : Z;
  occupancy_rate : pyfloat
}.

Definition globals : namespace station_view :=
  [ ("compute_utilization_trends",
     StationFn (fun df =>
       DailyUtil (compute_utilization_trends station_id hour occupancy_rate df)));
    ("compute_peak_periods",
     StationFn (fun df =>
       PeakPeriods (compute_peak_periods station_id occupancy_rate df default_top_n)));
    ("compute_global_peak_by_hour_of_day",
     StationFn (fun df =>
       GlobalPeak (compute_global_peak_by_hour_of_day hour occupancy_rate df)));
    ("compute_capacity_pressure",
     StationFn (fun df => CapacityPressure
                            (compute_capacity_pressure station_id occupancy_rate df
                               default_threshold)));
    ("compute_reliability_downtime", reliability_fn) ].

(** [station_df[name]] for a status column: the column must exist. *)
Definition status_column (t : hourly_table) (name : string)
  : M (table station_view) (hourly_row -> Z) :=
  if in_dec string_dec name (status_columns t)
  then ret (fun r => get (counts r) name 0)
  else raise (KeyError [name]).

(** [occupied_msgs / (occupied_msgs + available_msgs)] on one row. *)
Definition occupancy_rate_refined (available_msgs : hourly_row -> Z) (r : hourly_row)
  : pyfloat :=
  truediv (charging r) (charging r + available_msgs r).

(** [station_df.dropna(subset=['occupancy_rate_refined'])], with the refined
    rate taking the place of [occupancy_rate]. *)
Definition station_ref (available_msgs : hourly_row -> Z) (station_df : list hourly_row)
  : list station_view :=
  map (fun r => mk_station_view (entity r) (h_hour r)
                  (occupancy_rate_refined available_msgs r))
      (filter (fun r => negb (isna (occupancy_rate_refined available_msgs r)))
              station_df).

Definition main (station_tbl evse_tbl : hourly_table) : M (table station_view) unit :=
  let station_df := rows station_tbl in
  available_msgs <- status_column station_tbl "AVAILABLE" ;;
  let ref := station_ref available_msgs station_df in
  let evse_df := with_charging_count evse_tbl in
  daily_util <- call_station globals "compute_utilization_trends" ref ;;
  peak_periods <- call_station globals "compute_peak_periods" ref ;;
  global_peak <- call_station globals "compute_global_peak_by_hour_of_day" ref ;;
  capacity_pressure <- call_station globals "compute_capacity_pressure" ref ;;
  reliability <- call_evse globals "compute_reliability_downtime" evse_df ;;
  write_file outputs "daily_utilization_trends_refined.csv" daily_util ;;;
  write_file outputs "peak_periods_station_refined.csv" peak_periods ;;;
  write_file outputs "global_peak_hour_of_day_refined.csv" global_peak ;;;
  write_file outputs "capacity_pressure_station_refined.csv" capacity_pressure ;;;
  write_file outputs "reliability_evse_downtime_refined.csv" reliability.

End Refined.

(** ** Concrete inputs used by the scenarios *)

Module Scenarios.
Import DataPrep Analytics.

(** The three columns of a connector-level frame. *)
Record evse_obs : Type := mk_evse_obs {
  o_evse_id : string;
  o_hour : Z;
  o_charging_count : Z
}.

(** Connector [C1]: 26 consecutive hours with charging counts
    0,0,0,5, then 21 zeros, then 3. *)
Definition c1_counts : list Z := [0; 0; 0; 5] ++ repeat 0 21%nat ++ [3].

Definition c1_frame : list evse_obs :=
  map (fun p => mk_evse_obs "C1" (Z.of_nat (fst p) * ns_per_hour) (snd p))
      (combine (seq 0 26) c1_counts).

Definition detect (df : list evse_obs) (gap_hours : Z) : list downtime_row :=
  compute_reliability_downtime o_evse_id o_hour o_charging_count df gap_hours.

(** Station [S1], hour 2024-01-01T08:00Z. *)
Definition t0800 : Z := 1704096000 * 1000000000.

Definition s1_records (st : string) (n : nat) : list clean :=
  repeat (mk_clean (mk_canon "S1" "E1" st t0800) (floor_hour t0800)) n.

Definition s1_bucket : list clean :=
  s1_records "CHARGING" 3 ++ s1_records "AVAILABLE" 7.

Definition s1_bucket_out_of_order : list clean :=
  s1_bucket ++ s1_records "OUTOFORDER" 2.

(** The row of the station table for that bucket. *)
Definition s1_row : hourly_row :=
  mk_hourly_row "S1" t0800 [("AVAILABLE", 7); ("CHARGING", 3)] 10 3 (Fin (3 # 10)).

(** A station frame with a tie: two stations, S1 has rates 1/2, 9/10, 1/2. *)
Definition peak_frame : list Refined.station_view :=
  [ Refined.mk_station_view "S1" (0 * ns_per_hour) (Fin (1 # 2));
    Refined.mk_station_view "S2" (0 * ns_per_hour) (Fin (1 # 4));
    Refined.mk_station_view "S1" (1 * ns_per_hour) (Fin (9 # 10));
    Refined.mk_station_view "S1" (2 * ns_per_hour) (Fin (1 # 2)) ].

(** A connector whose rows skip three calendar hours: hours 0, 1, 5, 6,
    all without charging. *)
Definition gap_frame : list evse_obs :=
  [ mk_evse_obs "C2" (0 * ns_per_hour) 0;
    mk_evse_obs "C2" (1 * ns_per_hour) 0;
    mk_evse_obs "C2" (5 * ns_per_hour) 0;
    mk_evse_obs "C2" (6 * ns_per_hour) 0 ].

Definition s1_payload (st : option string) : payload :=
  mk_payload (Some "S1") (Some "E1") st (Some "2024-01-01T08:00:00Z").


(** One file whose only record lacks its status. *)
Definition null_status_only : list avro_file := [ [Body (s1_payload None)] ].

(** One file with an UNKNOWN and an OUTOFORDER record. *)
Definition mixed_file : list avro_file :=
  [ [Body (s1_payload (Some "UNKNOWN")); Body (s1_payload (Some "OUTOFORDER"))] ].

(** 1677-09-21T00:12:44Z, less than a second after the least instant that
    pandas represents; its hour starts before that instant. *)
Definition t1677 : Z := - 9223372036 * 1000000000.

Definition parse_1677 (column : list string) (s : string) : option Z := Some t1677.

(** A timestamp parser for the scenarios: every string is read as 08:00
    on 2024-01-01. *)
Definition parse_0800 (column : list string) (s : string) : option Z := Some t0800.

End Scenarios.

(** ** Discovery of the input files *)

Module Discovery.

(** A directory as [os.walk] sees it: its name, the names of its regular
    files and its subdirectories, each in the order in which the system lists
    them.  The name of the top directory is not used. *)
#[warnings="-register-all"]
Inductive dir : Type :=
| Dir (name : string) (filenames : list string) (subdirs : list dir).

Definition dir_name (d : dir) : string :=
  match d with Dir n _ _ => n end.

(** [s.endswith(suffix)] *)
Fixpoint endswith (s suffix : string) : bool :=
  if String.eqb s suffix then true
  else match s with
       | EmptyString => false
       | String _ s' => endswith s' suffix
       end.

(** [os.path.join(a, b)] on a POSIX system. *)
Definition os_path_join (a b : string) : string :=
  if String.prefix "/" b then b
  else if String.eqb a "" || endswith a "/" then a ++ b
  else a ++ "/" ++ b.

(** [os.walk(top)], top-down: the directory itself, then each subdirectory
    in turn.  Only the pairs [(dirpath, filenames)] are kept. *)
Fixpoint walk (top : string) (d : dir) : list (string * list string) :=
  match d with
  | Dir _ filenames subdirs =>
      (top, filenames)
        :: flat_map (fun sub => walk (os_path_join top (dir_name sub)) sub) subdirs
  end.

(** A top directory that does not exist yields nothing. *)
Definition os_walk (top : string) (t : option dir) : list (string * list string) :=
  match t with
  | Some d => walk top d
  | None => []
  end.

(** The two nested loops of [find_avro_files] without the final sort: the
    paths appended to [avro_files], in order. *)
Definition avro_paths (walked : list (string * list string)) : list string :=
  flat_map (fun w => map (os_path_join (fst w))
                         (filter (fun fname => endswith fname ".avro") (snd w)))
           walked.

(** [find_avro_files(root_dir)] of [data_prep.py]. *)
Definition find_avro_files (root_dir : string) (t : option dir) : list string :=
  stable_sort String.leb (avro_paths (os_walk root_dir t)).

(** [find_avro_files(limit)] of [explore_sample.py] and [explore_avro.py]:
    the same loops with a return from inside once [limit] paths are held.
    The inner loop gives [inl] when it returned and [inr] when it ran out. *)
Fixpoint scan_files (limit : Z) (root : string) (avros : list string)
         (files : list string) : list string + list string :=
  match files with
  | [] => inr avros
  | f :: rest =>
      if endswith f ".avro" then
        let avros' := avros ++ [os_path_join root f] in
        if limit <=? Z.of_nat (List.length avros') then inl avros'
        else scan_files limit root avros' rest
      else scan_files limit root avros rest
  end.

Fixpoint scan_walk (limit : Z) (avros : list string)
         (walked : list (string * list string)) : list string :=
  match walked with
  | [] => avros
  | w :: rest =>
      match scan_files limit (fst w) avros (snd w) with
      | inl returned => returned
      | inr avros' => scan_walk limit avros' rest
      end
  end.

Definition data_dir : string := "/root/data/nobil-realtime_datadump".

Definition find_avro_files_limit (limit : Z) (t : option dir) : list string :=
  scan_walk limit [] (os_walk data_dir t).

End Discovery.

(** ** Further concrete inputs *)

Module MoreScenarios.
Import DataPrep Analytics Discovery.

(** A station frame with two stations over two days. *)
Definition two_day_frame : list Refined.station_view :=
  [ Refined.mk_station_view "S1" (8 * ns_per_hour) (Fin (1 # 2));
    Refined.mk_station_view "S1" (9 * ns_per_hour) (Fin (1 # 1));
    Refined.mk_station_view "S1" (32 * ns_per_hour) (Fin (1 # 4));
    Refined.mk_station_view "S2" (8 * ns_per_hour) (Fin (0 # 1)) ].

(** The rates 0.95, 0.92, 0.5, 0.1 of one station. *)
Definition pressure_frame : list Refined.station_view :=
  [ Refined.mk_station_view "S1" (0 * ns_per_hour) (Fin (95 # 100));
    Refined.mk_station_view "S1" (1 * ns_per_hour) (Fin (92 # 100));
    Refined.mk_station_view "S1" (2 * ns_per_hour) (Fin (1 # 2));
    Refined.mk_station_view "S1" (3 * ns_per_hour) (Fin (1 # 10)) ].

(** Canonical records of one station: two connectors, three statuses. *)
Definition small_df : list canon :=
  [ mk_canon "S1" "E1" "CHARGING" (8 * ns_per_hour + 5);
    mk_canon "S1" "E2" "AVAILABLE" (8 * ns_per_hour + 7);
    mk_canon "S1" "E1" "UNKNOWN" (8 * ns_per_hour + 9);
    mk_canon "S1" "E2" "OUTOFORDER" (9 * ns_per_hour) ].

(** A small tree: two snapshots and a note at the top, one snapshot below. *)
Definition small_tree : dir :=
  Dir "dump" ["b.avro"; "notes.txt"; "a.avro"]
      [Dir "2024" ["c.avro"] []].

End MoreScenarios.

(** ** Vocabulary of the properties *)

Module Vocabulary.
Import DataPrep.

Section Runs.
Variable to_datetime : list string -> string -> option Z.

(** The canonical records of a run, before the status filter. *)
Definition canonical_records (avro_files : list avro_file) (sample_size : Z)
  : list canon :=
  normalize to_datetime (flat_map parse_avro_file (slice_to sample_size avro_files)).

(** The records that reach the aggregator. *)
Definition qualifying_records (avro_files : list avro_file) (sample_size : Z)
  : list clean :=
  exclude_unknown (canonical_records avro_files sample_size).
End Runs.

(** Every hour of the table starts within the int64 range, so that flooring
    the timestamps does not overflow. *)
Definition hours_representable (df_clean : list clean) : Prop :=
  forall c, In c df_clean -> int64_min <= hour c.

(** The order of float64 values, with no reference to a sort: NaN is
    comparable to nothing. *)
Definition float_le (x y : pyfloat) : Prop :=
  match x, y with
  | NaN, _ => False
  | _, NaN => False
  | NegInf, _ => True
  | _, PosInf => True
  | Fin a, Fin b => (a <= b)%Q
  | _, _ => False
  end.

(** In a table in descending order of rate, a row of rate [x] may stand
    before a row of rate [y]: [y] is missing, or [y <= x]. *)
Definition rate_ge (x y : pyfloat) : Prop :=
  isna y = true \/ float_le y x.

(** Some record with a status other than UNKNOWN lies in an hour that
    starts before the least int64 instant. *)
Definition hour_underflows (df : list canon) : bool :=
  existsb (fun c => negb (String.eqb (status c) "UNKNOWN")
                    && (timestamp c - timestamp c mod ns_per_hour <? int64_min)) df.


(** The lines of [unknown_analysis.txt]. *)
Definition exclusion_report (total unknown_count : Z) : artifact :=
  Report (mk_unknown_report
    [ [Lit "Total records: "; Int total];
      [Lit "UNKNOWN count: "; Int unknown_count];
      [Lit "UNKNOWN percentage: ";
       Fixed2 (Fin (Qmake unknown_count 1 / Qmake total 1 * 100)); Lit "%"];
      [Lit "Decision: Excluded 'UNKNOWN' status from occupancy metrics."] ]).

(** The [run] column computed in one pass: [prev] is the flag of the row
    before, [acc] the run id reached so far. *)
Fixpoint run_ids_from (prev : option bool) (acc : Z) (zs : list bool) : list Z :=
  match zs with
  | [] => []
  | z :: t =>
      let acc' := acc + (if ne_shift z prev then 1 else 0) in
      acc' :: run_ids_from (Some z) acc' t
  end.

Section QualifyingRows.
Context {R : Type}.
Variable evse_id : R -> string.
Variable hour : R -> Z.
Variable charging_count : R -> Z.

(** The rows of connector [e] that lie in one of its qualifying downtime
    runs: the zero-activity-only restriction of the table. *)
Definition qualifying_zero_rows (df_evse : list R) (gap_hours : Z) (e : string)
  : list R :=
  let grp := sort_by_hour hour (evse_group evse_id df_evse e) in
  let dr := downtime_runs gap_hours (runs charging_count grp) in
  map fst
      (filter (fun p => existsb (fun r => run_id r =? snd p) dr)
              (combine grp (run_col charging_count grp))).
End QualifyingRows.


(** Equality test on (entity, hour) pairs. *)
Definition str_Z_eqb (a b : string * Z) : bool :=
  String.eqb (fst a) (fst b) && (snd a =? snd b).

End Vocabulary.

(** * Properties *)

Import DataPrep Analytics Scenarios Vocabulary.
Import Discovery MoreScenarios.

(** ** The baseline entry point *)

(** C9: [compute_metrics.main] calls [compute_capacity_pressure], a name the
    module does not define (it defines [compute_capacity_pressure_messages]);
    for every pair of input tables the run ends in a NameError and no file
    has been written. *)
Theorem baseline_main_name_error :
  forall station_tbl evse_tbl : hourly_table,
    lookup ComputeMetrics.globals "compute_capacity_pressure" = None
    /\ lookup ComputeMetrics.globals "compute_capacity_pressure_messages" <> None
    /\ run (ComputeMetrics.main station_tbl evse_tbl)
       = (inl (NameError "compute_capacity_pressure"), empty_world).
Proof.
  intros station_tbl evse_tbl.
  split; [reflexivity | split; [discriminate | reflexivity]].
Qed.

(** ** Facts about the stable sort *)

Section StableSortFacts.
Context {A : Type} (leb : A -> A -> bool).

Lemma insert_perm (x : A) (l : list A) : Permutation (insert leb x l) (x :: l).
Proof.
  induction l as [|y t IH]; simpl.
  - apply Permutation_refl.
  - destruct (leb x y).
    + apply Permutation_refl.
    + apply perm_trans with (y :: x :: t).
      * apply perm_skip, IH.
      * apply perm_swap.
Qed.

Lemma stable_sort_perm (l : list A) : Permutation (stable_sort leb l) l.
Proof.
  induction l as [|x t IH]; simpl.
  - apply perm_nil.
  - apply perm_trans with (x :: stable_sort leb t).
    + apply insert_perm.
    + apply perm_skip, IH.
Qed.

Lemma stable_sort_In (l : list A) (x : A) : In x (stable_sort leb l) <-> In x l.
Proof.
  split; apply Permutation_in.
  - apply stable_sort_perm.
  - apply Permutation_sym, stable_sort_perm.
Qed.

Lemma stable_sort_length (l : list A) :
  List.length (stable_sort leb l) = List.length l.
Proof. apply Permutation_length, stable_sort_perm. Qed.

(** Rows that the order cannot tell apart keep their relative order. *)
Lemma insert_filter_class (p : A -> bool) :
  (forall x y, p x = true -> p y = true -> leb x y = true) ->
  forall x l, filter p (insert leb x l) = if p x then x :: filter p l else filter p l.
Proof.
  intros Hp x l.
  induction l as [|y t IH]; simpl.
  - reflexivity.
  - destruct (leb x y) eqn:Hxy; simpl.
    + reflexivity.
    + rewrite IH.
      destruct (p x) eqn:Hx, (p y) eqn:Hy; try reflexivity.
      rewrite (Hp x y Hx Hy) in Hxy. discriminate.
Qed.

Lemma stable_sort_filter_class (p : A -> bool) :
  (forall x y, p x = true -> p y = true -> leb x y = true) ->
  forall l, filter p (stable_sort leb l) = filter p l.
Proof.
  intros Hp l.
  induction l as [|x t IH]; simpl.
  - reflexivity.
  - rewrite (insert_filter_class p Hp), IH. reflexivity.
Qed.

Hypothesis leb_total : forall x y, leb x y = true \/ leb y x = true.
Hypothesis leb_trans : forall x y z, leb x y = true -> leb y z = true -> leb x z = true.

Lemma insert_sorted (x : A) (l : list A) :
  StronglySorted (fun a b => leb a b = true) l ->
  StronglySorted (fun a b => leb a b = true) (insert leb x l).
Proof.
  induction 1 as [|y t Hs IH Hall]; simpl.
  - constructor; constructor.
  - destruct (leb x y) eqn:Hxy.
    + constructor.
      * constructor; assumption.
      * constructor; [assumption|].
        rewrite Forall_forall in *. intros z Hz. eauto.
    + constructor; [assumption|].
      rewrite Forall_forall in *. intros z Hz.
      apply (Permutation_in _ (insert_perm x t)) in Hz.
      destruct Hz as [<-|Hz]; [|auto].
      destruct (leb_total x y) as [H|H]; congruence.
Qed.

Lemma stable_sort_sorted (l : list A) :
  StronglySorted (fun a b => leb a b = true) (stable_sort leb l).
Proof.
  induction l as [|x t IH]; simpl.
  - constructor.
  - apply insert_sorted, IH.
Qed.

End StableSortFacts.

(** Two sorted arrangements of rows with pairwise distinct keys coincide, so
    on such rows every sorting algorithm returns what [stable_sort] returns. *)
Lemma sorted_perm_eq {A} (key : A -> Z) (l1 l2 : list A) :
  NoDup (map key l1) ->
  Permutation l1 l2 ->
  StronglySorted (fun a b => (key a <=? key b) = true) l1 ->
  StronglySorted (fun a b => (key a <=? key b) = true) l2 ->
  l1 = l2.
Proof.
  revert l2.
  induction l1 as [|a t1 IH]; intros l2 Hnd Hperm Hs1 Hs2.
  - apply Permutation_nil in Hperm. subst. reflexivity.
  - destruct l2 as [|b t2].
    + apply Permutation_sym, Permutation_nil in Hperm. discriminate.
    + inversion Hnd as [|? ? Hnot Hnd']; subst.
      apply StronglySorted_inv in Hs1. destruct Hs1 as [Hs1 Hall1].
      apply StronglySorted_inv in Hs2. destruct Hs2 as [Hs2 Hall2].
      rewrite Forall_forall in Hall1, Hall2.
      assert (Hab : a = b).
      { assert (Ha : In a (b :: t2)) by (apply (Permutation_in _ Hperm); left; reflexivity).
        assert (Hb : In b (a :: t1))
          by (apply (Permutation_in _ (Permutation_sym Hperm)); left; reflexivity).
        destruct Ha as [Ha|Ha]; [congruence|].
        destruct Hb as [Hb|Hb]; [congruence|].
        exfalso. apply Hnot.
        pose proof (Hall1 b Hb) as H1. pose proof (Hall2 a Ha) as H2.
        apply Z.leb_le in H1. apply Z.leb_le in H2.
        replace (key a) with (key b) by lia. apply in_map, Hb. }
      subst b. f_equal.
      apply IH; [exact Hnd' | apply (Permutation_cons_inv Hperm) | exact Hs1 | exact Hs2].
Qed.

Lemma sort_by_hour_unique {R} (hour : R -> Z) (group l : list R) :
  NoDup (map hour group) ->
  Permutation l group ->
  StronglySorted (fun a b => (hour a <=? hour b) = true) l ->
  l = sort_by_hour hour group.
Proof.
  intros Hnd Hperm Hs.
  assert (Hsort : Permutation (sort_by_hour hour group) group)
    by apply stable_sort_perm.
  apply (sorted_perm_eq hour).
  - apply (Permutation_NoDup (Permutation_map hour (Permutation_sym Hperm))), Hnd.
  - apply (perm_trans Hperm), Permutation_sym, Hsort.
  - exact Hs.
  - apply stable_sort_sorted.
    + intros x y. rewrite !Z.leb_le. lia.
    + intros x y z. rewrite !Z.leb_le. lia.
Qed.

(** ** Facts about lookups and group keys *)

Lemma filter_none {A} (p : A -> bool) (l : list A) :
  (forall x, In x l -> p x = false) -> filter p l = [].
Proof.
  induction l as [|x t IH]; simpl; intros H.
  - reflexivity.
  - rewrite (H x (or_introl eq_refl)). apply IH. intros y Hy. apply H. right. exact Hy.
Qed.

Lemma get_In {V} (l : list (string * V)) (k : string) (v d : V) :
  NoDup (map fst l) -> In (k, v) l -> get l k d = v.
Proof.
  induction l as [|[k' v'] t IH]; simpl; intros Hnd Hin.
  - contradiction.
  - inversion Hnd as [|? ? Hnot Hnd']; subst.
    destruct Hin as [Heq|Hin].
    + inversion Heq; subst. rewrite String.eqb_refl. reflexivity.
    + destruct (String.eqb k' k) eqn:E.
      * apply String.eqb_eq in E. subst k'.
        exfalso. apply Hnot. change k with (fst (k, v)). apply in_map, Hin.
      * apply IH; assumption.
Qed.

Lemma get_absent {V} (l : list (string * V)) (k : string) (d : V) :
  ~ In k (map fst l) -> get l k d = d.
Proof.
  induction l as [|[k' v'] t IH]; simpl; intros Hnot.
  - reflexivity.
  - destruct (String.eqb k' k) eqn:E.
    + apply String.eqb_eq in E. exfalso. apply Hnot. left. exact E.
    + apply IH. intro H. apply Hnot. right. exact H.
Qed.

Lemma group_keys_str_In (l : list string) (s : string) :
  In s (group_keys_str l) <-> In s l.
Proof.
  unfold group_keys_str. rewrite stable_sort_In. apply nodup_In.
Qed.

Lemma group_keys_str_NoDup (l : list string) : NoDup (group_keys_str l).
Proof.
  unfold group_keys_str.
  apply (Permutation_NoDup (Permutation_sym (stable_sort_perm _ _))).
  apply NoDup_nodup.
Qed.

Lemma group_keys_str_Z_In (l : list (string * Z)) (k : string * Z) :
  In k (group_keys_str_Z l) <-> In k l.
Proof.
  unfold group_keys_str_Z. rewrite stable_sort_In. apply nodup_In.
Qed.

Lemma group_keys_Z_In (l : list Z) (k : Z) : In k (group_keys_Z l) <-> In k l.
Proof.
  unfold group_keys_Z. rewrite stable_sort_In. apply nodup_In.
Qed.

Lemma group_keys_Z_NoDup (l : list Z) : NoDup (group_keys_Z l).
Proof.
  unfold group_keys_Z.
  apply (Permutation_NoDup (Permutation_sym (stable_sort_perm _ _))).
  apply NoDup_nodup.
Qed.

Lemma unique_str_In (l : list string) (s : string) : In s (unique_str l) <-> In s l.
Proof.
  unfold unique_str. rewrite <- in_rev, nodup_In, <- in_rev. reflexivity.
Qed.

Lemma unique_str_NoDup (l : list string) : NoDup (unique_str l).
Proof.
  unfold unique_str. apply NoDup_rev, NoDup_nodup.
Qed.

Lemma value_counts_get (df : list canon) (s : string) :
  get (value_counts df) s 0 = count_status s df.
Proof.
  unfold value_counts, count_status.
  set (cnt := fun s0 : string =>
                (s0, Z.of_nat (List.length
                                 (filter (fun r => String.eqb (status r) s0) df)))).
  set (sorted := stable_sort _ _).
  assert (Hkeys : Permutation (map fst sorted) (unique_str (map status df))).
  { unfold sorted.
    eapply perm_trans; [apply Permutation_map, stable_sort_perm|].
    rewrite map_map. simpl. rewrite map_id. apply Permutation_refl. }
  assert (Hnd : NoDup (map fst sorted)).
  { apply (Permutation_NoDup (Permutation_sym Hkeys)), unique_str_NoDup. }
  destruct (in_dec string_dec s (map status df)) as [Hin|Hout].
  - apply get_In; [exact Hnd|].
    unfold sorted. apply stable_sort_In.
    change (In (cnt s) (map cnt (unique_str (map status df)))).
    apply in_map, unique_str_In, Hin.
  - rewrite get_absent.
    + rewrite filter_none; [reflexivity|].
      intros r Hr. apply String.eqb_neq. intros <-.
      apply Hout, in_map, Hr.
    + intro H. apply Hout. apply unique_str_In.
      apply (Permutation_in _ Hkeys H).
Qed.

(** ** Runs of [data_prep.main] *)


Lemma normalize_nil (to_datetime : list string -> string -> option Z) : normalize to_datetime [] = [].
Proof. reflexivity. Qed.

Lemma hours_representable_no_overflow (df_clean : list clean) :
  existsb floor_overflows df_clean = false <-> hours_representable df_clean.
Proof.
  unfold hours_representable, floor_overflows. split.
  - intros H c Hc. destruct (hour c <? int64_min) eqn:E; [|apply Z.ltb_ge, E].
    assert (Hex : existsb (fun c0 => hour c0 <? int64_min) df_clean = true)
      by (apply existsb_exists; exists c; auto).
    rewrite H in Hex. discriminate.
  - intros H. destruct (existsb _ df_clean) eqn:E; [|reflexivity].
    apply existsb_exists in E. destruct E as [c [Hc Hlt]].
    apply Z.ltb_lt in Hlt. specialize (H c Hc). lia.
Qed.

Lemma hour_underflows_spec (df : list canon) :
  hour_underflows df = existsb floor_overflows (exclude_unknown df).
Proof.
  unfold hour_underflows, exclude_unknown, floor_overflows.
  induction df as [|c t IH]; [reflexivity|].
  cbn [existsb filter]. destruct (negb (String.eqb (status c) "UNKNOWN")).
  - cbn [map existsb hour rec andb]. rewrite IH. reflexivity.
  - cbn [andb orb]. exact IH.
Qed.

Lemma main_completes (to_datetime : list string -> string -> option Z)
      (avro_files : list avro_file) (sample_size : Z) :
  avro_files <> [] ->
  canonical_records to_datetime avro_files sample_size <> [] ->
  hours_representable (qualifying_records to_datetime avro_files sample_size) ->
  let df := canonical_records to_datetime avro_files sample_size in
  let df_clean := exclude_unknown df in
  exists out,
    run (main to_datetime avro_files sample_size)
    = (inr tt,
       mk_world out
         [ (outdir ++ "status_summary.csv", StatusSummary (value_counts df));
           (outdir ++ "occupancy_station_hourly.parquet",
            Hourly (aggregate station_id df_clean));
           (outdir ++ "occupancy_evse_hourly.parquet",
            Hourly (aggregate evse_id df_clean));
           (outdir ++ "flattened_sample.parquet", Flattened df_clean);
           (outdir ++ "unknown_analysis.txt",
            exclusion_report (Z.of_nat (List.length df)) (count_status "UNKNOWN" df)) ]%string
         [outdir]).
Proof.
  intros Hfiles Hdf Hrange df df_clean.
  apply hours_representable_no_overflow in Hrange.
  unfold df_clean, df, qualifying_records, canonical_records in *.
  unfold main, run, bind, print, ret, raise, makedirs, write_file, exclusion_report.
  destruct avro_files as [|f fs]; [contradiction|].
  set (all_recs := flat_map parse_avro_file (slice_to sample_size (f :: fs))) in *.
  destruct all_recs as [|r rs] eqn:Hall; [exfalso; apply Hdf; reflexivity|].
  rewrite value_counts_get.
  set (df0 := normalize to_datetime (r :: rs)) in *.
  assert (Hlen : (Z.of_nat (List.length df0) =? 0) = false).
  { apply Z.eqb_neq. destruct df0; [contradiction|simpl; lia]. }
  cbn [stdout files dirs fst snd]. rewrite Hlen.
  cbn [stdout files dirs fst snd]. rewrite Hrange.
  cbn [stdout files dirs fst snd app existsb].
  replace (String.eqb outdir outdir) with true by (symmetry; apply String.eqb_refl).
  cbn [orb stdout files dirs fst snd app].
  eexists. reflexivity.
Qed.

(** A run that stops with an exception has written no file. *)
Lemma main_halt_writes_nothing (to_datetime : list string -> string -> option Z)
      (avro_files : list avro_file) (sample_size : Z) (e : exn) :
  fst (run (main to_datetime avro_files sample_size)) = inl e ->
  files (snd (run (main to_datetime avro_files sample_size))) = [].
Proof.
  destruct avro_files as [|f fs]; [reflexivity|].
  unfold main, run, bind, print, ret, raise, makedirs, write_file.
  destruct (flat_map parse_avro_file (slice_to sample_size (f :: fs))) as [|r rs];
    [reflexivity|].
  cbn [stdout files dirs fst snd].
  destruct (Z.of_nat (List.length (normalize to_datetime (r :: rs))) =? 0);
    [reflexivity|].
  cbn [stdout files dirs fst snd].
  destruct (existsb floor_overflows _); [reflexivity|].
  cbn [stdout files dirs fst snd app existsb].
  replace (String.eqb outdir outdir) with true by (symmetry; apply String.eqb_refl).
  cbn [orb stdout files dirs fst snd app]. discriminate.
Qed.

(** A file whose records all lack a field stops the run in the division of
    line 77, not in the empty-input check. *)
Lemma main_null_status_run :
  qualifying_records parse_0800 null_status_only 500 = []
  /\ fst (run (main parse_0800 null_status_only 500)) = inl ZeroDivisionError.
Proof. split; reflexivity. Qed.

(** A record in the first representable hour stops the run in the flooring
    of line 84, after the UNKNOWN line is printed and before any file is
    written. *)
Example main_overflow_run :
  fst (run (main parse_1677 mixed_file 500)) = inl OverflowError
  /\ files (snd (run (main parse_1677 mixed_file 500))) = []
  /\ dirs (snd (run (main parse_1677 mixed_file 500))) = [].
Proof. repeat split; reflexivity. Qed.



(** ** Exclusion of UNKNOWN *)

Lemma exclude_unknown_In (df : list canon) (c : clean) :
  In c (exclude_unknown df) ->
  In (rec c) df /\ status (rec c) <> "UNKNOWN" /\ hour c = floor_hour (timestamp (rec c)).
Proof.
  unfold exclude_unknown. rewrite in_map_iff.
  intros [r [<- Hr]]. apply filter_In in Hr. destruct Hr as [Hin Hst].
  simpl. repeat split; [exact Hin|].
  apply String.eqb_neq. apply negb_true_iff. exact Hst.
Qed.

Lemma aggregate_columns_In (key : canon -> string) (df_clean : list clean) (s : string) :
  In s (status_columns (aggregate key df_clean))
  <-> exists c, In c df_clean /\ status (rec c) = s.
Proof.
  unfold aggregate. simpl. rewrite group_keys_str_In, in_map_iff.
  split; intros [c [H1 H2]]; exists c; auto.
Qed.

(** C8: every record that reaches the aggregator has a status other than
    UNKNOWN, so neither hourly table has an UNKNOWN column; and a run with at
    least one canonical record, none of them so early that its hour starts
    before the least int64 instant (where flooring raises an OverflowError),
    completes and writes [unknown_analysis.txt] with the total record count,
    the UNKNOWN count, the UNKNOWN percentage and the exclusion decision, next
    to the two hourly tables built from the remaining records. *)
Theorem unknown_excluded_and_reported :
  forall (to_datetime : list string -> string -> option Z) (avro_files : list avro_file)
         (sample_size : Z),
    avro_files <> [] ->
    canonical_records to_datetime avro_files sample_size <> [] ->
    hours_representable (qualifying_records to_datetime avro_files sample_size) ->
    let df := canonical_records to_datetime avro_files sample_size in
    let df_clean := qualifying_records to_datetime avro_files sample_size in
    let r := run (main to_datetime avro_files sample_size) in
    (forall c, In c df_clean -> status (rec c) <> "UNKNOWN")
    /\ ~ In "UNKNOWN" (status_columns (aggregate station_id df_clean))
    /\ ~ In "UNKNOWN" (status_columns (aggregate evse_id df_clean))
    /\ fst r = inr tt
    /\ In ((outdir ++ "unknown_analysis.txt")%string,
           exclusion_report (Z.of_nat (List.length df)) (count_status "UNKNOWN" df))
          (files (snd r))
    /\ In ((outdir ++ "occupancy_station_hourly.parquet")%string,
           Hourly (aggregate station_id df_clean)) (files (snd r))
    /\ In ((outdir ++ "occupancy_evse_hourly.parquet")%string,
           Hourly (aggregate evse_id df_clean)) (files (snd r)).
Proof.
  intros to_datetime avro_files sample_size Hfiles Hdf Hrange df df_clean r.
  assert (Hclean : forall c, In c df_clean -> status (rec c) <> "UNKNOWN").
  { intros c Hc. apply (exclude_unknown_In _ _ Hc). }
  split; [exact Hclean|].
  split; [|split].
  - rewrite aggregate_columns_In. intros [c [Hc Hs]]. exact (Hclean c Hc Hs).
  - rewrite aggregate_columns_In. intros [c [Hc Hs]]. exact (Hclean c Hc Hs).
  - destruct (main_completes to_datetime avro_files sample_size Hfiles Hdf Hrange)
      as [out Hrun].
    unfold r. rewrite Hrun. cbn [fst snd files].
    split; [reflexivity|].
    split; [|split].
    + do 4 right. left. reflexivity.
    + right. left. reflexivity.
    + do 2 right. left. reflexivity.
Qed.

Lemma unknown_excluded_and_reported_witness :
  In ((outdir ++ "unknown_analysis.txt")%string, exclusion_report 2 1)
     (files (snd (run (main parse_0800 mixed_file 500)))).
Proof.
  assert (H1 : mixed_file <> []) by discriminate.
  assert (H2 : canonical_records parse_0800 mixed_file 500 <> []) by discriminate.
  assert (H3 : hours_representable (qualifying_records parse_0800 mixed_file 500)).
  { apply hours_representable_no_overflow. reflexivity. }
  exact (proj1 (proj2 (proj2 (proj2 (proj2
           (unknown_excluded_and_reported parse_0800 mixed_file 500 H1 H2 H3)))))).
Defined.

(** ** The AVAILABLE column in the refined entry point *)

Lemma aggregate_row_inv (key : canon -> string) (df_clean : list clean) (row : hourly_row) :
  In row (rows (aggregate key df_clean)) ->
  let cols := status_columns (aggregate key df_clean) in
  let cnt := map (fun s => (s, size_at key df_clean (entity row) (h_hour row) s)) cols in
  counts row = cnt
  /\ total row = sum_Z (map snd cnt)
  /\ charging row = get cnt "CHARGING" 0
  /\ occupancy_rate row = truediv (charging row) (total row)
  /\ exists c, In c df_clean /\ key (rec c) = entity row /\ hour c = h_hour row.
Proof.
  unfold aggregate. simpl. rewrite in_map_iff.
  intros [k [<- Hk]]. simpl. repeat split.
  apply (proj1 (group_keys_str_Z_In _ _)) in Hk. apply (proj1 (in_map_iff _ _ _)) in Hk.
  destruct Hk as [c [Hc Hin]]. exists c. subst k. simpl. auto.
Qed.



(** ** Accounting invariant of the hourly tables *)

Lemma sum_Z_bounds (l : list Z) :
  (forall x, In x l -> 0 <= x) ->
  0 <= sum_Z l /\ forall x, In x l -> x <= sum_Z l.
Proof.
  induction l as [|y t IH]; simpl; intros Hpos.
  - split; [lia | intros x []].
  - destruct IH as [H0 Hle]; [intros x Hx; apply Hpos; right; exact Hx|].
    assert (0 <= y) by (apply Hpos; left; reflexivity).
    split; [lia|].
    intros x [<-|Hx]; [lia|]. specialize (Hle x Hx). lia.
Qed.

Lemma size_at_nonneg (key : canon -> string) (df_clean : list clean)
      (e : string) (h : Z) (s : string) :
  0 <= size_at key df_clean e h s.
Proof. unfold size_at. lia. Qed.

Lemma size_at_member (key : canon -> string) (df_clean : list clean) (c : clean) :
  In c df_clean -> 1 <= size_at key df_clean (key (rec c)) (hour c) (status (rec c)).
Proof.
  intros Hc. unfold size_at.
  set (p := fun r : clean => _).
  assert (Hin : In c (filter p df_clean)).
  { apply filter_In. split; [exact Hc|]. unfold p.
    rewrite !String.eqb_refl, Z.eqb_refl. reflexivity. }
  destruct (filter p df_clean); [contradiction | simpl; lia].
Qed.

Lemma truediv_fraction (a b : Z) :
  0 <= a <= b -> 0 < b ->
  exists q, truediv a b = Fin q /\ (q == Qmake a 1 / Qmake b 1)%Q
            /\ (0 <= q)%Q /\ (q <= 1)%Q.
Proof.
  intros Hab Hb. unfold truediv.
  destruct (b =? 0) eqn:E; [apply Z.eqb_eq in E; lia|].
  exists (Qmake a 1 / Qmake b 1)%Q.
  assert (Hpos : (0 < Qmake b 1)%Q) by (unfold Qlt; simpl; lia).
  split; [reflexivity|]. split; [apply Qeq_refl|]. split.
  - apply Qle_shift_div_l; [exact Hpos|].
    unfold Qle, Qmult. cbn [Qnum Qden]. lia.
  - apply Qle_shift_div_r; [exact Hpos|].
    unfold Qle, Qmult. cbn [Qnum Qden]. lia.
Qed.

Lemma aggregate_row_bounds (key : canon -> string) (df_clean : list clean)
      (row : hourly_row) :
  In row (rows (aggregate key df_clean)) ->
  map fst (counts row) = status_columns (aggregate key df_clean)
  /\ (forall s n, In (s, n) (counts row) ->
        n = size_at key df_clean (entity row) (h_hour row) s)
  /\ total row = sum_Z (map snd (counts row))
  /\ 0 <= charging row <= total row
  /\ 0 < total row
  /\ exists q, occupancy_rate row = Fin q
               /\ (q == Qmake (charging row) 1 / Qmake (total row) 1)%Q
               /\ (0 <= q)%Q /\ (q <= 1)%Q.
Proof.
  intros Hrow.
  destruct (aggregate_row_inv key df_clean row Hrow)
    as [Hcnt [Htot [Hchg [Hocc [c [Hc [Hkey Hhour]]]]]]].
  set (cols := status_columns (aggregate key df_clean)) in *.
  set (cnt := map (fun s => (s, size_at key df_clean (entity row) (h_hour row) s)) cols)
    in *.
  assert (Hfst : map fst cnt = cols).
  { unfold cnt. rewrite map_map. simpl. apply map_id. }
  assert (Hnd : NoDup (map fst cnt)).
  { rewrite Hfst. apply group_keys_str_NoDup. }
  assert (Hval : forall s n, In (s, n) cnt ->
                             n = size_at key df_clean (entity row) (h_hour row) s).
  { intros s n Hin. apply (proj1 (in_map_iff _ _ _)) in Hin.
    destruct Hin as [s' [Heq _]]. inversion Heq. reflexivity. }
  assert (Hpos : forall x, In x (map snd cnt) -> 0 <= x).
  { intros x Hx. apply (proj1 (in_map_iff _ _ _)) in Hx.
    destruct Hx as [[s n] [<- Hin]]. simpl. rewrite (Hval s n Hin).
    apply size_at_nonneg. }
  destruct (sum_Z_bounds _ Hpos) as [Hsum0 Hsumle].
  assert (Htotal : 0 < total row).
  { rewrite Htot.
    assert (Hs : In (status (rec c)) cols).
    { apply aggregate_columns_In. exists c. auto. }
    assert (Hin : In (size_at key df_clean (entity row) (h_hour row) (status (rec c)))
                     (map snd cnt)).
    { unfold cnt. rewrite map_map. simpl.
      apply (in_map (fun s => size_at key df_clean (entity row) (h_hour row) s)), Hs. }
    specialize (Hsumle _ Hin).
    pose proof (size_at_member key df_clean c Hc) as H1.
    rewrite Hkey, Hhour in H1. lia. }
  assert (Hcharging : 0 <= charging row <= total row).
  { rewrite Hchg, Htot.
    destruct (in_dec string_dec "CHARGING" cols) as [Hin|Hout].
    - set (n := size_at key df_clean (entity row) (h_hour row) "CHARGING").
      assert (Hmem : In ("CHARGING", n) cnt).
      { unfold cnt.
        apply (in_map (fun s => (s, size_at key df_clean (entity row) (h_hour row) s))), Hin. }
      rewrite (get_In cnt "CHARGING" n 0 Hnd Hmem).
      split; [apply size_at_nonneg|].
      apply Hsumle. change n with (snd ("CHARGING", n)). apply in_map, Hmem.
    - rewrite get_absent; [lia|]. rewrite Hfst. exact Hout. }
  rewrite Hcnt.
  split; [exact Hfst|]. split; [exact Hval|]. split; [exact Htot|].
  split; [exact Hcharging|]. split; [exact Htotal|].
  rewrite Hocc. apply truediv_fraction; assumption.
Qed.

(** C4: in every row of an hourly table built by the aggregator (for the
    station key as for the connector key) the status columns hold the number
    of records of the bucket per status, [total] is the sum of the status
    columns, [0 <= charging <= total], [total > 0], and [occupancy_rate] is
    the rational [charging / total], between 0 and 1. *)
Theorem hourly_row_accounting :
  forall (key : canon -> string) (df_clean : list clean) (row : hourly_row),
    In row (rows (aggregate key df_clean)) ->
    map fst (counts row) = status_columns (aggregate key df_clean)
    /\ (forall s n, In (s, n) (counts row) ->
          n = size_at key df_clean (entity row) (h_hour row) s)
    /\ total row = sum_Z (map snd (counts row))
    /\ 0 <= charging row <= total row
    /\ 0 < total row
    /\ exists q, occupancy_rate row = Fin q
                 /\ (q == Qmake (charging row) 1 / Qmake (total row) 1)%Q
                 /\ (0 <= q)%Q /\ (q <= 1)%Q.
Proof.
  intros key df_clean row Hrow. apply aggregate_row_bounds, Hrow.
Qed.

Lemma hourly_row_accounting_witness :
  In s1_row (rows (aggregate station_id s1_bucket))
  /\ total s1_row = sum_Z (map snd (counts s1_row))
  /\ 0 <= charging s1_row <= total s1_row
  /\ 0 < total s1_row.
Proof.
  assert (H : In s1_row (rows (aggregate station_id s1_bucket))).
  { vm_compute. left. reflexivity. }
  split; [exact H|].
  destruct (hourly_row_accounting station_id s1_bucket s1_row H)
    as [_ [_ [Ht [Hc [Hp _]]]]].
  exact (conj Ht (conj Hc Hp)).
Defined.

(** ** The refined occupancy rate *)

Lemma aggregate_get_nonneg (key : canon -> string) (df_clean : list clean)
      (row : hourly_row) (s : string) :
  In row (rows (aggregate key df_clean)) -> 0 <= get (counts row) s 0.
Proof.
  intros Hrow.
  destruct (aggregate_row_bounds key df_clean row Hrow) as [Hfst [Hval _]].
  destruct (in_dec string_dec s (map fst (counts row))) as [Hin|Hout].
  - apply (proj1 (in_map_iff _ _ _)) in Hin. destruct Hin as [[s' n] [Hs Hin]].
    simpl in Hs. subst s'.
    rewrite (get_In (counts row) s n 0); [|rewrite Hfst; apply group_keys_str_NoDup|exact Hin].
    rewrite (Hval s n Hin). apply size_at_nonneg.
  - rewrite get_absent; [lia | exact Hout].
Qed.

Lemma truediv_isna (a b : Z) : 0 <= a -> 0 <= b -> isna (truediv a (a + b)) = (a + b =? 0).
Proof.
  intros Ha Hb. unfold truediv.
  destruct (a + b =? 0) eqn:E; [|reflexivity].
  apply Z.eqb_eq in E.
  replace a with 0 by lia. reflexivity.
Qed.

Lemma truediv_nonzero (a b : Z) : (b =? 0) = false -> truediv a b = Fin (Qmake a 1 / Qmake b 1).
Proof. intros E. unfold truediv. rewrite E. reflexivity. Qed.

Lemma refined_rows_kept (df_clean : list clean) :
  let t := aggregate station_id df_clean in
  let av := fun r : hourly_row => get (counts r) "AVAILABLE" 0 in
  Refined.station_ref av (rows t)
  = map (fun r => Refined.mk_station_view (entity r) (h_hour r)
                    (Fin (Qmake (charging r) 1 / Qmake (charging r + av r) 1)))
        (filter (fun r => negb (charging r + av r =? 0)) (rows t)).
Proof.
  intros t av. unfold Refined.station_ref, Refined.occupancy_rate_refined.
  assert (Hrow : forall r, In r (rows t) ->
                           isna (truediv (charging r) (charging r + av r))
                           = (charging r + av r =? 0)).
  { intros r Hr. apply truediv_isna.
    - apply (aggregate_row_bounds station_id df_clean r Hr).
    - apply (aggregate_get_nonneg station_id df_clean r "AVAILABLE" Hr). }
  rewrite (filter_ext_in _ (fun r => negb (charging r + av r =? 0))).
  - apply map_ext_in. intros r Hr. apply filter_In in Hr. destruct Hr as [_ Hnz].
    rewrite truediv_nonzero; [reflexivity|].
    apply negb_true_iff. exact Hnz.
  - intros r Hr. rewrite (Hrow r Hr). reflexivity.
Qed.



(** ** Peak periods *)

Lemma string_leb_refl (s : string) : String.leb s s = true.
Proof.
  unfold String.leb.
  pose proof (String.compare_antisym s s) as H.
  destruct (String.compare s s); [reflexivity | reflexivity | discriminate H].
Qed.

Lemma fle_trans (x y z : pyfloat) : fle x y = true -> fle y z = true -> fle x z = true.
Proof.
  destruct x as [| | |a], y as [| | |b], z as [| | |c]; simpl; try congruence.
  rewrite !Qle_bool_iff. apply Qle_trans.
Qed.

Section PeakPeriods.
Context {S : Type}.
Variable station_id : S -> string.
Variable occupancy_rate : S -> pyfloat.

Let desc := rate_desc_leb occupancy_rate.
Let same := same_station station_id.

Lemma rate_desc_leb_total (a b : S) : desc a b = true \/ desc b a = true.
Proof.
  unfold desc, rate_desc_leb.
  destruct (occupancy_rate a) as [| | |x] eqn:Ha, (occupancy_rate b) as [| | |y] eqn:Hb;
    simpl; auto.
  rewrite !Qle_bool_iff.
  destruct (Qlt_le_dec x y) as [H|H]; [right; apply Qlt_le_weak, H | left; exact H].
Qed.

Lemma rate_desc_leb_trans (a b c : S) :
  desc a b = true -> desc b c = true -> desc a c = true.
Proof.
  unfold desc, rate_desc_leb.
  destruct (occupancy_rate a) as [| | |x], (occupancy_rate b) as [| | |y],
           (occupancy_rate c) as [| | |z]; simpl; try congruence.
  rewrite !Qle_bool_iff. intros H1 H2. apply (Qle_trans _ _ _ H2 H1).
Qed.

(** Rows with the same rate are not separated by the order. *)
Lemma rate_desc_leb_same (v : pyfloat) (a b : S) :
  fsame v (occupancy_rate a) = true -> fsame v (occupancy_rate b) = true ->
  desc a b = true.
Proof.
  unfold desc, rate_desc_leb, fsame.
  destruct v as [| | |q], (occupancy_rate a) as [| | |x], (occupancy_rate b) as [| | |y];
    simpl; try congruence.
  rewrite !andb_true_iff, !Qle_bool_iff.
  intros [H1 H2] [H3 H4]. apply (Qle_trans _ _ _ H4 H1).
Qed.

Lemma count_station_app (e : string) (l : list S) (r : S) :
  count_station station_id e (l ++ [r])
  = count_station station_id e l + (if same e r then 1 else 0).
Proof.
  unfold count_station. rewrite filter_app, length_app. simpl.
  fold (same e r). destruct (same e r); simpl; lia.
Qed.

Lemma groupby_head_from_filter (n : Z) (e : string) (all seen rest : list S) :
  0 <= n ->
  filter (same e) (groupby_head_from station_id n all seen rest)
  = firstn (Z.to_nat (n - count_station station_id e seen)) (filter (same e) rest).
Proof.
  intros Hn. revert seen.
  induction rest as [|r t IH]; intros seen; simpl.
  - rewrite firstn_nil. reflexivity.
  - rewrite filter_app, IH, count_station_app.
    apply Z.leb_le in Hn. rewrite Hn.
    destruct (same e r) eqn:Hr.
    + assert (He : station_id r = e) by (apply String.eqb_eq, Hr).
      rewrite He.
      set (c := count_station station_id e seen).
      destruct (c <? n) eqn:Hc.
      * apply Z.ltb_lt in Hc. simpl. rewrite Hr. simpl.
        replace (Z.to_nat (n - c)) with (Datatypes.S (Z.to_nat (n - (c + 1)))) by lia.
        reflexivity.
      * apply Z.ltb_ge in Hc. simpl.
        replace (Z.to_nat (n - c)) with 0%nat by lia.
        replace (Z.to_nat (n - (c + 1))) with 0%nat by lia.
        reflexivity.
    + rewrite Z.add_0_r.
      destruct (count_station station_id (station_id r) seen <? n); simpl;
        [rewrite Hr|]; reflexivity.
Qed.

(** The rows of one station in the output are the first [top_n] rows of that
    station in the frame sorted by rate. *)
Lemma peak_periods_of_station (df : list S) (top_n : Z) (e : string) :
  0 <= top_n ->
  filter (same e) (compute_peak_periods station_id occupancy_rate df top_n)
  = firstn (Z.to_nat top_n) (filter (same e) (stable_sort desc df)).
Proof.
  intros Hn. unfold compute_peak_periods, groupby_head, sort_values_station_rate.
  rewrite (groupby_head_from_filter top_n e _ [] _ Hn).
  unfold count_station. simpl. rewrite Z.sub_0_r.
  f_equal. apply stable_sort_filter_class.
  intros x y Hx Hy. unfold station_leb.
  apply String.eqb_eq in Hx. apply String.eqb_eq in Hy.
  rewrite Hx, Hy. apply string_leb_refl.
Qed.

End PeakPeriods.

Lemma filter_perm {A} (p : A -> bool) (l l' : list A) :
  Permutation l l' -> Permutation (filter p l) (filter p l').
Proof.
  induction 1 as [|x l l' _ IH|x y l|l l' l'' _ IH1 _ IH2]; simpl.
  - apply perm_nil.
  - destruct (p x); [apply perm_skip|]; exact IH.
  - destruct (p x), (p y); try apply Permutation_refl. apply perm_swap.
  - apply perm_trans with (filter p l'); assumption.
Qed.

Lemma filter_comm {A} (p q : A -> bool) (l : list A) :
  filter p (filter q l) = filter q (filter p l).
Proof.
  induction l as [|x t IH]; simpl; [reflexivity|].
  destruct (p x) eqn:Hp, (q x) eqn:Hq; simpl; rewrite ?Hp, ?Hq, IH; reflexivity.
Qed.

Lemma StronglySorted_filter {A} (R : A -> A -> Prop) (p : A -> bool) (l : list A) :
  StronglySorted R l -> StronglySorted R (filter p l).
Proof.
  induction 1 as [|x t Hs IH Hall]; simpl.
  - constructor.
  - destruct (p x); [|exact IH].
    constructor; [exact IH|].
    rewrite Forall_forall in *. intros y Hy. apply Hall.
    apply filter_In in Hy. apply Hy.
Qed.

Lemma StronglySorted_nth_error {A} (R : A -> A -> Prop) (l : list A) :
  StronglySorted R l ->
  forall (i j : nat) (a b : A),
    (i < j)%nat -> nth_error l i = Some a -> nth_error l j = Some b -> R a b.
Proof.
  induction 1 as [|x t Hs IH Hall]; intros i j a b Hij Ha Hb.
  - destruct i; discriminate.
  - destruct j as [|j]; [lia|]. cbn [nth_error] in Hb.
    destruct i as [|i]; cbn [nth_error] in Ha.
    + inversion Ha; subst x. rewrite Forall_forall in Hall.
      apply Hall. apply (nth_error_In _ _ Hb).
    + apply (IH i j a b); [lia | exact Ha | exact Hb].
Qed.

Lemma StronglySorted_firstn {A} (R : A -> A -> Prop) (n : nat) (l : list A) :
  StronglySorted R l -> StronglySorted R (firstn n l).
Proof.
  intros Hs. revert n.
  induction Hs as [|x t Hs IH Hall]; intros [|n]; simpl; try constructor.
  - apply IH.
  - rewrite Forall_forall in *. intros y Hy. apply Hall.
    rewrite <- (firstn_skipn n t). apply in_or_app. left. exact Hy.
Qed.

Lemma StronglySorted_weaken {A} (P Q : A -> A -> Prop) (l : list A) :
  (forall a b, P a b -> Q a b) -> StronglySorted P l -> StronglySorted Q l.
Proof.
  intros HPQ H. induction H as [|x t Hs IH Hall]; constructor.
  - exact IH.
  - rewrite Forall_forall in *. intros y Hy. apply HPQ, Hall, Hy.
Qed.

Lemma fle_float_le (x y : pyfloat) : fle x y = true -> float_le x y.
Proof.
  destruct x as [| | |a], y as [| | |b]; simpl; try discriminate; try exact (fun _ => I).
  apply Qle_bool_imp_le.
Qed.

(** What the comparator of the sort means for the rates of two rows. *)
Lemma rate_desc_leb_rate_ge {S} (occupancy_rate : S -> pyfloat) (a b : S) :
  rate_desc_leb occupancy_rate a b = true ->
  rate_ge (occupancy_rate a) (occupancy_rate b).
Proof.
  unfold rate_desc_leb, rate_ge.
  destruct (occupancy_rate b) as [| | |y] eqn:Hb; [left; reflexivity|..];
    destruct (occupancy_rate a) as [| | |x] eqn:Ha; try discriminate;
    intros H; right; apply fle_float_le, H.
Qed.

(** C2: for every station and every [top_n >= 0], the rows of that station in
    the peak-periods output number [min(top_n, rows of the station)], are rows
    of that station in the input (as a sub-multiset), are in descending order
    of [occupancy_rate] (of two rows, the later one has a missing rate or a
    rate no greater than that of the earlier one; in particular two finite
    rates [x] before [y] satisfy [y <= x]), and for every rate value the
    output rows with that rate are the first input rows with that rate, in
    input order. *)
Theorem peak_periods_per_station :
  forall (S : Type) (station_id : S -> string) (occupancy_rate : S -> pyfloat)
         (df : list S) (top_n : Z) (e : string),
    0 <= top_n ->
    let out := filter (same_station station_id e)
                      (compute_peak_periods station_id occupancy_rate df top_n) in
    let inp := filter (same_station station_id e) df in
    Z.of_nat (List.length out) = Z.min top_n (Z.of_nat (List.length inp))
    /\ (exists rest, Permutation (out ++ rest) inp)
    /\ StronglySorted (fun a b => rate_ge (occupancy_rate a) (occupancy_rate b)) out
    /\ (forall (i j : nat) (a b : S) (x y : Q),
           (i < j)%nat -> nth_error out i = Some a -> nth_error out j = Some b ->
           occupancy_rate a = Fin x -> occupancy_rate b = Fin y -> (y <= x)%Q)
    /\ (forall v, exists rest,
           filter (fun r => fsame v (occupancy_rate r)) inp
           = filter (fun r => fsame v (occupancy_rate r)) out ++ rest).
Proof.
  intros S station_id occupancy_rate df top_n e Hn out inp.
  set (desc := rate_desc_leb occupancy_rate).
  set (sorted := filter (same_station station_id e) (stable_sort desc df)).
  assert (Hout : out = firstn (Z.to_nat top_n) sorted).
  { apply peak_periods_of_station, Hn. }
  assert (Hperm : Permutation sorted inp).
  { apply filter_perm, stable_sort_perm. }
  assert (Hsorted : StronglySorted (fun a b => desc a b = true) sorted).
  { apply StronglySorted_filter, stable_sort_sorted.
    - apply rate_desc_leb_total.
    - apply rate_desc_leb_trans. }
  assert (Hdesc : StronglySorted
                    (fun a b => rate_ge (occupancy_rate a) (occupancy_rate b))
                    (firstn (Z.to_nat top_n) sorted)).
  { apply StronglySorted_firstn.
    apply (StronglySorted_weaken _ _ _ (rate_desc_leb_rate_ge occupancy_rate) Hsorted). }
  rewrite Hout. split; [|split; [|split; [|split]]].
  - rewrite length_firstn, (Permutation_length Hperm). lia.
  - exists (skipn (Z.to_nat top_n) sorted). rewrite firstn_skipn. exact Hperm.
  - exact Hdesc.
  - intros i j a b x y Hij Ha Hb Hx Hy.
    pose proof (StronglySorted_nth_error _ _ Hdesc i j a b Hij Ha Hb) as Hge.
    unfold rate_ge in Hge. rewrite Hx, Hy in Hge.
    destruct Hge as [Hna|Hle]; [discriminate | exact Hle].
  - intros v.
    exists (filter (fun r => fsame v (occupancy_rate r)) (skipn (Z.to_nat top_n) sorted)).
    rewrite <- filter_app, firstn_skipn. unfold sorted, inp.
    rewrite (filter_comm _ (same_station station_id e) df).
    rewrite (filter_comm _ (same_station station_id e) (stable_sort desc df)).
    f_equal. symmetry.
    apply stable_sort_filter_class.
    intros x y. apply rate_desc_leb_same.
Qed.

Lemma peak_periods_per_station_witness :
  let out := filter (same_station Refined.station_id "S1")
               (compute_peak_periods Refined.station_id Refined.occupancy_rate
                  peak_frame 2) in
  Z.of_nat (List.length out) = 2
  /\ StronglySorted
       (fun a b => rate_ge (Refined.occupancy_rate a) (Refined.occupancy_rate b)) out.
Proof.
  assert (H : 0 <= 2) by lia.
  destruct (peak_periods_per_station _ Refined.station_id Refined.occupancy_rate
              peak_frame 2 "S1" H) as [Hlen [_ [Hs _]]].
  split; [exact Hlen | exact Hs].
Defined.

(** On the frame with a tie, the two rows kept for S1 are the 9/10 row and
    the earlier of the two 1/2 rows. *)
Example peak_periods_tie :
  compute_peak_periods Refined.station_id Refined.occupancy_rate peak_frame 2
  = [ Refined.mk_station_view "S1" (1 * ns_per_hour) (Fin (9 # 10));
      Refined.mk_station_view "S1" (0 * ns_per_hour) (Fin (1 # 2));
      Refined.mk_station_view "S2" (0 * ns_per_hour) (Fin (1 # 4)) ].
Proof. reflexivity. Qed.

(** ** Run segmentation *)

Lemma run_ids_from_eq (prev : option bool) (acc : Z) (zs : list bool) :
  cumsum acc (zip_with ne_shift zs (firstn (List.length zs) (prev :: map Some zs)))
  = run_ids_from prev acc zs.
Proof.
  revert prev acc.
  induction zs as [|z t IH]; intros prev acc.
  - reflexivity.
  - cbn [List.length map firstn zip_with cumsum run_ids_from].
    f_equal. apply IH.
Qed.

Lemma run_ids_eq (zs : list bool) : run_ids zs = run_ids_from None 0 zs.
Proof. unfold run_ids, shift1. apply run_ids_from_eq. Qed.

Lemma run_ids_from_length (prev : option bool) (acc : Z) (zs : list bool) :
  List.length (run_ids_from prev acc zs) = List.length zs.
Proof.
  revert prev acc. induction zs as [|z t IH]; intros prev acc; simpl.
  - reflexivity.
  - f_equal. apply IH.
Qed.

Lemma run_ids_length (zs : list bool) : List.length (run_ids zs) = List.length zs.
Proof. rewrite run_ids_eq. apply run_ids_from_length. Qed.

(** From one row to the next the run id grows by one exactly when the flag
    changes. *)
Lemma run_ids_from_step (prev : option bool) (acc : Z) (zs : list bool) (k : nat) :
  (Datatypes.S k < List.length zs)%nat ->
  nth (Datatypes.S k) (run_ids_from prev acc zs) 0
  = nth k (run_ids_from prev acc zs) 0
    + (if xorb (nth (Datatypes.S k) zs false) (nth k zs false) then 1 else 0).
Proof.
  revert prev acc k.
  induction zs as [|z t IH]; intros prev acc k Hk.
  - simpl in Hk. lia.
  - destruct k as [|k].
    + destruct t as [|z1 t']; [simpl in Hk; lia|]. reflexivity.
    + cbn [run_ids_from nth]. apply IH. simpl in Hk. lia.
Qed.


Section RunsByAdjacency.
Context {R : Type}.
Variable charging_count : R -> Z.


Lemma run_col_length (grp : list R) :
  List.length (run_col charging_count grp) = List.length grp.
Proof. unfold run_col. rewrite run_ids_length. apply length_map. Qed.



End RunsByAdjacency.



(** The four rows around the three missing hours form one run of length 4. *)
Example downtime_across_missing_hours :
  runs o_charging_count (sort_by_hour o_hour gap_frame) = [mk_run_row 1 true 4]
  /\ detect gap_frame 4 = [mk_downtime_row "C2" 1 4].
Proof. split; vm_compute; reflexivity. Qed.

(** ** The downtime detector on the 26-hour scenario *)

Lemma downtime_runs_In (gap_hours : Z) (rs : list run_row) (r : run_row) :
  In r (downtime_runs gap_hours rs)
  <-> In r rs /\ run_is_zero r = true /\ gap_hours <= count_hours r.
Proof.
  unfold downtime_runs. rewrite filter_In, andb_true_iff, Z.leb_le. reflexivity.
Qed.

Lemma run_col_step {R} (charging_count : R -> Z) (grp : list R) (k : nat) :
  (Datatypes.S k < List.length grp)%nat ->
  let zs := is_zero_col charging_count grp in
  nth (Datatypes.S k) (run_col charging_count grp) 0
  = nth k (run_col charging_count grp) 0
    + (if xorb (nth (Datatypes.S k) zs false) (nth k zs false) then 1 else 0).
Proof.
  intros Hk zs. subst zs. unfold run_col. rewrite run_ids_eq.
  apply run_ids_from_step. unfold is_zero_col. rewrite length_map. exact Hk.
Qed.

(** C1: on connector C1 with hourly charging counts 0,0,0,5, 21 zeros, 3, the
    detector segments the rows into four runs (3 zero hours, 1 busy hour, 21
    zero hours, 1 busy hour); with [gap_hours = 24] no run qualifies and the
    output row reports 0 events, with [gap_hours = 20] the 21-hour run
    qualifies and the output row reports 1 event and 21 downtime hours.  In
    general the run id of a row is that of the row before it, plus one exactly
    when [is_zero] differs between the two rows, and a run qualifies exactly
    when its [is_zero] flag is true and its length is at least [gap_hours]. *)
Theorem downtime_scenario_c1 :
  (run_col o_charging_count (sort_by_hour o_hour c1_frame)
     = [1; 1; 1; 2] ++ repeat 3 21%nat ++ [4]
   /\ runs o_charging_count (sort_by_hour o_hour c1_frame)
      = [mk_run_row 1 true 3; mk_run_row 2 false 1; mk_run_row 3 true 21;
         mk_run_row 4 false 1]
   /\ detect c1_frame 24 = [mk_downtime_row "C1" 0 0]
   /\ detect c1_frame 20 = [mk_downtime_row "C1" 1 21])
  /\ (forall (R : Type) (charging_count : R -> Z) (grp : list R) (k : nat),
         (Datatypes.S k < List.length grp)%nat ->
         let zs := is_zero_col charging_count grp in
         nth (Datatypes.S k) (run_col charging_count grp) 0
         = nth k (run_col charging_count grp) 0
           + (if xorb (nth (Datatypes.S k) zs false) (nth k zs false) then 1 else 0))
  /\ (forall (gap_hours : Z) (rs : list run_row) (r : run_row),
         In r (downtime_runs gap_hours rs)
         <-> In r rs /\ run_is_zero r = true /\ gap_hours <= count_hours r).
Proof.
  split; [|split].
  - repeat split; vm_compute; reflexivity.
  - intros R charging_count grp k Hk. apply run_col_step, Hk.
  - apply downtime_runs_In.
Qed.

(** Between the third row (no charging) and the fourth (5 charging events)
    the run id goes from 1 to 2. *)
Lemma downtime_scenario_c1_witness :
  nth 3 (run_col o_charging_count c1_frame) 0
  = nth 2 (run_col o_charging_count c1_frame) 0 + 1.
Proof.
  assert (Hk : (3 < List.length c1_frame)%nat) by (vm_compute; lia).
  exact (proj1 (proj2 downtime_scenario_c1) _ o_charging_count c1_frame 2%nat Hk).
Defined.

(** ** Re-running the detector on the rows of qualifying runs *)

Lemma filter_length_or {A} (f g : A -> bool) (l : list A) :
  (forall x, In x l -> f x = true -> g x = false) ->
  List.length (filter (fun x => f x || g x) l)
  = (List.length (filter f l) + List.length (filter g l))%nat.
Proof.
  induction l as [|x t IH]; simpl; intros H.
  - reflexivity.
  - assert (IH' := IH (fun y Hy => H y (or_intror Hy))).
    destruct (f x) eqn:Hf.
    + rewrite (H x (or_introl eq_refl) Hf). simpl. rewrite IH'. reflexivity.
    + destruct (g x); simpl; rewrite IH'; lia.
Qed.

(** Summing the sizes of distinct runs counts the rows lying in them. *)
Lemma sum_run_sizes {A} (ps : list (A * Z)) (K : list Z) :
  NoDup K ->
  sum_Z (map (fun k => Z.of_nat (List.length (filter (fun p => snd p =? k) ps))) K)
  = Z.of_nat (List.length (filter (fun p => existsb (fun k => k =? snd p) K) ps)).
Proof.
  induction 1 as [|k K' Hnot Hnd IH]; simpl.
  - rewrite filter_none; [reflexivity | reflexivity].
  - rewrite IH.
    rewrite (filter_ext (fun p => (k =? snd p) || existsb (fun k0 => k0 =? snd p) K')
                        (fun p => (snd p =? k) || existsb (fun k0 => k0 =? snd p) K'))
      by (intros p; rewrite (Z.eqb_sym k); reflexivity).
    rewrite filter_length_or; [lia|].
    intros p _ Hp. apply Z.eqb_eq in Hp.
    destruct (existsb (fun k0 => k0 =? snd p) K') eqn:E; [|reflexivity].
    apply existsb_exists in E. destruct E as [k0 [Hin Hk0]].
    apply Z.eqb_eq in Hk0. exfalso. apply Hnot. congruence.
Qed.

Lemma combine_map_l {A B C} (f : A -> B) (l : list A) (m : list C) :
  combine (map f l) m = map (fun p => (f (fst p), snd p)) (combine l m).
Proof.
  revert m. induction l as [|x t IH]; intros [|y m]; simpl; try reflexivity.
  f_equal. apply IH.
Qed.

Lemma filter_map_comm {A B} (f : A -> B) (p : B -> bool) (l : list A) :
  filter p (map f l) = map f (filter (fun x => p (f x)) l).
Proof.
  induction l as [|x t IH]; simpl; [reflexivity|].
  destruct (p (f x)); simpl; rewrite IH; reflexivity.
Qed.

Lemma In_combine_r_exists {A B} (l : list A) (m : list B) (y : B) :
  List.length l = List.length m -> In y m -> exists x, In (x, y) (combine l m).
Proof.
  revert m. induction l as [|a t IH]; intros [|b m] Hlen Hy; simpl in *;
    try contradiction; try discriminate.
  destruct Hy as [->|Hy].
  - exists a. left. reflexivity.
  - destruct (IH m) as [x Hx]; [lia | exact Hy|]. exists x. right. exact Hx.
Qed.

(** Inside the [run] column every id at or after a row is at least the id
    reached before it, and a row that keeps that id keeps the flag. *)
Lemma run_ids_from_inv (prev : option bool) (acc : Z) (zs : list bool) (z : bool) (id : Z) :
  In (z, id) (combine zs (run_ids_from prev acc zs)) ->
  acc <= id /\ (id = acc -> prev = Some z).
Proof.
  revert prev acc.
  induction zs as [|z0 t IH]; intros prev acc Hin; simpl in Hin.
  - contradiction.
  - destruct Hin as [Heq|Hin].
    + inversion Heq; subst. destruct prev as [p|]; simpl.
      * destruct (xorb z p) eqn:Hx; [split; [lia|intros; lia]|].
        apply xorb_eq in Hx. subst. split; [lia|reflexivity].
      * split; [lia | intros; lia].
    + destruct (IH _ _ Hin) as [Hle Hsame].
      assert (0 <= (if ne_shift z0 prev then 1 else 0)) by (destruct (ne_shift z0 prev); lia).
      split; [lia|].
      intros ->.
      assert (Hd : (if ne_shift z0 prev then 1 else 0) = 0)
        by (destruct (ne_shift z0 prev); lia).
      rewrite Hd, Z.add_0_r in Hsame. specialize (Hsame eq_refl).
      inversion Hsame; subst.
      destruct prev as [p|]; simpl in Hd; [|discriminate].
      destruct (xorb z p) eqn:Hx; [discriminate|].
      apply xorb_eq in Hx. subst. reflexivity.
Qed.

(** All rows of one run carry the same flag. *)
Lemma run_ids_from_consistent (prev : option bool) (acc : Z) (zs : list bool)
      (z1 z2 : bool) (id : Z) :
  In (z1, id) (combine zs (run_ids_from prev acc zs)) ->
  In (z2, id) (combine zs (run_ids_from prev acc zs)) ->
  z1 = z2.
Proof.
  revert prev acc.
  induction zs as [|z0 t IH]; intros prev acc H1 H2; simpl in H1, H2.
  - contradiction.
  - destruct H1 as [E1|H1], H2 as [E2|H2].
    + congruence.
    + inversion E1; subst.
      destruct (run_ids_from_inv _ _ _ _ _ H2) as [_ Hs].
      specialize (Hs eq_refl). congruence.
    + inversion E2; subst.
      destruct (run_ids_from_inv _ _ _ _ _ H1) as [_ Hs].
      specialize (Hs eq_refl). congruence.
    + exact (IH _ _ H1 H2).
Qed.

Lemma map_const {A B} (f : A -> B) (c : B) (l : list A) :
  (forall x, In x l -> f x = c) -> map f l = repeat c (List.length l).
Proof.
  induction l as [|x t IH]; simpl; intros H.
  - reflexivity.
  - rewrite (H x (or_introl eq_refl)), IH; [reflexivity|].
    intros y Hy. apply H. right. exact Hy.
Qed.

Lemma filter_all {A} (p : A -> bool) (l : list A) :
  (forall x, In x l -> p x = true) -> filter p l = l.
Proof.
  induction l as [|x t IH]; simpl; intros H.
  - reflexivity.
  - rewrite (H x (or_introl eq_refl)), IH; [reflexivity|].
    intros y Hy. apply H. right. exact Hy.
Qed.

Lemma nodup_repeat {A} (dec : forall x y : A, {x = y} + {x <> y}) (x : A) (n : nat) :
  nodup dec (repeat x (Datatypes.S n)) = [x].
Proof.
  induction n as [|n IH].
  - reflexivity.
  - change (repeat x (Datatypes.S (Datatypes.S n))) with (x :: repeat x (Datatypes.S n)).
    cbn [nodup].
    destruct (in_dec dec x (repeat x (Datatypes.S n))) as [_|Hout].
    + exact IH.
    + exfalso. apply Hout. left. reflexivity.
Qed.

Lemma combine_repeat {A B} (a : A) (b : B) (n : nat) :
  combine (repeat a n) (repeat b n) = repeat (a, b) n.
Proof. induction n as [|n IH]; simpl; [reflexivity | rewrite IH; reflexivity]. Qed.

Lemma run_ids_from_all_zero (acc : Z) (n : nat) :
  run_ids_from (Some true) acc (repeat true n) = repeat acc n.
Proof.
  induction n as [|n IH]; simpl.
  - reflexivity.
  - rewrite Z.add_0_r, IH. reflexivity.
Qed.

Lemma run_ids_all_zero (n : nat) :
  run_ids (repeat true (Datatypes.S n)) = repeat 1 (Datatypes.S n).
Proof.
  rewrite run_ids_eq. simpl. rewrite run_ids_from_all_zero. reflexivity.
Qed.

Lemma runs_of_all_zero (n : nat) :
  runs_of (repeat true (Datatypes.S n)) (repeat 1 (Datatypes.S n))
  = [mk_run_row 1 true (Z.of_nat (Datatypes.S n))].
Proof.
  unfold runs_of, group_keys_Z.
  rewrite nodup_repeat, combine_repeat.
  cbn [stable_sort fold_right insert map].
  rewrite filter_all.
  - rewrite repeat_length. reflexivity.
  - intros p Hp. apply repeat_spec in Hp. subst p. reflexivity.
Qed.

Lemma sum_Z_ge (gap : Z) (l : list Z) :
  l <> [] -> (forall x, In x l -> gap <= x /\ 0 <= x) -> gap <= sum_Z l /\ 0 <= sum_Z l.
Proof.
  induction l as [|x t IH]; intros Hne H; [contradiction|].
  simpl. destruct (H x (or_introl eq_refl)) as [Hg Hx].
  destruct t as [|y t'].
  - simpl. lia.
  - destruct IH as [H1 H2]; [discriminate | intros z Hz; apply H; right; exact Hz|].
    lia.
Qed.

Section Idempotence.
Context {R : Type}.
Variable evse_id : R -> string.
Variable hour : R -> Z.
Variable charging_count : R -> Z.

(** A non-empty group of zero rows is a single run. *)
Lemma runs_all_zero (grp : list R) :
  grp <> [] -> (forall r, In r grp -> charging_count r = 0) ->
  runs charging_count grp = [mk_run_row 1 true (Z.of_nat (List.length grp))].
Proof.
  intros Hne Hz. unfold runs, run_col.
  assert (Hcol : is_zero_col charging_count grp = repeat true (List.length grp)).
  { unfold is_zero_col. apply map_const. intros r Hr. apply Z.eqb_eq, Hz, Hr. }
  rewrite Hcol.
  destruct grp as [|r t]; [contradiction|].
  cbn [List.length]. rewrite run_ids_all_zero. apply runs_of_all_zero.
Qed.

(** The detector on a non-empty table of zero rows of one connector. *)
Lemma detector_on_zero_rows (z : list R) (gap : Z) (e : string) :
  z <> [] ->
  (forall r, In r z -> charging_count r = 0 /\ evse_id r = e) ->
  gap <= Z.of_nat (List.length z) ->
  runs charging_count (sort_by_hour hour z)
  = [mk_run_row 1 true (Z.of_nat (List.length z))]
  /\ compute_reliability_downtime evse_id hour charging_count z gap
     = [mk_downtime_row e 1 (Z.of_nat (List.length z))].
Proof.
  intros Hne Hz Hgap.
  assert (Hruns : runs charging_count (sort_by_hour hour z)
                  = [mk_run_row 1 true (Z.of_nat (List.length z))]).
  { unfold sort_by_hour.
    rewrite <- (stable_sort_length (fun a b => hour a <=? hour b) z).
    apply runs_all_zero.
    - intros Hnil. apply Hne. apply length_zero_iff_nil.
      rewrite <- (stable_sort_length (fun a b => hour a <=? hour b) z), Hnil.
      reflexivity.
    - intros r Hr. apply stable_sort_In in Hr. apply Hz, Hr. }
  split; [exact Hruns|].
  unfold compute_reliability_downtime.
  assert (Hkeys : group_keys_str (map evse_id z) = [e]).
  { rewrite (map_const evse_id e z) by (intros r Hr; apply Hz, Hr).
    destruct z as [|r t]; [contradiction|].
    unfold group_keys_str. cbn [List.length]. rewrite nodup_repeat. reflexivity. }
  rewrite Hkeys. cbn [map]. f_equal.
  unfold downtime_of_group, evse_group.
  rewrite filter_all.
  - rewrite Hruns. unfold downtime_runs. cbn [filter run_is_zero count_hours andb].
    apply Z.leb_le in Hgap. rewrite Hgap. cbn [List.length map sum_Z fold_right Z.of_nat].
    rewrite Z.add_0_r. reflexivity.
  - intros r Hr. apply String.eqb_eq, Hz, Hr.
Qed.

End Idempotence.

Lemma existsb_map {A B} (f : B -> bool) (g : A -> B) (l : list A) :
  existsb f (map g l) = existsb (fun x => f (g x)) l.
Proof.
  induction l as [|x t IH]; simpl; [reflexivity | rewrite IH; reflexivity].
Qed.

Section QualifyingRowsFacts.
Context {R : Type}.
Variable evse_id : R -> string.
Variable hour : R -> Z.
Variable charging_count : R -> Z.
Variable df : list R.
Variable gap : Z.
Variable e : string.

Let grp := sort_by_hour hour (evse_group evse_id df e).
Let zs := is_zero_col charging_count grp.
Let ids := run_col charging_count grp.
Let dr := downtime_runs gap (runs charging_count grp).
Let z := qualifying_zero_rows evse_id hour charging_count df gap e.
Let members := fun k : Z => filter (fun p : bool * Z => snd p =? k) (combine zs ids).
Let mk := fun k : Z =>
  mk_run_row k (hd false (map fst (members k))) (Z.of_nat (List.length (members k))).
Let K := filter (fun k => run_is_zero (mk k) && (gap <=? count_hours (mk k)))
                (group_keys_Z ids).

Lemma downtime_runs_as_keys : dr = map mk K.
Proof.
  unfold dr, downtime_runs, runs, runs_of, K.
  fold zs. fold ids. rewrite filter_map_comm. reflexivity.
Qed.

Lemma qualifying_rows_as_filter :
  z = map fst (filter (fun p => existsb (fun k => k =? snd p) K) (combine grp ids)).
Proof.
  unfold z, qualifying_zero_rows. fold grp. fold dr. fold ids.
  rewrite downtime_runs_as_keys. f_equal. apply filter_ext. intros p.
  rewrite existsb_map. reflexivity.
Qed.

Lemma combine_flags :
  combine zs ids
  = map (fun p => (charging_count (fst p) =? 0, snd p)) (combine grp ids).
Proof.
  unfold zs, is_zero_col.
  exact (combine_map_l (fun r => charging_count r =? 0) grp ids).
Qed.

(** The rows kept number the downtime hours reported. *)
Lemma qualifying_rows_length :
  Z.of_nat (List.length z) = sum_Z (map count_hours dr).
Proof.
  rewrite downtime_runs_as_keys, map_map. cbn [count_hours mk].
  unfold members. rewrite sum_run_sizes.
  - rewrite qualifying_rows_as_filter, length_map, combine_flags, filter_map_comm,
      length_map. reflexivity.
  - apply NoDup_filter, group_keys_Z_NoDup.
Qed.

Lemma qualifying_run_nonempty (k : Z) :
  In k K -> In (true, k) (combine zs ids) /\ gap <= count_hours (mk k)
            /\ 1 <= count_hours (mk k).
Proof.
  unfold K. intros Hk. apply filter_In in Hk. destruct Hk as [_ Hp].
  apply andb_true_iff in Hp. destruct Hp as [Hz Hg].
  apply Z.leb_le in Hg. cbn [run_is_zero count_hours mk] in *.
  destruct (members k) as [|[z0 id0] t] eqn:Hm; [discriminate|].
  simpl in Hz. subst z0.
  assert (Hin : In (true, id0) (members k)) by (rewrite Hm; left; reflexivity).
  unfold members in Hin. apply filter_In in Hin. destruct Hin as [Hin Hid].
  simpl in Hid. apply Z.eqb_eq in Hid. subst id0.
  split; [exact Hin|]. split; [exact Hg|].
  cbn [List.length]. lia.
Qed.

(** The rows kept are zero rows of connector [e]. *)
Lemma qualifying_rows_zero (r : R) :
  In r z -> charging_count r = 0 /\ evse_id r = e.
Proof.
  rewrite qualifying_rows_as_filter. intros Hr.
  apply (proj1 (in_map_iff _ _ _)) in Hr. destruct Hr as [[r' id] [Heq Hp]].
  simpl in Heq. subst r'.
  apply filter_In in Hp. destruct Hp as [Hin Hex].
  apply existsb_exists in Hex. destruct Hex as [k [Hk Hid]].
  simpl in Hid. apply Z.eqb_eq in Hid. subst k.
  split.
  - destruct (qualifying_run_nonempty id Hk) as [Htrue _].
    assert (Hflag : In (charging_count r =? 0, id) (combine zs ids)).
    { rewrite combine_flags.
      apply (in_map (fun p => (charging_count (fst p) =? 0, snd p)) _ (r, id)), Hin. }
    unfold ids, run_col in Hflag, Htrue. fold zs in Hflag, Htrue.
    rewrite run_ids_eq in Hflag, Htrue.
    apply Z.eqb_eq.
    exact (run_ids_from_consistent _ _ _ _ _ _ Hflag Htrue).
  - apply in_combine_l in Hin. unfold grp, sort_by_hour in Hin.
    apply stable_sort_In in Hin. unfold evse_group in Hin.
    apply filter_In in Hin. apply String.eqb_eq, Hin.
Qed.

Lemma qualifying_rows_enough :
  dr <> [] -> gap <= Z.of_nat (List.length z) /\ 1 <= Z.of_nat (List.length z).
Proof.
  intros Hne. rewrite qualifying_rows_length.
  assert (H1 : gap <= sum_Z (map count_hours dr) /\ 0 <= sum_Z (map count_hours dr)).
  { apply sum_Z_ge.
    - destruct dr; [contradiction | discriminate].
    - intros x Hx. rewrite downtime_runs_as_keys, map_map in Hx.
      apply (proj1 (in_map_iff _ _ _)) in Hx. destruct Hx as [k [<- Hk]].
      destruct (qualifying_run_nonempty k Hk) as [_ [H2 H3]]. lia. }
  assert (H2 : 1 <= sum_Z (map count_hours dr) /\ 0 <= sum_Z (map count_hours dr)).
  { apply sum_Z_ge.
    - destruct dr; [contradiction | discriminate].
    - intros x Hx. rewrite downtime_runs_as_keys, map_map in Hx.
      apply (proj1 (in_map_iff _ _ _)) in Hx. destruct Hx as [k [<- Hk]].
      destruct (qualifying_run_nonempty k Hk) as [_ [H2 H3]]. lia. }
  lia.
Qed.

End QualifyingRowsFacts.

(** C7: for a connector with at least one qualifying downtime run, the rows
    of its qualifying runs are all zero-activity rows of that connector, and
    the detector re-run on them with the same [gap_hours] finds a single run,
    a zero run whose length is the [total_downtime_hours] first reported, and
    reports one event with that many hours. *)
Theorem downtime_idempotent :
  forall (R : Type) (evse_id : R -> string) (hour charging_count : R -> Z)
         (df : list R) (gap_hours : Z) (row : downtime_row),
    In row (compute_reliability_downtime evse_id hour charging_count df gap_hours) ->
    1 <= num_downtime_events row ->
    let z := qualifying_zero_rows evse_id hour charging_count df gap_hours
               (dr_evse_id row) in
    (forall r, In r z -> charging_count r = 0 /\ evse_id r = dr_evse_id row)
    /\ runs charging_count (sort_by_hour hour z)
       = [mk_run_row 1 true (total_downtime_hours row)]
    /\ compute_reliability_downtime evse_id hour charging_count z gap_hours
       = [mk_downtime_row (dr_evse_id row) 1 (total_downtime_hours row)].
Proof.
  intros R evse_id hour charging_count df gap_hours row Hrow Hnum z.
  unfold compute_reliability_downtime in Hrow.
  apply (proj1 (in_map_iff _ _ _)) in Hrow. destruct Hrow as [e [Hrow _]].
  subst row. unfold downtime_of_group in *.
  cbn [dr_evse_id num_downtime_events total_downtime_hours] in *.
  set (dr := downtime_runs gap_hours
               (runs charging_count (sort_by_hour hour (evse_group evse_id df e)))) in *.
  assert (Hne : dr <> []).
  { intros Hnil. rewrite Hnil in Hnum. simpl in Hnum. lia. }
  pose proof (qualifying_rows_zero evse_id hour charging_count df gap_hours e) as Hzero.
  pose proof (qualifying_rows_length evse_id hour charging_count df gap_hours e) as Hlen.
  destruct (qualifying_rows_enough evse_id hour charging_count df gap_hours e Hne)
    as [Hgap Hpos].
  fold z in Hzero, Hlen, Hgap, Hpos. fold dr in Hlen.
  split; [exact Hzero|].
  rewrite <- Hlen.
  apply detector_on_zero_rows.
  - intros Hnil. rewrite Hnil in Hpos. simpl in Hpos. lia.
  - exact Hzero.
  - exact Hgap.
Qed.

Lemma downtime_idempotent_witness :
  detect (qualifying_zero_rows o_evse_id o_hour o_charging_count c1_frame 20 "C1") 20
  = [mk_downtime_row "C1" 1 21].
Proof.
  assert (Hin : In (mk_downtime_row "C1" 1 21) (detect c1_frame 20)).
  { vm_compute. left. reflexivity. }
  assert (Hnum : 1 <= num_downtime_events (mk_downtime_row "C1" 1 21)).
  { simpl. lia. }
  exact (proj2 (proj2 (downtime_idempotent _ o_evse_id o_hour o_charging_count
                         c1_frame 20 (mk_downtime_row "C1" 1 21) Hin Hnum))).
Defined.

(** * Further properties *)

(** ** Counting by groups *)

(** Distinct keys that cover a list split it: the group sizes add up to the
    length of the list. *)
Lemma sum_group_sizes {A K} (f : A -> K) (eqb : K -> K -> bool) (ks : list K)
      (l : list A) :
  (forall a b, eqb a b = true <-> a = b) ->
  NoDup ks ->
  sum_Z (map (fun k => Z.of_nat (List.length (filter (fun x => eqb (f x) k) l))) ks)
  = Z.of_nat (List.length (filter (fun x => existsb (eqb (f x)) ks) l)).
Proof.
  intros Heqb Hnd.
  induction Hnd as [|k ks' Hnot Hnd IH]; simpl.
  - rewrite filter_none; [reflexivity | reflexivity].
  - rewrite IH, filter_length_or; [rewrite Nat2Z.inj_add; reflexivity|].
    intros x _ Hx. apply Heqb in Hx.
    destruct (existsb (eqb (f x)) ks') eqn:E; [|reflexivity].
    apply existsb_exists in E. destruct E as [k' [Hin Hk']].
    apply Heqb in Hk'. exfalso. apply Hnot. congruence.
Qed.

Lemma sum_group_sizes_all {A K} (f : A -> K) (eqb : K -> K -> bool) (ks : list K)
      (l : list A) :
  (forall a b, eqb a b = true <-> a = b) ->
  NoDup ks ->
  (forall x, In x l -> In (f x) ks) ->
  sum_Z (map (fun k => Z.of_nat (List.length (filter (fun x => eqb (f x) k) l))) ks)
  = Z.of_nat (List.length l).
Proof.
  intros Heqb Hnd Hcover.
  rewrite (sum_group_sizes f eqb ks l Heqb Hnd), filter_all; [reflexivity|].
  intros x Hx. apply existsb_exists. exists (f x).
  split; [apply Hcover, Hx | apply Heqb; reflexivity].
Qed.

Lemma group_keys_str_Z_NoDup (l : list (string * Z)) : NoDup (group_keys_str_Z l).
Proof.
  unfold group_keys_str_Z.
  apply (Permutation_NoDup (Permutation_sym (stable_sort_perm _ _))).
  apply NoDup_nodup.
Qed.

Lemma group_keys_Z_sorted (l : list Z) :
  StronglySorted Z.le (group_keys_Z l).
Proof.
  unfold group_keys_Z.
  assert (H : StronglySorted (fun a b => (a <=? b) = true)
                             (stable_sort Z.leb (nodup Z.eq_dec l))).
  { apply stable_sort_sorted.
    - intros x y. rewrite !Z.leb_le. lia.
    - intros x y z. rewrite !Z.leb_le. lia. }
  induction H as [|x t Hs IH Hall]; constructor.
  - exact IH.
  - rewrite Forall_forall in *. intros y Hy. apply Z.leb_le, Hall, Hy.
Qed.

(** ** Daily trend, hour-of-day profile and capacity pressure *)

Lemma hour_of_day_range (ts : Z) : 0 <= hour_of_day ts < 24.
Proof. unfold hour_of_day. apply Z.mod_pos_bound. lia. Qed.

Lemma filter_length_mono {A} (p q : A -> bool) (l : list A) :
  (forall x, In x l -> p x = true -> q x = true) ->
  (List.length (filter p l) <= List.length (filter q l))%nat.
Proof.
  induction l as [|x t IH]; simpl; intros H.
  - lia.
  - assert (IH' := IH (fun y Hy => H y (or_intror Hy))).
    destruct (p x) eqn:Hp.
    + rewrite (H x (or_introl eq_refl) Hp). simpl. lia.
    + destruct (q x); simpl; lia.
Qed.

Section StationFrames.
Context {S : Type}.
Variable station_id : S -> string.
Variable hour : S -> Z.
Variable occupancy_rate : S -> pyfloat.

(** Daily trend: one row per (station, day) that has an hourly row, and no
    other row. *)
Theorem utilization_trends_rows (df : list S) :
  let out := compute_utilization_trends station_id hour occupancy_rate df in
  NoDup (map (fun t => (tr_station_id t, tr_date t)) out)
  /\ (forall t, In t out ->
        exists r, In r df /\ station_id r = tr_station_id t
                  /\ date_of (hour r) = tr_date t)
  /\ (forall r, In r df ->
        exists t, In t out /\ tr_station_id t = station_id r
                  /\ tr_date t = date_of (hour r)).
Proof.
  intros out. unfold out, compute_utilization_trends.
  set (keyf := fun r : S => (station_id r, date_of (hour r))).
  set (keys := group_keys_str_Z (map keyf df)).
  assert (Hkey : forall k, In k keys -> exists r, In r df /\ keyf r = k).
  { intros k Hk. apply (proj1 (group_keys_str_Z_In _ _)) in Hk.
    apply (proj1 (in_map_iff _ _ _)) in Hk. destruct Hk as [r [Hr Hin]].
    exists r. auto. }
  split; [|split].
  - rewrite map_map. cbn [tr_station_id tr_date].
    rewrite (map_ext _ (fun k => k)) by (intros [a b]; reflexivity).
    rewrite map_id. apply group_keys_str_Z_NoDup.
  - intros t Ht. apply (proj1 (in_map_iff _ _ _)) in Ht.
    destruct Ht as [k [<- Hk]]. destruct (Hkey k Hk) as [r [Hr Hkr]].
    exists r. subst k. cbn. auto.
  - intros r Hr.
    exists (mk_trend_row (station_id r) (date_of (hour r))
              (mean (map occupancy_rate
                       (filter (fun r0 => same_station station_id (station_id r) r0
                                          && (date_of (hour r0) =? date_of (hour r)))
                               df)))).
    split; [|split; reflexivity].
    apply (in_map_iff _ _ _). exists (keyf r). split; [reflexivity|].
    apply group_keys_str_Z_In. apply in_map, Hr.
Qed.

(** Hour-of-day profile: at most 24 rows, in ascending order of the hour of
    day, every hour of day between 0 and 23 and present in the input, one row
    for every hour of day of the input. *)
Theorem global_peak_rows (df : list S) :
  let out := compute_global_peak_by_hour_of_day hour occupancy_rate df in
  (List.length out <= 24)%nat
  /\ StronglySorted Z.le (map gl_hour_of_day out)
  /\ NoDup (map gl_hour_of_day out)
  /\ (forall g, In g out ->
        0 <= gl_hour_of_day g < 24
        /\ exists r, In r df /\ hour_of_day (hour r) = gl_hour_of_day g)
  /\ (forall r, In r df ->
        exists g, In g out /\ gl_hour_of_day g = hour_of_day (hour r)).
Proof.
  intros out. unfold out, compute_global_peak_by_hour_of_day.
  set (keys := group_keys_Z (map (fun r => hour_of_day (hour r)) df)).
  assert (Hkey : forall k, In k keys -> exists r, In r df /\ hour_of_day (hour r) = k).
  { intros k Hk. apply (proj1 (group_keys_Z_In _ _)) in Hk.
    apply (proj1 (in_map_iff _ _ _)) in Hk. destruct Hk as [r [Hr Hin]].
    exists r. auto. }
  assert (Hmap : forall f : Z -> pyfloat,
             map gl_hour_of_day (map (fun h => mk_global_row h (f h)) keys) = keys).
  { intros f. rewrite map_map. cbn [gl_hour_of_day]. apply map_id. }
  split; [|split; [|split; [|split]]].
  - rewrite length_map.
    apply Nat.le_trans with (List.length (map Z.of_nat (seq 0 24)));
      [|rewrite length_map, length_seq; apply Nat.le_refl].
    apply NoDup_incl_length; [apply group_keys_Z_NoDup|].
    intros k Hk. destruct (Hkey k Hk) as [r [_ <-]].
    pose proof (hour_of_day_range (hour r)) as Hrange.
    apply in_map_iff. exists (Z.to_nat (hour_of_day (hour r))).
    split; [lia | apply in_seq; lia].
  - rewrite Hmap. apply group_keys_Z_sorted.
  - rewrite Hmap. apply group_keys_Z_NoDup.
  - intros g Hg. apply (proj1 (in_map_iff _ _ _)) in Hg.
    destruct Hg as [k [<- Hk]]. cbn [gl_hour_of_day].
    destruct (Hkey k Hk) as [r [Hr Hkr]].
    split; [rewrite <- Hkr; apply hour_of_day_range | exists r; auto].
  - intros r Hr.
    exists (mk_global_row (hour_of_day (hour r))
              (mean (map occupancy_rate
                       (filter (fun r0 => hour_of_day (hour r0) =? hour_of_day (hour r))
                               df)))).
    split; [|reflexivity].
    apply (in_map_iff _ _ _). exists (hour_of_day (hour r)). split; [reflexivity|].
    apply group_keys_Z_In. apply (in_map (fun r0 => hour_of_day (hour r0))), Hr.
Qed.

(** Capacity pressure: one row per station of the input; [high_pressure_hours]
    never exceeds [total_hours], which never exceeds the number of rows of
    the station; when no rate of the station is missing, [total_hours] is the
    number of its rows, at least 1, and the ratio is a rational in [0, 1]. *)
Theorem capacity_pressure_rows (df : list S) (threshold : pyfloat) :
  let out := compute_capacity_pressure station_id occupancy_rate df threshold in
  map cp_station_id out = group_keys_str (map station_id df)
  /\ NoDup (map cp_station_id out)
  /\ (forall c, In c out ->
        let rows_of := filter (same_station station_id (cp_station_id c)) df in
        0 <= high_pressure_hours c <= total_hours c
        /\ total_hours c <= Z.of_nat (List.length rows_of)
        /\ 0 < Z.of_nat (List.length rows_of)
        /\ ((forall r, In r rows_of -> isna (occupancy_rate r) = false) ->
            total_hours c = Z.of_nat (List.length rows_of)
            /\ exists q, high_pressure_ratio c = Fin q
                         /\ (q == Qmake (high_pressure_hours c) 1
                                  / Qmake (total_hours c) 1)%Q
                         /\ (0 <= q)%Q /\ (q <= 1)%Q)).
Proof.
  intros out. unfold out, compute_capacity_pressure.
  assert (Hmap : forall f : string -> capacity_row,
             (forall e, cp_station_id (f e) = e) ->
             map cp_station_id (map f (group_keys_str (map station_id df)))
             = group_keys_str (map station_id df)).
  { intros f Hf. rewrite map_map, (map_ext _ (fun e => e)) by exact Hf. apply map_id. }
  split; [apply Hmap; reflexivity|].
  split; [rewrite Hmap by reflexivity; apply group_keys_str_NoDup|].
  intros c Hc. apply (proj1 (in_map_iff _ _ _)) in Hc.
  destruct Hc as [e [<- He]].
  cbn [cp_station_id high_pressure_hours total_hours high_pressure_ratio].
  cbv zeta.
  set (g := filter (same_station station_id e) df) in *.
  assert (Hhigh : (List.length (filter (fun r => fle threshold (occupancy_rate r)) g)
                   <= List.length (filter (fun r => negb (isna (occupancy_rate r))) g))%nat).
  { apply filter_length_mono. intros r _ Hr.
    destruct (occupancy_rate r); [|reflexivity..].
    destruct threshold; discriminate. }
  assert (Htot : (List.length (filter (fun r => negb (isna (occupancy_rate r))) g)
                  <= List.length g)%nat) by apply List.filter_length_le.
  assert (Hpos : (0 < List.length g)%nat).
  { apply (proj1 (group_keys_str_In _ _)) in He.
    apply (proj1 (in_map_iff _ _ _)) in He. destruct He as [r [Hr Hin]].
    assert (Hg : In r g).
    { apply filter_In. split; [exact Hin|]. apply String.eqb_eq, Hr. }
    destruct g; [contradiction | simpl; lia]. }
  split; [lia|]. split; [lia|]. split; [lia|].
  intros Hna.
  assert (Hall : filter (fun r => negb (isna (occupancy_rate r))) g = g).
  { apply filter_all. intros r Hr. rewrite (Hna r Hr). reflexivity. }
  rewrite Hall in *. split; [reflexivity|].
  apply truediv_fraction; lia.
Qed.

End StationFrames.

Lemma utilization_trends_rows_witness :
  exists t, In t (compute_utilization_trends Refined.station_id Refined.hour
                    Refined.occupancy_rate two_day_frame)
            /\ tr_station_id t = "S1" /\ tr_date t = 1.
Proof.
  apply (proj2 (proj2 (utilization_trends_rows
           Refined.station_id Refined.hour Refined.occupancy_rate two_day_frame))
           (Refined.mk_station_view "S1" (32 * ns_per_hour) (Fin (1 # 4)))).
  simpl. do 2 right. left. reflexivity.
Defined.

Lemma global_peak_rows_witness :
  exists g, In g (compute_global_peak_by_hour_of_day Refined.hour
                    Refined.occupancy_rate two_day_frame)
            /\ gl_hour_of_day g = 9.
Proof.
  apply (proj2 (proj2 (proj2 (proj2 (global_peak_rows
           Refined.hour Refined.occupancy_rate two_day_frame))))
           (Refined.mk_station_view "S1" (9 * ns_per_hour) (Fin (1 # 1)))).
  simpl. right. left. reflexivity.
Defined.

(** Rates 0.95, 0.92, 0.5, 0.1 with threshold 0.9: 4 hours, 2 of them under
    high pressure, ratio 1/2. *)
Example capacity_pressure_example :
  compute_capacity_pressure Refined.station_id Refined.occupancy_rate
    pressure_frame default_threshold
  = [mk_capacity_row "S1" 4 2 (Fin (2 # 4))].
Proof. reflexivity. Qed.

Lemma capacity_pressure_rows_witness :
  0 <= high_pressure_hours (mk_capacity_row "S1" 4 2 (Fin (2 # 4)))
    <= total_hours (mk_capacity_row "S1" 4 2 (Fin (2 # 4))).
Proof.
  apply (proj2 (proj2 (capacity_pressure_rows Refined.station_id
           Refined.occupancy_rate pressure_frame default_threshold))
           (mk_capacity_row "S1" 4 2 (Fin (2 # 4)))).
  vm_compute. left. reflexivity.
Defined.

(** ** The downtime table *)

Lemma map_fst_combine {A B} (l : list A) (m : list B) :
  List.length l = List.length m -> map fst (combine l m) = l.
Proof.
  revert m. induction l as [|a t IH]; intros [|b m] H; simpl in *;
    try reflexivity; try discriminate.
  f_equal. apply IH. lia.
Qed.

Lemma sum_Z_filter_mono {A} (f : A -> Z) (p q : A -> bool) (l : list A) :
  (forall x, In x l -> p x = true -> q x = true) ->
  (forall x, In x l -> 0 <= f x) ->
  sum_Z (map f (filter p l)) <= sum_Z (map f (filter q l)).
Proof.
  induction l as [|x t IH]; simpl; intros Hpq Hpos.
  - lia.
  - assert (IH' := IH (fun y Hy => Hpq y (or_intror Hy))
                      (fun y Hy => Hpos y (or_intror Hy))).
    pose proof (Hpos x (or_introl eq_refl)) as Hx.
    destruct (p x) eqn:Hp.
    + rewrite (Hpq x (or_introl eq_refl) Hp). simpl. lia.
    + destruct (q x); simpl; lia.
Qed.

Lemma sum_Z_scaled (c : Z) (l : list Z) :
  (forall x, In x l -> c <= x) -> c * Z.of_nat (List.length l) <= sum_Z l.
Proof.
  induction l as [|x t IH]; intros H.
  - simpl. lia.
  - cbn [List.length sum_Z fold_right]. fold (sum_Z t).
    pose proof (H x (or_introl eq_refl)).
    pose proof (IH (fun y Hy => H y (or_intror Hy))).
    lia.
Qed.

Lemma Forall2_map_same {A B} (P : B -> B -> Prop) (f g : A -> B) (l : list A) :
  (forall x, In x l -> P (f x) (g x)) -> Forall2 P (map f l) (map g l).
Proof.
  induction l as [|x t IH]; simpl; intros H; constructor.
  - apply H. left. reflexivity.
  - apply IH. intros y Hy. apply H. right. exact Hy.
Qed.

Lemma runs_of_count_nonneg (zs : list bool) (ids : list Z) (r : run_row) :
  In r (runs_of zs ids) -> 0 <= count_hours r.
Proof.
  unfold runs_of. intros Hr. apply (proj1 (in_map_iff _ _ _)) in Hr.
  destruct Hr as [k [<- _]]. simpl. lia.
Qed.

(** A run flagged as a zero run has at least one row. *)
Lemma runs_of_zero_count (zs : list bool) (ids : list Z) (r : run_row) :
  In r (runs_of zs ids) -> run_is_zero r = true -> 1 <= count_hours r.
Proof.
  unfold runs_of. intros Hr. apply (proj1 (in_map_iff _ _ _)) in Hr.
  destruct Hr as [k [<- _]]. cbn [run_is_zero count_hours].
  destruct (filter (fun p : bool * Z => snd p =? k) (combine zs ids));
    simpl; [discriminate | lia].
Qed.

Section DowntimeTable.
Context {R : Type}.
Variable evse_id : R -> string.
Variable hour : R -> Z.
Variable charging_count : R -> Z.

Let zero := fun r : R => charging_count r =? 0.
Let zero_rows := fun (df : list R) (e : string) =>
  filter zero (evse_group evse_id df e).

Lemma qualifying_rows_bound (df : list R) (gap : Z) (e : string) :
  (List.length (qualifying_zero_rows evse_id hour charging_count df gap e)
   <= List.length (zero_rows df e))%nat.
Proof.
  unfold qualifying_zero_rows, zero_rows.
  set (grp := sort_by_hour hour (evse_group evse_id df e)).
  set (ids := run_col charging_count grp).
  set (P := fun p : R * Z => existsb _ _).
  rewrite length_map.
  apply Nat.le_trans with (List.length (filter (fun p => zero (fst p)) (combine grp ids))).
  - apply filter_length_mono. intros p Hp HP.
    apply Z.eqb_eq.
    apply (qualifying_rows_zero evse_id hour charging_count df gap e).
    unfold qualifying_zero_rows. fold grp. fold ids.
    apply in_map, filter_In. split; assumption.
  - assert (Hlen : List.length grp = List.length ids).
    { unfold ids. symmetry. apply run_col_length. }
    assert (Hf : List.length (filter (fun p => zero (fst p)) (combine grp ids))
                 = List.length (filter zero grp)).
    { rewrite <- (map_fst_combine grp ids Hlen) at 2.
      rewrite filter_map_comm, length_map. reflexivity. }
    rewrite Hf.
    apply Nat.eq_le_incl, Permutation_length, filter_perm.
    apply stable_sort_perm.
Qed.

Lemma downtime_group_bounds (df : list R) (gap_hours : Z) (e : string) :
  let row := downtime_of_group hour charging_count gap_hours e
               (evse_group evse_id df e) in
  0 <= num_downtime_events row
  /\ gap_hours * num_downtime_events row <= total_downtime_hours row
  /\ num_downtime_events row <= total_downtime_hours row
  /\ total_downtime_hours row <= Z.of_nat (List.length (zero_rows df e))
  /\ (num_downtime_events row = 0 -> total_downtime_hours row = 0).
Proof.
  unfold downtime_of_group.
  cbn [dr_evse_id num_downtime_events total_downtime_hours].
  set (grp := sort_by_hour hour (evse_group evse_id df e)).
  set (dr := downtime_runs gap_hours (runs charging_count grp)).
  assert (Hdr : forall x, In x (map count_hours dr) -> gap_hours <= x /\ 1 <= x).
  { intros x Hx. apply (proj1 (in_map_iff _ _ _)) in Hx. destruct Hx as [r [<- Hr]].
    apply downtime_runs_In in Hr. destruct Hr as [Hin [Hz Hg]].
    split; [exact Hg | exact (runs_of_zero_count _ _ r Hin Hz)]. }
  pose proof (sum_Z_scaled gap_hours (map count_hours dr) (fun x Hx => proj1 (Hdr x Hx)))
    as Hgap.
  pose proof (sum_Z_scaled 1 (map count_hours dr) (fun x Hx => proj2 (Hdr x Hx)))
    as Hone.
  rewrite length_map in Hgap, Hone.
  pose proof (qualifying_rows_length evse_id hour charging_count df gap_hours e) as Hlen.
  pose proof (qualifying_rows_bound df gap_hours e) as Hbound.
  fold grp in Hlen. fold dr in Hlen.
  split; [lia|]. split; [exact Hgap|]. split; [lia|]. split; [lia|].
  intros Hnum. destruct dr; [reflexivity | simpl in Hnum; lia].
Qed.

(** The downtime table has one row per connector of the input and no
    connector twice; in each row the number of events is not
    negative, every event counts for at least [gap_hours] hours and at least
    one hour, the hours reported do not exceed the number of rows of the
    connector without charging, and no event means no hours. *)
Theorem reliability_downtime_rows (df : list R) (gap_hours : Z) :
  let out := compute_reliability_downtime evse_id hour charging_count df gap_hours in
  map dr_evse_id out = group_keys_str (map evse_id df)
  /\ NoDup (map dr_evse_id out)
  /\ (forall row, In row out ->
        0 <= num_downtime_events row
        /\ gap_hours * num_downtime_events row <= total_downtime_hours row
        /\ num_downtime_events row <= total_downtime_hours row
        /\ total_downtime_hours row
           <= Z.of_nat (List.length (zero_rows df (dr_evse_id row)))
        /\ (num_downtime_events row = 0 -> total_downtime_hours row = 0)).
Proof.
  intros out. unfold out, compute_reliability_downtime.
  assert (Hmap : map dr_evse_id
                     (map (fun e => downtime_of_group hour charging_count gap_hours e
                                      (evse_group evse_id df e))
                          (group_keys_str (map evse_id df)))
                 = group_keys_str (map evse_id df)).
  { rewrite map_map. cbn [dr_evse_id downtime_of_group]. apply map_id. }
  split; [exact Hmap|]. split; [rewrite Hmap; apply group_keys_str_NoDup|].
  intros row Hrow. apply (proj1 (in_map_iff _ _ _)) in Hrow.
  destruct Hrow as [e [<- _]].
  exact (downtime_group_bounds df gap_hours e).
Qed.

(** A connector that is charging in every row reports no downtime; a
    connector that is never charging reports its whole history as one event
    when it has at least [gap_hours] rows, and nothing otherwise. *)
Theorem reliability_downtime_extremes (df : list R) (gap_hours : Z) (row : downtime_row) :
  In row (compute_reliability_downtime evse_id hour charging_count df gap_hours) ->
  let g := evse_group evse_id df (dr_evse_id row) in
  ((forall r, In r g -> charging_count r <> 0) ->
   num_downtime_events row = 0 /\ total_downtime_hours row = 0)
  /\ ((forall r, In r g -> charging_count r = 0) ->
      if gap_hours <=? Z.of_nat (List.length g)
      then num_downtime_events row = 1
           /\ total_downtime_hours row = Z.of_nat (List.length g)
      else num_downtime_events row = 0 /\ total_downtime_hours row = 0).
Proof.
  intros Hrow.
  unfold compute_reliability_downtime in Hrow.
  apply (proj1 (in_map_iff _ _ _)) in Hrow. destruct Hrow as [e [<- He]].
  destruct (downtime_group_bounds df gap_hours e) as [H0 [_ [Hle [Hzero _]]]].
  unfold downtime_of_group in *.
  cbn [dr_evse_id num_downtime_events total_downtime_hours] in *.
  set (g := evse_group evse_id df e) in *.
  cbv zeta. split.
  - intros Hbusy. unfold zero_rows in Hzero. fold g in Hzero.
    rewrite filter_none in Hzero; [simpl in Hzero; lia|].
    intros r Hr. apply Z.eqb_neq, Hbusy, Hr.
  - intros Hidle.
    assert (Hne : sort_by_hour hour g <> []).
    { apply (proj1 (group_keys_str_In _ _)) in He.
      apply (proj1 (in_map_iff _ _ _)) in He. destruct He as [r [Hr Hin]].
      assert (Hg : In r (sort_by_hour hour g)).
      { apply stable_sort_In, filter_In. split; [exact Hin | apply String.eqb_eq, Hr]. }
      intros Hnil. rewrite Hnil in Hg. exact Hg. }
    rewrite (runs_all_zero charging_count (sort_by_hour hour g) Hne).
    2:{ intros r Hr. apply stable_sort_In in Hr. apply Hidle, Hr. }
    assert (Hl : List.length (sort_by_hour hour g) = List.length g)
      by apply stable_sort_length.
    rewrite !Hl.
    unfold downtime_runs. cbn [filter run_is_zero count_hours andb].
    destruct (gap_hours <=? Z.of_nat (List.length g)); simpl; split; lia.
Qed.

(** Raising [gap_hours] never adds an event or an hour: the two tables list
    the same connectors, and row by row the larger threshold reports at most
    as many events and hours. *)
Theorem reliability_downtime_monotone (df : list R) (gap1 gap2 : Z) :
  gap1 <= gap2 ->
  Forall2 (fun r1 r2 =>
             dr_evse_id r1 = dr_evse_id r2
             /\ num_downtime_events r2 <= num_downtime_events r1
             /\ total_downtime_hours r2 <= total_downtime_hours r1)
          (compute_reliability_downtime evse_id hour charging_count df gap1)
          (compute_reliability_downtime evse_id hour charging_count df gap2).
Proof.
  intros Hgap. unfold compute_reliability_downtime.
  apply Forall2_map_same. intros e _. unfold downtime_of_group.
  cbn [dr_evse_id num_downtime_events total_downtime_hours].
  set (rs := runs charging_count (sort_by_hour hour (evse_group evse_id df e))).
  assert (Himp : forall r, In r rs ->
             run_is_zero r && (gap2 <=? count_hours r) = true ->
             run_is_zero r && (gap1 <=? count_hours r) = true).
  { intros r _. rewrite !andb_true_iff, !Z.leb_le. intros [Hz Hg]. split; [exact Hz | lia]. }
  split; [reflexivity|]. split.
  - apply Nat2Z.inj_le. unfold downtime_runs.
    apply filter_length_mono, Himp.
  - unfold downtime_runs. apply sum_Z_filter_mono; [exact Himp|].
    intros r Hr. apply (runs_of_count_nonneg _ _ r Hr).
Qed.

End DowntimeTable.

Lemma reliability_downtime_rows_witness :
  0 <= num_downtime_events (mk_downtime_row "C1" 1 21)
  /\ 20 * num_downtime_events (mk_downtime_row "C1" 1 21)
     <= total_downtime_hours (mk_downtime_row "C1" 1 21).
Proof.
  assert (Hin : In (mk_downtime_row "C1" 1 21) (detect c1_frame 20)).
  { vm_compute. left. reflexivity. }
  destruct (proj2 (proj2 (reliability_downtime_rows o_evse_id o_hour o_charging_count
                            c1_frame 20)) _ Hin) as [H0 [H1 _]].
  exact (conj H0 H1).
Defined.

Lemma reliability_downtime_extremes_witness :
  num_downtime_events (mk_downtime_row "C2" 1 4) = 1
  /\ total_downtime_hours (mk_downtime_row "C2" 1 4) = 4.
Proof.
  assert (Hin : In (mk_downtime_row "C2" 1 4) (detect gap_frame 4)).
  { vm_compute. left. reflexivity. }
  refine (proj2 (reliability_downtime_extremes o_evse_id o_hour o_charging_count
                   gap_frame 4 _ Hin) _).
  intros r Hr. simpl in Hr.
  destruct Hr as [<-|[<-|[<-|[<-|[]]]]]; reflexivity.
Defined.

Lemma reliability_downtime_monotone_witness :
  Forall2 (fun r1 r2 =>
             dr_evse_id r1 = dr_evse_id r2
             /\ num_downtime_events r2 <= num_downtime_events r1
             /\ total_downtime_hours r2 <= total_downtime_hours r1)
          (detect c1_frame 20) (detect c1_frame 24).
Proof.
  apply (reliability_downtime_monotone o_evse_id o_hour o_charging_count c1_frame 20 24).
  lia.
Defined.

(** ** Flooring to the hour *)

Lemma floor_hour_aligned (ts : Z) : floor_hour ts mod ns_per_hour = 0.
Proof.
  assert (Hpos : 0 < ns_per_hour) by (unfold ns_per_hour; lia).
  pose proof (Z.div_mod ts ns_per_hour ltac:(lia)) as Hdiv.
  replace (floor_hour ts) with (ts / ns_per_hour * ns_per_hour)
    by (unfold floor_hour; lia).
  apply Z.mod_mul. lia.
Qed.

(** ** Outcomes of [data_prep.main] *)

(** For input files that the Avro reader reads to the end and whose four
    fields are strings or null, the run ends in exactly one of five ways,
    decided in this order: no file found (exit status 1), no record parsed
    from the sampled files (KeyError on the four column names), no canonical
    record left (ZeroDivisionError), a record other than UNKNOWN whose hour
    starts before the least int64 instant (OverflowError), or completion.  The
    output directory is created and files are written only in the last case,
    and then they are the five artifacts, in this order. *)
Theorem main_outcome :
  forall (to_datetime : list string -> string -> option Z) (avro_files : list avro_file)
         (sample_size : Z),
    let all_recs := flat_map parse_avro_file (slice_to sample_size avro_files) in
    let df := normalize to_datetime all_recs in
    let r := run (main to_datetime avro_files sample_size) in
    fst r = match avro_files, all_recs, df with
            | [], _, _ => inl (SystemExit 1)
            | _, [], _ => inl (KeyError subset)
            | _, _, [] => inl ZeroDivisionError
            | _, _, _ => if hour_underflows df then inl OverflowError else inr tt
            end
    /\ map fst (files (snd r))
       = match fst r with
         | inl _ => []
         | inr _ => [ outdir ++ "status_summary.csv";
                      outdir ++ "occupancy_station_hourly.parquet";
                      outdir ++ "occupancy_evse_hourly.parquet";
                      outdir ++ "flattened_sample.parquet";
                      outdir ++ "unknown_analysis.txt" ]%string
         end
    /\ dirs (snd r) = match fst r with
                      | inl _ => []
                      | inr _ => [outdir]
                      end.
Proof.
  intros to_datetime avro_files sample_size. cbv zeta.
  destruct avro_files as [|f fs]; [repeat split; reflexivity|].
  unfold main, run, bind, print, ret, raise, makedirs, write_file.
  destruct (flat_map parse_avro_file (slice_to sample_size (f :: fs)))
    as [|x xs] eqn:Hall; [repeat split; reflexivity|].
  cbn [stdout files dirs fst snd].
  destruct (normalize to_datetime (x :: xs)) as [|c cs] eqn:Hdf;
    [repeat split; reflexivity|].
  replace (Z.of_nat (List.length (c :: cs)) =? 0) with false
    by (symmetry; apply Z.eqb_neq; simpl; lia).
  cbn [stdout files dirs fst snd].
  rewrite <- hour_underflows_spec.
  destruct (hour_underflows (c :: cs)); [repeat split; reflexivity|].
  cbn [stdout files dirs fst snd app existsb].
  replace (String.eqb outdir outdir) with true by (symmetry; apply String.eqb_refl).
  cbn [orb stdout files dirs fst snd app map].
  repeat split; reflexivity.
Qed.

(** ** Records dropped before the timestamp conversion *)

Lemma complete_rows_app (l l' : list raw_rec) :
  complete_rows (l ++ l') = complete_rows l ++ complete_rows l'.
Proof. unfold complete_rows. apply flat_map_app. Qed.

(** A record without a body, with a body that does not decode, or with one
    of its four fields missing never reaches the timestamp conversion: the
    canonical records are those of the input without it.  (Fields are strings
    or null; nothing is said here of a record whose timestamp does not
    parse, whose removal can change the format that pandas infers for the
    column.) *)
Theorem malformed_record_skipped :
  forall (to_datetime : list string -> string -> option Z) (before after : avro_file)
         (bad : avro_rec),
    (forall p, bad = Body p ->
               nobilId p = None \/ evseUId p = None
               \/ p_status p = None \/ p_timestamp p = None) ->
    normalize to_datetime (parse_avro_file (before ++ bad :: after))
    = normalize to_datetime (parse_avro_file (before ++ after)).
Proof.
  intros to_datetime before after bad Hbad.
  assert (Hrows : complete_rows (parse_avro_file (before ++ bad :: after))
                  = complete_rows (parse_avro_file (before ++ after))).
  { unfold parse_avro_file. rewrite !flat_map_app. cbn [flat_map].
    rewrite !complete_rows_app. f_equal.
    replace (complete_rows _) with (@nil (string * string * string * string)) at 1;
      [reflexivity|].
    destruct bad as [| |p]; try reflexivity.
    unfold complete_rows, complete. cbn [flat_map app raw_station_id raw_evse_id
                                          raw_status raw_timestamp].
    destruct (Hbad p eq_refl) as [H|[H|[H|H]]]; rewrite H;
      destruct (nobilId p), (evseUId p), (p_status p), (p_timestamp p);
      try reflexivity; discriminate. }
  unfold normalize. rewrite Hrows. reflexivity.
Qed.

Lemma malformed_record_skipped_witness :
  normalize parse_0800
    (parse_avro_file ([Body (s1_payload (Some "CHARGING"))]
                        ++ Body (s1_payload None) :: [Body (s1_payload (Some "AVAILABLE"))]))
  = normalize parse_0800
      (parse_avro_file ([Body (s1_payload (Some "CHARGING"))]
                          ++ [Body (s1_payload (Some "AVAILABLE"))])).
Proof.
  apply (malformed_record_skipped parse_0800).
  intros p Hp. inversion Hp. simpl. right. right. left. reflexivity.
Defined.

(** ** Accounting of records across the tables *)

Lemma filter_and {A} (p q : A -> bool) (l : list A) :
  filter (fun x => p x && q x) l = filter q (filter p l).
Proof.
  induction l as [|x t IH]; simpl; [reflexivity|].
  destruct (p x); simpl; [destruct (q x)|]; rewrite IH; reflexivity.
Qed.

Lemma sum_Z_perm (l l' : list Z) : Permutation l l' -> sum_Z l = sum_Z l'.
Proof.
  induction 1; simpl in *; lia.
Qed.

Lemma str_Z_eqb_eq (a b : string * Z) : str_Z_eqb a b = true <-> a = b.
Proof.
  destruct a as [a1 a2], b as [b1 b2]. unfold str_Z_eqb. simpl.
  rewrite andb_true_iff, String.eqb_eq, Z.eqb_eq.
  split; [intros [-> ->]; reflexivity | intros H; inversion H; auto].
Qed.

(** The [total] of a row is the number of records of its bucket. *)
Lemma aggregate_total_bucket (key : canon -> string) (df_clean : list clean)
      (row : hourly_row) :
  In row (rows (aggregate key df_clean)) ->
  total row
  = Z.of_nat (List.length
                (filter (fun r => str_Z_eqb (key (rec r), hour r) (entity row, h_hour row))
                        df_clean)).
Proof.
  intros Hrow.
  destruct (aggregate_row_inv key df_clean row Hrow) as [_ [Htot _]].
  rewrite Htot, map_map. cbn [snd].
  set (bucket := filter _ df_clean).
  rewrite (map_ext _ (fun s => Z.of_nat (List.length
             (filter (fun r => String.eqb (status (rec r)) s) bucket)))).
  - apply (sum_group_sizes_all (fun r : clean => status (rec r)) String.eqb).
    + intros a b. apply String.eqb_eq.
    + apply group_keys_str_NoDup.
    + intros r Hr. apply filter_In in Hr.
      apply (aggregate_columns_In key). exists r. split; [apply Hr | reflexivity].
  - intros s. unfold size_at, bucket. f_equal. f_equal.
    rewrite <- filter_and. reflexivity.
Qed.

(** Every canonical record is either counted as UNKNOWN in the report or
    counted once in each hourly table: the record total is the UNKNOWN count
    plus the sum of the [total] column, for the station table as for the
    connector table. *)
Theorem record_accounting :
  forall (key : canon -> string) (df : list canon),
    let df_clean := exclude_unknown df in
    Z.of_nat (List.length df)
    = count_status "UNKNOWN" df + Z.of_nat (List.length df_clean)
    /\ sum_Z (map total (rows (aggregate key df_clean)))
       = Z.of_nat (List.length df_clean).
Proof.
  intros key df df_clean. split.
  - unfold df_clean, exclude_unknown, count_status. rewrite length_map.
    rewrite <- (filter_length (fun r => String.eqb (status r) "UNKNOWN") df) at 1.
    lia.
  - rewrite (map_ext_in _ _ _ (aggregate_total_bucket key df_clean)).
    unfold aggregate. cbn [rows]. rewrite map_map. cbn [entity h_hour].
    rewrite (map_ext _ (fun k => Z.of_nat (List.length
               (filter (fun r => str_Z_eqb (key (rec r), hour r) k) df_clean))))
      by (intros [e h]; reflexivity).
    apply (sum_group_sizes_all (fun r : clean => (key (rec r), hour r)) str_Z_eqb).
    + apply str_Z_eqb_eq.
    + apply group_keys_str_Z_NoDup.
    + intros r Hr. apply group_keys_str_Z_In.
      apply (in_map (fun r0 : clean => (key (rec r0), hour r0))), Hr.
Qed.

Lemma keys_hours_distinct (l : list hourly_row) (e : string) :
  NoDup (map (fun row => (entity row, h_hour row)) l) ->
  NoDup (map h_hour (filter (fun row => String.eqb (entity row) e) l)).
Proof.
  induction l as [|row l IH]; simpl; intros Hnd; [constructor|].
  inversion Hnd as [|? ? Hnot Hnd']; subst.
  destruct (String.eqb (entity row) e) eqn:He; [|apply IH, Hnd'].
  simpl. constructor; [|apply IH, Hnd'].
  intros Hin. apply (proj1 (in_map_iff _ _ _)) in Hin.
  destruct Hin as [row' [Hh Hrow']]. apply filter_In in Hrow'.
  destruct Hrow' as [Hrow' He'].
  apply String.eqb_eq in He. apply String.eqb_eq in He'.
  apply Hnot. apply in_map_iff. exists row'. split; [|exact Hrow'].
  congruence.
Qed.

Lemma aggregate_index_NoDup (key : canon -> string) (df_clean : list clean) :
  NoDup (map (fun row => (entity row, h_hour row)) (rows (aggregate key df_clean))).
Proof.
  unfold aggregate. cbn [rows]. rewrite map_map. cbn [entity h_hour].
  rewrite (map_ext _ (fun k => k)) by (intros [a b]; reflexivity).
  rewrite map_id. apply group_keys_str_Z_NoDup.
Qed.

(** The index of an hourly table: one row per (entity, hour) pair that holds
    a record other than UNKNOWN and no row for any other pair, every hour the
    start of an hour; so within one entity no two rows share an hour. *)
Theorem hourly_table_index :
  forall (key : canon -> string) (df : list canon),
    let t := aggregate key (exclude_unknown df) in
    NoDup (map (fun row => (entity row, h_hour row)) (rows t))
    /\ (forall row, In row (rows t) ->
          h_hour row mod ns_per_hour = 0
          /\ exists c, In c df /\ status c <> "UNKNOWN" /\ key c = entity row
                       /\ floor_hour (timestamp c) = h_hour row)
    /\ (forall c, In c df -> status c <> "UNKNOWN" ->
          exists row, In row (rows t) /\ entity row = key c
                      /\ h_hour row = floor_hour (timestamp c))
    /\ (forall e, NoDup (map h_hour (filter (fun row => String.eqb (entity row) e)
                                            (rows t)))).
Proof.
  intros key df t.
  assert (Hidx : map (fun row => (entity row, h_hour row)) (rows t)
                 = group_keys_str_Z
                     (map (fun r : clean => (key (rec r), hour r)) (exclude_unknown df))).
  { unfold t, aggregate. cbn [rows]. rewrite map_map. cbn [entity h_hour].
    rewrite (map_ext _ (fun k => k)) by (intros [a b]; reflexivity). apply map_id. }
  assert (Hnd : NoDup (map (fun row => (entity row, h_hour row)) (rows t))).
  { rewrite Hidx. apply group_keys_str_Z_NoDup. }
  split; [exact Hnd|]. split; [|split].
  - intros row Hrow.
    destruct (aggregate_row_inv key _ row Hrow) as [_ [_ [_ [_ [c [Hc [Hk Hh]]]]]]].
    apply exclude_unknown_In in Hc. destruct Hc as [Hin [Hst Hhour]].
    split.
    + rewrite <- Hh, Hhour. apply floor_hour_aligned.
    + exists (rec c). rewrite <- Hhour. auto.
  - intros c Hc Hst.
    set (cl := mk_clean c (floor_hour (timestamp c))).
    assert (Hcl : In cl (exclude_unknown df)).
    { unfold exclude_unknown, cl.
      apply (in_map (fun r => mk_clean r (floor_hour (timestamp r))) _ c), filter_In.
      split; [exact Hc|].
      apply negb_true_iff, String.eqb_neq, Hst. }
    assert (Hk : In (key c, floor_hour (timestamp c))
                    (map (fun row => (entity row, h_hour row)) (rows t))).
    { rewrite Hidx. apply group_keys_str_Z_In.
      apply (in_map (fun r : clean => (key (rec r), hour r)) _ cl), Hcl. }
    apply (proj1 (in_map_iff _ _ _)) in Hk. destruct Hk as [row [Heq Hrow]].
    inversion Heq. exists row. auto.
  - intros e. apply keys_hours_distinct, Hnd.
Qed.

Lemma hourly_table_index_witness :
  exists row, In row (rows (aggregate evse_id (exclude_unknown small_df)))
              /\ entity row = "E2" /\ h_hour row = 9 * ns_per_hour.
Proof.
  apply (proj1 (proj2 (proj2 (hourly_table_index evse_id small_df)))
           (mk_canon "S1" "E2" "OUTOFORDER" (9 * ns_per_hour))).
  - simpl. do 3 right. left. reflexivity.
  - discriminate.
Defined.

(** The status summary lists every status of the canonical records once,
    UNKNOWN included, with the number of records that carry it, most
    frequent first; the counts are positive and add up to the record total. *)
Theorem status_summary_counts :
  forall df : list canon,
    let summary := value_counts df in
    NoDup (map fst summary)
    /\ (forall s, In s (map fst summary) <-> In s (map status df))
    /\ (forall s n, In (s, n) summary -> n = count_status s df /\ 0 < n)
    /\ StronglySorted (fun a b => snd b <= snd a) summary
    /\ sum_Z (map snd summary) = Z.of_nat (List.length df).
Proof.
  intros df summary. unfold summary, value_counts.
  set (cnt := fun s : string =>
                (s, Z.of_nat (List.length
                                (filter (fun r => String.eqb (status r) s) df)))).
  set (keys := unique_str (map status df)).
  set (sorted := stable_sort _ (map cnt keys)).
  assert (Hperm : Permutation sorted (map cnt keys)) by apply stable_sort_perm.
  assert (Hfst : Permutation (map fst sorted) keys).
  { eapply perm_trans; [apply Permutation_map, Hperm|].
    rewrite map_map. cbn [fst cnt]. rewrite map_id. apply Permutation_refl. }
  split; [|split; [|split; [|split]]].
  - apply (Permutation_NoDup (Permutation_sym Hfst)), unique_str_NoDup.
  - intros s. split; intros H.
    + apply unique_str_In. apply (Permutation_in _ Hfst H).
    + apply (Permutation_in _ (Permutation_sym Hfst)). apply unique_str_In, H.
  - intros s n Hin. apply (Permutation_in _ Hperm) in Hin.
    apply (proj1 (in_map_iff _ _ _)) in Hin. destruct Hin as [s' [Heq Hs']].
    inversion Heq; subst. split; [reflexivity|].
    unfold keys in Hs'. apply (proj1 (unique_str_In _ _)) in Hs'.
    apply (proj1 (in_map_iff _ _ _)) in Hs'. destruct Hs' as [r [Hr Hin]].
    assert (Hmem : In r (filter (fun r0 => String.eqb (status r0) s) df)).
    { apply filter_In. split; [exact Hin | apply String.eqb_eq, Hr]. }
    destruct (filter (fun r0 => String.eqb (status r0) s) df);
      [contradiction | simpl; lia].
  - assert (H : StronglySorted (fun a b => (snd b <=? snd a) = true) sorted).
    { apply stable_sort_sorted.
      - intros x y. rewrite !Z.leb_le. lia.
      - intros x y z. rewrite !Z.leb_le. lia. }
    apply (StronglySorted_weaken _ _ _ (fun a b Hab => proj1 (Z.leb_le _ _) Hab) H).
  - rewrite (sum_Z_perm _ _ (Permutation_map snd Hperm)), map_map. cbn [snd cnt].
    apply (sum_group_sizes_all status String.eqb).
    + intros a b. apply String.eqb_eq.
    + apply unique_str_NoDup.
    + intros r Hr. apply unique_str_In, in_map, Hr.
Qed.

Lemma status_summary_counts_witness :
  1 = count_status "UNKNOWN" small_df /\ 0 < 1.
Proof.
  apply (proj1 (proj2 (proj2 (status_summary_counts small_df))) "UNKNOWN" 1).
  vm_compute. do 2 right. left. reflexivity.
Defined.

(** ** Outcome of the refined entry point *)

Lemma existsb_eqb_In (d : string) (l : list string) :
  existsb (String.eqb d) l = true <-> In d l.
Proof.
  rewrite existsb_exists. split.
  - intros [x [Hx E]]. apply String.eqb_eq in E. subst x. exact Hx.
  - intros H. exists d. split; [exact H | apply String.eqb_refl].
Qed.

Lemma write_file_ok {F} (dir name : string) (content : F) (w : world F) :
  existsb (String.eqb dir) (dirs w) = true ->
  write_file dir name content w
  = (inr tt, mk_world (stdout w) (files w ++ [((dir ++ name)%string, content)]) (dirs w)).
Proof.
  intros H. unfold write_file. rewrite H. reflexivity.
Qed.

Lemma refined_main_from :
  forall (station_tbl evse_tbl : hourly_table) (w : world (table Refined.station_view)),
    let av := fun r : hourly_row => get (counts r) "AVAILABLE" 0 in
    let ref := Refined.station_ref av (rows station_tbl) in
    Refined.main station_tbl evse_tbl w
    = if in_dec string_dec "AVAILABLE" (status_columns station_tbl)
      then if existsb (String.eqb outputs) (dirs w)
           then (inr tt,
                 mk_world (stdout w)
                   (files w ++
                    [ (outputs ++ "daily_utilization_trends_refined.csv",
                       DailyUtil (compute_utilization_trends Refined.station_id
                                    Refined.hour Refined.occupancy_rate ref));
                      (outputs ++ "peak_periods_station_refined.csv",
                       PeakPeriods (compute_peak_periods Refined.station_id
                                      Refined.occupancy_rate ref default_top_n));
                      (outputs ++ "global_peak_hour_of_day_refined.csv",
                       GlobalPeak (compute_global_peak_by_hour_of_day Refined.hour
                                     Refined.occupancy_rate ref));
                      (outputs ++ "capacity_pressure_station_refined.csv",
                       CapacityPressure (compute_capacity_pressure Refined.station_id
                                           Refined.occupancy_rate ref default_threshold));
                      (outputs ++ "reliability_evse_downtime_refined.csv",
                       Reliability (compute_reliability_downtime
                                      (fun r => entity (base r)) (fun r => h_hour (base r))
                                      charging_count (with_charging_count evse_tbl)
                                      default_gap_hours)) ]%string)
                   (dirs w))
           else (inl OSError, w)
      else (inl (KeyError ["AVAILABLE"]), w).
Proof.
  intros station_tbl evse_tbl w av ref.
  unfold Refined.main, Refined.status_column, bind.
  destruct (in_dec string_dec "AVAILABLE" (status_columns station_tbl)); [|reflexivity].
  unfold ret.
  cbn -[compute_utilization_trends compute_peak_periods
        compute_global_peak_by_hour_of_day compute_capacity_pressure
        compute_reliability_downtime Refined.station_ref with_charging_count
        write_file outputs].
  destruct (existsb (String.eqb outputs) (dirs w)) eqn:E.
  - repeat (rewrite write_file_ok by exact E; cbn [stdout files dirs]).
    rewrite <- !app_assoc. reflexivity.
  - unfold write_file. rewrite E. reflexivity.
Qed.

(** ** Refined against baseline rate *)

Lemma get_le_sum (l : list (string * Z)) (s : string) :
  (forall p, In p l -> 0 <= snd p) ->
  0 <= get l s 0 <= sum_Z (map snd l).
Proof.
  induction l as [|[k v] t IH]; simpl; intros Hpos.
  - lia.
  - pose proof (Hpos (k, v) (or_introl eq_refl)) as Hv. simpl in Hv.
    pose proof (IH (fun p Hp => Hpos p (or_intror Hp))) as IH'.
    destruct (String.eqb k s); lia.
Qed.

Lemma get_two_le_sum (l : list (string * Z)) (s1 s2 : string) :
  s1 <> s2 ->
  (forall p, In p l -> 0 <= snd p) ->
  get l s1 0 + get l s2 0 <= sum_Z (map snd l).
Proof.
  intros Hne.
  induction l as [|[k v] t IH]; simpl; intros Hpos.
  - lia.
  - pose proof (Hpos (k, v) (or_introl eq_refl)) as Hv. simpl in Hv.
    assert (Ht : forall p, In p t -> 0 <= snd p) by (intros p Hp; apply Hpos; right; exact Hp).
    pose proof (IH Ht) as IH'.
    pose proof (get_le_sum t s1 Ht) as H1.
    pose proof (get_le_sum t s2 Ht) as H2.
    destruct (String.eqb k s1) eqn:E1, (String.eqb k s2) eqn:E2; try lia.
    apply String.eqb_eq in E1. apply String.eqb_eq in E2. congruence.
Qed.

Lemma aggregate_counts_nonneg (key : canon -> string) (df_clean : list clean)
      (row : hourly_row) :
  In row (rows (aggregate key df_clean)) ->
  forall p, In p (counts row) -> 0 <= snd p.
Proof.
  intros Hrow [s n] Hp.
  destruct (aggregate_row_bounds key df_clean row Hrow) as [_ [Hval _]].
  rewrite (Hval s n Hp). apply size_at_nonneg.
Qed.

Lemma Qdiv_denominator_mono (c d T : Z) :
  0 <= c -> 0 < d <= T ->
  (Qmake c 1 / Qmake T 1 <= Qmake c 1 / Qmake d 1)%Q
  /\ (0 <= Qmake c 1 / Qmake T 1)%Q.
Proof.
  intros Hc Hd.
  destruct d as [|d|d]; try lia. destruct T as [|T|T]; try lia.
  unfold Qle, Qdiv, Qmult, Qinv. cbn [Qnum Qden]. split; nia.
Qed.

(** On a station table built by the aggregator, every row of the refined
    frame comes from a row of the table with the same station and hour, and
    its refined rate is a rational in [0, 1] that is not below the baseline
    rate of that row. *)
Theorem refined_rate_bounds :
  forall (df_clean : list clean) (v : Refined.station_view),
    let t := aggregate station_id df_clean in
    let av := fun r : hourly_row => get (counts r) "AVAILABLE" 0 in
    In v (Refined.station_ref av (rows t)) ->
    exists r q q',
      In r (rows t)
      /\ entity r = Refined.station_id v /\ h_hour r = Refined.hour v
      /\ occupancy_rate r = Fin q /\ Refined.occupancy_rate v = Fin q'
      /\ (0 <= q)%Q /\ (q <= q')%Q /\ (q' <= 1)%Q.
Proof.
  intros df_clean v t av Hv.
  unfold t, av in Hv. rewrite refined_rows_kept in Hv. fold t in Hv. fold av in Hv.
  apply (proj1 (in_map_iff _ _ _)) in Hv. destruct Hv as [r [<- Hr]].
  apply filter_In in Hr. destruct Hr as [Hr Hnz].
  apply negb_true_iff, Z.eqb_neq in Hnz.
  change (charging r + av r <> 0) in Hnz.
  destruct (aggregate_row_bounds station_id df_clean r Hr)
    as [_ [_ [Htot [Hchg [Hpos [q [Hq [Hqeq [Hq0 Hq1]]]]]]]]].
  pose proof (aggregate_counts_nonneg station_id df_clean r Hr) as Hnn.
  assert (Hav : 0 <= av r) by (unfold av; apply (get_le_sum (counts r) "AVAILABLE" Hnn)).
  assert (Hsum : charging r + av r <= total r).
  { destruct (aggregate_row_inv station_id df_clean r Hr) as [Hcnt [_ [Hc _]]].
    rewrite Hc, Htot. unfold av. rewrite <- Hcnt.
    apply get_two_le_sum; [discriminate | exact Hnn]. }
  destruct (Qdiv_denominator_mono (charging r) (charging r + av r) (total r))
    as [Hmono _]; [lia | lia|].
  destruct (truediv_fraction (charging r) (charging r + av r)) as [q' [Hq' [Hq'eq [_ Hq'1]]]];
    [lia | lia|].
  exists r, q, (Qmake (charging r) 1 / Qmake (charging r + av r) 1)%Q.
  cbn [Refined.station_id Refined.hour Refined.occupancy_rate].
  split; [exact Hr|]. split; [reflexivity|]. split; [reflexivity|].
  split; [exact Hq|]. split; [reflexivity|]. split; [exact Hq0|].
  split.
  - rewrite Hqeq. exact Hmono.
  - rewrite <- Hq'eq. exact Hq'1.
Qed.

Lemma refined_rate_bounds_witness :
  exists r q q',
    In r (rows (aggregate station_id s1_bucket_out_of_order))
    /\ entity r = "S1" /\ h_hour r = t0800
    /\ occupancy_rate r = Fin q /\ Fin (3 # 10) = Fin q'
    /\ (0 <= q)%Q /\ (q <= q')%Q /\ (q' <= 1)%Q.
Proof.
  apply (refined_rate_bounds s1_bucket_out_of_order
           (Refined.mk_station_view "S1" t0800 (Fin (3 # 10)))).
  vm_compute. left. reflexivity.
Defined.

(** ** Peak periods over the whole frame *)

Lemma string_leb_cases (a b : string) :
  String.leb a b = true <-> a = b \/ OrderedTypeEx.String_as_OT.lt a b.
Proof.
  unfold String.leb.
  pose proof (OrderedTypeEx.String_as_OT.cmp_eq a b) as Heq.
  pose proof (OrderedTypeEx.String_as_OT.cmp_lt a b) as Hlt.
  unfold OrderedTypeEx.String_as_OT.cmp in *.
  destruct (String.compare a b) eqn:E.
  - split; [intros _; left; apply Heq; reflexivity | reflexivity].
  - split; [intros _; right; apply Hlt; reflexivity | reflexivity].
  - split; [discriminate|].
    intros [H|H]; [apply Heq in H | apply Hlt in H]; discriminate.
Qed.

Lemma string_leb_trans (a b c : string) :
  String.leb a b = true -> String.leb b c = true -> String.leb a c = true.
Proof.
  rewrite !string_leb_cases.
  intros [->|H1] [->|H2]; auto.
  right. exact (OrderedTypeEx.String_as_OT.lt_trans _ _ _ H1 H2).
Qed.

Section PeakPeriodsFrame.
Context {S : Type}.
Variable station_id : S -> string.
Variable occupancy_rate : S -> pyfloat.

Lemma groupby_head_from_sub (R : S -> S -> Prop) (n : Z) (all seen rest : list S) :
  (forall x, In x (groupby_head_from station_id n all seen rest) -> In x rest)
  /\ (StronglySorted R rest ->
      StronglySorted R (groupby_head_from station_id n all seen rest)).
Proof.
  revert seen. induction rest as [|r t IH]; intros seen; simpl.
  - split; [intros x [] | intros _; constructor].
  - destruct (IH (seen ++ [r])) as [Hin Hs].
    set (keep := if 0 <=? n then _ else _).
    destruct keep; simpl.
    + split.
      * intros x [Hx|Hx]; [left; exact Hx | right; apply Hin, Hx].
      * intros Hsorted. apply StronglySorted_inv in Hsorted.
        destruct Hsorted as [Ht Hall]. constructor; [apply Hs, Ht|].
        rewrite Forall_forall in *. intros y Hy. apply Hall, Hin, Hy.
    + split.
      * intros x Hx. right. apply Hin, Hx.
      * intros Hsorted. apply StronglySorted_inv in Hsorted. apply Hs, Hsorted.
Qed.

(** The peak-periods table lists rows of the input only, grouped by station
    in ascending order of the station id. *)
Theorem peak_periods_frame_order (df : list S) (top_n : Z) :
  let out := compute_peak_periods station_id occupancy_rate df top_n in
  (forall r, In r out -> In r df)
  /\ (List.length out <= List.length df)%nat
  /\ StronglySorted (fun a b => String.leb (station_id a) (station_id b) = true) out.
Proof.
  intros out. unfold out, compute_peak_periods, groupby_head.
  set (sorted := sort_values_station_rate station_id occupancy_rate df).
  assert (Hperm : Permutation sorted df).
  { unfold sorted, sort_values_station_rate.
    eapply perm_trans; apply stable_sort_perm. }
  assert (Hsorted : StronglySorted
                      (fun a b => String.leb (station_id a) (station_id b) = true) sorted).
  { unfold sorted, sort_values_station_rate.
    apply (stable_sort_sorted (station_leb station_id)).
    - intros x y. apply String.leb_total.
    - intros x y z. apply string_leb_trans. }
  destruct (groupby_head_from_sub
              (fun a b => String.leb (station_id a) (station_id b) = true)
              top_n sorted [] sorted) as [Hin Hs].
  split; [|split].
  - intros r Hr. apply (Permutation_in _ Hperm), Hin, Hr.
  - rewrite <- (Permutation_length Hperm).
    assert (Hlen : forall seen rest,
               (List.length (groupby_head_from station_id top_n sorted seen rest)
                <= List.length rest)%nat).
    { intros seen rest. revert seen.
      induction rest as [|r t IH]; intros seen; simpl; [lia|].
      rewrite length_app. specialize (IH (seen ++ [r])).
      destruct (if 0 <=? top_n then _ else _); simpl; lia. }
    apply Hlen.
  - apply Hs, Hsorted.
Qed.

(** With [top_n >= 1] every station of the input appears in the table, with
    a row whose rate no row of that station exceeds: the rate of any row of
    the station is missing, or it is no greater than the rate of that row. *)
Theorem peak_periods_has_maximum (df : list S) (top_n : Z) (r : S) :
  1 <= top_n ->
  In r df ->
  exists m, In m (compute_peak_periods station_id occupancy_rate df top_n)
            /\ station_id m = station_id r
            /\ (isna (occupancy_rate r) = true
                \/ float_le (occupancy_rate r) (occupancy_rate m)).
Proof.
  intros Hn Hr.
  set (e := station_id r).
  set (desc := rate_desc_leb occupancy_rate).
  set (sorted := filter (same_station station_id e) (stable_sort desc df)).
  assert (Hout : filter (same_station station_id e)
                        (compute_peak_periods station_id occupancy_rate df top_n)
                 = firstn (Z.to_nat top_n) sorted).
  { apply peak_periods_of_station. lia. }
  assert (Hin : In r sorted).
  { apply filter_In. split; [apply stable_sort_In, Hr|].
    unfold same_station, e. apply String.eqb_refl. }
  assert (Hsorted : StronglySorted (fun a b => desc a b = true) sorted).
  { apply StronglySorted_filter, stable_sort_sorted.
    - apply rate_desc_leb_total.
    - apply rate_desc_leb_trans. }
  destruct sorted as [|m tl] eqn:Es; [contradiction|].
  assert (Hm : In m (filter (same_station station_id e)
                            (compute_peak_periods station_id occupancy_rate df top_n))).
  { rewrite Hout.
    replace (Z.to_nat top_n) with (Datatypes.S (Z.to_nat (top_n - 1))) by lia.
    left. reflexivity. }
  apply filter_In in Hm. destruct Hm as [Hm He].
  exists m. split; [exact Hm|]. split; [apply String.eqb_eq, He|].
  apply StronglySorted_inv in Hsorted. destruct Hsorted as [_ Hall].
  apply (rate_desc_leb_rate_ge occupancy_rate m r).
  destruct Hin as [<-|Hin].
  - destruct (rate_desc_leb_total occupancy_rate m m); assumption.
  - rewrite Forall_forall in Hall. apply Hall, Hin.
Qed.

End PeakPeriodsFrame.

Lemma peak_periods_frame_order_witness :
  In (Refined.mk_station_view "S2" (0 * ns_per_hour) (Fin (1 # 4))) peak_frame.
Proof.
  apply (proj1 (peak_periods_frame_order Refined.station_id Refined.occupancy_rate
                  peak_frame 2)).
  vm_compute. do 2 right. left. reflexivity.
Defined.

Lemma peak_periods_has_maximum_witness :
  exists m, In m (compute_peak_periods Refined.station_id Refined.occupancy_rate
                    peak_frame 1)
            /\ Refined.station_id m = "S1"
            /\ (isna (Fin (1 # 2)) = true
                \/ float_le (Fin (1 # 2)) (Refined.occupancy_rate m)).
Proof.
  apply (peak_periods_has_maximum Refined.station_id Refined.occupancy_rate
           peak_frame 1 (Refined.mk_station_view "S1" (0 * ns_per_hour) (Fin (1 # 2)))).
  - lia.
  - left. reflexivity.
Defined.

(** ** Discovery of the input files *)

Lemma endswith_app (a b suffix : string) :
  endswith b suffix = true -> endswith (a ++ b) suffix = true.
Proof.
  intros H. induction a as [|c a IH].
  - exact H.
  - change (String c a ++ b)%string with (String c (a ++ b)).
    cbn [endswith].
    destruct (String.eqb (String c (a ++ b)) suffix); [reflexivity | exact IH].
Qed.

Lemma os_path_join_endswith (a b suffix : string) :
  endswith b suffix = true -> endswith (os_path_join a b) suffix = true.
Proof.
  intros H. unfold os_path_join.
  destruct (String.prefix "/" b); [exact H|].
  destruct (String.eqb a "" || endswith a "/").
  - apply endswith_app, H.
  - apply endswith_app, endswith_app, H.
Qed.

Lemma avro_paths_endswith (walked : list (string * list string)) (p : string) :
  In p (avro_paths walked) -> endswith p ".avro" = true.
Proof.
  unfold avro_paths. rewrite in_flat_map.
  intros [w [_ Hp]]. apply (proj1 (in_map_iff _ _ _)) in Hp.
  destruct Hp as [f [<- Hf]]. apply filter_In in Hf.
  apply os_path_join_endswith, Hf.
Qed.

(** [find_avro_files] of [data_prep.py] returns the paths in ascending
    order; they are the paths collected by the walk, each ending in
    [.avro]; every [.avro] file of the top directory is among them, as is
    every path found below a subdirectory; a top directory that does not
    exist gives the empty list. *)
Theorem find_avro_files_listing :
  forall (root_dir : string) (t : option dir),
    let out := find_avro_files root_dir t in
    StronglySorted (fun a b => String.leb a b = true) out
    /\ Permutation out (avro_paths (os_walk root_dir t))
    /\ (forall p, In p out -> endswith p ".avro" = true)
    /\ (forall name filenames subdirs,
          t = Some (Dir name filenames subdirs) ->
          (forall f, In f filenames -> endswith f ".avro" = true ->
                     In (os_path_join root_dir f) out)
          /\ (forall sub p, In sub subdirs ->
                In p (find_avro_files (os_path_join root_dir (dir_name sub)) (Some sub)) ->
                In p out))
    /\ find_avro_files root_dir None = [].
Proof.
  intros root_dir t out. unfold out, find_avro_files.
  split; [|split; [|split; [|split]]].
  - apply stable_sort_sorted.
    + apply String.leb_total.
    + apply string_leb_trans.
  - apply stable_sort_perm.
  - intros p Hp. apply stable_sort_In in Hp. apply (avro_paths_endswith _ p Hp).
  - intros name filenames subdirs ->. split.
    + intros f Hf Hav. apply stable_sort_In.
      unfold avro_paths. cbn [os_walk walk flat_map fst snd].
      apply in_or_app. left.
      apply in_map, filter_In. split; assumption.
    + intros sub p Hsub Hp. apply stable_sort_In in Hp. apply stable_sort_In.
      unfold avro_paths in *. cbn [os_walk walk flat_map fst snd] in *.
      apply in_or_app. right.
      apply in_flat_map in Hp. destruct Hp as [w [Hw Hp]].
      apply in_flat_map. exists w. split; [|exact Hp].
      apply in_flat_map. exists sub. split; assumption.
  - reflexivity.
Qed.

Lemma find_avro_files_listing_witness :
  In (os_path_join "/data" "a.avro") (find_avro_files "/data" (Some small_tree)).
Proof.
  apply (proj1 (proj1 (proj2 (proj2 (proj2
           (find_avro_files_listing "/data" (Some small_tree)))))
           "dump" ["b.avro"; "notes.txt"; "a.avro"] [Dir "2024" ["c.avro"] []]
           eq_refl) "a.avro").
  - simpl. do 2 right. left. reflexivity.
  - reflexivity.
Defined.

(** On the small tree: sorted paths, the note left out. *)
Example find_avro_files_small_tree :
  find_avro_files "/data" (Some small_tree)
  = ["/data/2024/c.avro"; "/data/a.avro"; "/data/b.avro"].
Proof. reflexivity. Qed.

Section LimitedScan.
Variable limit : Z.

Let M : nat := Z.to_nat (Z.max 1 limit).

Lemma limit_reached (k : nat) :
  (1 <= k)%nat -> (limit <=? Z.of_nat k) = (M <=? k)%nat.
Proof.
  intros Hk. unfold M.
  destruct (limit <=? Z.of_nat k) eqn:E1, (Z.to_nat (Z.max 1 limit) <=? k)%nat eqn:E2;
    try reflexivity.
  - apply Z.leb_le in E1. apply Nat.leb_gt in E2. lia.
  - apply Z.leb_gt in E1. apply Nat.leb_le in E2. lia.
Qed.

Lemma scan_files_spec (root : string) (files avros : list string) :
  (List.length avros < M)%nat ->
  let cand := map (os_path_join root) (filter (fun f => endswith f ".avro") files) in
  scan_files limit root avros files
  = if (List.length avros + List.length cand <? M)%nat
    then inr (avros ++ cand)
    else inl (avros ++ firstn (M - List.length avros) cand).
Proof.
  revert avros. induction files as [|f rest IH]; intros avros Hlen; cbn zeta.
  - cbn [filter map scan_files List.length]. rewrite Nat.add_0_r.
    apply Nat.ltb_lt in Hlen. rewrite Hlen, app_nil_r. reflexivity.
  - cbn [filter scan_files].
    destruct (endswith f ".avro"); [|apply IH, Hlen].
    cbn [map List.length]. rewrite length_app. cbn [List.length].
    rewrite limit_reached by lia.
    destruct (M <=? List.length avros + 1)%nat eqn:E.
    + apply Nat.leb_le in E.
      replace (List.length avros + Datatypes.S _ <? M)%nat with false
        by (symmetry; apply Nat.ltb_ge; lia).
      replace (M - List.length avros)%nat with 1%nat by lia.
      reflexivity.
    + apply Nat.leb_gt in E.
      rewrite IH by (rewrite length_app; simpl; lia).
      rewrite length_app. cbn [List.length].
      replace (List.length avros + 1 + _)%nat
        with (List.length avros + Datatypes.S
                (List.length (map (os_path_join root)
                                  (filter (fun f0 => endswith f0 ".avro") rest))))%nat
        by lia.
      destruct (_ <? M)%nat.
      * rewrite <- app_assoc. reflexivity.
      * rewrite <- app_assoc.
        replace (M - List.length avros)%nat
          with (Datatypes.S (M - (List.length avros + 1))) by lia.
        reflexivity.
Qed.

Lemma scan_walk_spec (walked : list (string * list string)) (avros : list string) :
  (List.length avros < M)%nat ->
  scan_walk limit avros walked
  = avros ++ firstn (M - List.length avros) (avro_paths walked).
Proof.
  revert avros. induction walked as [|w rest IH]; intros avros Hlen.
  - cbn [scan_walk avro_paths flat_map]. rewrite firstn_nil, app_nil_r. reflexivity.
  - cbn [scan_walk]. rewrite (scan_files_spec (fst w) (snd w) avros Hlen). cbv zeta.
    unfold avro_paths. cbn [flat_map]. fold (avro_paths rest).
    set (cand := map (os_path_join (fst w))
                     (filter (fun f => endswith f ".avro") (snd w))).
    destruct (List.length avros + List.length cand <? M)%nat eqn:E.
    + apply Nat.ltb_lt in E.
      rewrite IH by (rewrite length_app; lia).
      rewrite length_app, <- app_assoc. f_equal.
      rewrite firstn_app.
      rewrite (firstn_all2 cand) by lia.
      f_equal. f_equal. lia.
    + apply Nat.ltb_ge in E. f_equal.
      rewrite firstn_app.
      replace (M - List.length avros - List.length cand)%nat with 0%nat by lia.
      cbn [firstn]. rewrite app_nil_r. reflexivity.
Qed.

End LimitedScan.

(** [find_avro_files(limit)] of the exploration scripts returns the first
    [max(1, limit)] paths of the walk: the test for the limit comes after a
    path is appended, so a limit of zero or less still returns one path when
    there is one. *)
Theorem find_avro_files_limit_prefix :
  forall (limit : Z) (t : option dir),
    find_avro_files_limit limit t
    = firstn (Z.to_nat (Z.max 1 limit)) (avro_paths (os_walk data_dir t))
    /\ (Z.of_nat (List.length (find_avro_files_limit limit t)) <= Z.max 1 limit)
    /\ (forall p, In p (find_avro_files_limit limit t) -> endswith p ".avro" = true)
    /\ (limit <= 0 -> avro_paths (os_walk data_dir t) <> [] ->
        List.length (find_avro_files_limit limit t) = 1%nat).
Proof.
  intros limit t.
  assert (Heq : find_avro_files_limit limit t
                = firstn (Z.to_nat (Z.max 1 limit)) (avro_paths (os_walk data_dir t))).
  { unfold find_avro_files_limit.
    rewrite scan_walk_spec by (simpl; lia).
    cbn [app List.length]. rewrite Nat.sub_0_r. reflexivity. }
  split; [exact Heq|]. rewrite Heq. split; [|split].
  - rewrite length_firstn. lia.
  - intros p Hp. apply (avro_paths_endswith (os_walk data_dir t)).
    rewrite <- (firstn_skipn (Z.to_nat (Z.max 1 limit))). apply in_or_app. left. exact Hp.
  - intros Hl Hne. replace (Z.max 1 limit) with 1 by lia.
    destruct (avro_paths (os_walk data_dir t)); [contradiction | reflexivity].
Qed.

Lemma find_avro_files_limit_prefix_witness :
  List.length (find_avro_files_limit 0 (Some small_tree)) = 1%nat.
Proof.
  apply (proj2 (proj2 (proj2 (find_avro_files_limit_prefix 0 (Some small_tree))))).
  - lia.
  - discriminate.
Defined.

(** ** Independence from the order of the input rows *)

Section SortedUnique.
Context {A : Type} (leb : A -> A -> bool).
Hypothesis leb_total : forall x y, leb x y = true \/ leb y x = true.
Hypothesis leb_trans : forall x y z, leb x y = true -> leb y z = true -> leb x z = true.
Hypothesis leb_antisym : forall x y, leb x y = true -> leb y x = true -> x = y.

Lemma sorted_perm_unique (l1 l2 : list A) :
  Permutation l1 l2 ->
  StronglySorted (fun a b => leb a b = true) l1 ->
  StronglySorted (fun a b => leb a b = true) l2 ->
  l1 = l2.
Proof.
  revert l2. induction l1 as [|a t1 IH]; intros l2 Hperm Hs1 Hs2.
  - apply Permutation_nil in Hperm. subst. reflexivity.
  - destruct l2 as [|b t2].
    + apply Permutation_sym, Permutation_nil in Hperm. discriminate.
    + apply StronglySorted_inv in Hs1. destruct Hs1 as [Hs1 Hall1].
      apply StronglySorted_inv in Hs2. destruct Hs2 as [Hs2 Hall2].
      rewrite Forall_forall in Hall1, Hall2.
      assert (Hab : a = b).
      { assert (Ha : In a (b :: t2)) by (apply (Permutation_in _ Hperm); left; reflexivity).
        assert (Hb : In b (a :: t1))
          by (apply (Permutation_in _ (Permutation_sym Hperm)); left; reflexivity).
        destruct Ha as [Ha|Ha]; [congruence|].
        destruct Hb as [Hb|Hb]; [congruence|].
        apply leb_antisym; [apply Hall1, Hb | apply Hall2, Ha]. }
      subst b. f_equal.
      apply IH; [apply (Permutation_cons_inv Hperm) | exact Hs1 | exact Hs2].
Qed.

(** The sorted distinct keys of a list do not depend on the order of the
    list. *)
Lemma group_keys_perm (dec : forall x y : A, {x = y} + {x <> y}) (l l' : list A) :
  Permutation l l' ->
  stable_sort leb (nodup dec l) = stable_sort leb (nodup dec l').
Proof.
  intros Hperm. apply sorted_perm_unique.
  - eapply perm_trans; [apply stable_sort_perm|].
    eapply perm_trans; [|apply Permutation_sym, stable_sort_perm].
    apply NoDup_Permutation; try apply NoDup_nodup.
    intros x. rewrite !nodup_In. split; apply Permutation_in;
      [exact Hperm | apply Permutation_sym, Hperm].
  - apply stable_sort_sorted; assumption.
  - apply stable_sort_sorted; assumption.
Qed.
End SortedUnique.

Lemma string_ltb_lt (a b : string) :
  String.ltb a b = true <-> OrderedTypeEx.String_as_OT.lt a b.
Proof.
  unfold String.ltb.
  pose proof (OrderedTypeEx.String_as_OT.cmp_lt a b) as Hlt.
  unfold OrderedTypeEx.String_as_OT.cmp in Hlt.
  destruct (String.compare a b); split; intros H; try reflexivity; try discriminate.
  - apply Hlt in H. discriminate.
  - apply Hlt. reflexivity.
  - apply Hlt in H. discriminate.
Qed.

Lemma string_lt_irrefl (a : string) : ~ OrderedTypeEx.String_as_OT.lt a a.
Proof.
  intros H. exact (OrderedTypeEx.String_as_OT.lt_not_eq _ _ H eq_refl).
Qed.

Lemma string_trichotomy (a b : string) :
  OrderedTypeEx.String_as_OT.lt a b \/ a = b \/ OrderedTypeEx.String_as_OT.lt b a.
Proof.
  destruct (String.leb_total a b) as [H|H]; apply string_leb_cases in H;
    destruct H as [H|H]; auto.
Qed.

Lemma str_Z_leb_cases (a b : string * Z) :
  String.ltb (fst a) (fst b) || (String.eqb (fst a) (fst b) && (snd a <=? snd b)) = true
  <-> OrderedTypeEx.String_as_OT.lt (fst a) (fst b)
      \/ (fst a = fst b /\ snd a <= snd b).
Proof.
  rewrite orb_true_iff, andb_true_iff, string_ltb_lt, String.eqb_eq, Z.leb_le.
  reflexivity.
Qed.

Lemma group_keys_str_perm (l l' : list string) :
  Permutation l l' -> group_keys_str l = group_keys_str l'.
Proof.
  apply group_keys_perm.
  - apply String.leb_total.
  - apply string_leb_trans.
  - apply String.leb_antisym.
Qed.

Lemma group_keys_str_Z_perm (l l' : list (string * Z)) :
  Permutation l l' -> group_keys_str_Z l = group_keys_str_Z l'.
Proof.
  apply group_keys_perm.
  - intros x y. rewrite !str_Z_leb_cases.
    destruct (string_trichotomy (fst x) (fst y)) as [H|[H|H]]; auto.
    destruct (Z.le_ge_cases (snd x) (snd y)); [left | right]; right; auto.
  - intros x y z. rewrite !str_Z_leb_cases.
    intros [H1|[H1 H1']] [H2|[H2 H2']].
    + left. exact (OrderedTypeEx.String_as_OT.lt_trans _ _ _ H1 H2).
    + left. rewrite <- H2. exact H1.
    + left. rewrite H1. exact H2.
    + right. split; [congruence | lia].
  - intros [a1 z1] [a2 z2]. rewrite !str_Z_leb_cases. cbn [fst snd].
    intros [H1|[H1 H1']] [H2|[H2 H2']].
    + exfalso. apply (string_lt_irrefl a1).
      exact (OrderedTypeEx.String_as_OT.lt_trans _ _ _ H1 H2).
    + exfalso. subst. exact (string_lt_irrefl _ H1).
    + exfalso. subst. exact (string_lt_irrefl _ H2).
    + f_equal; [exact H1 | lia].
Qed.

(** The hourly table does not depend on the order of the records it is
    built from. *)
Theorem aggregate_order_independent :
  forall (key : canon -> string) (df_clean df_clean' : list clean),
    Permutation df_clean df_clean' ->
    aggregate key df_clean = aggregate key df_clean'.
Proof.
  intros key df df' Hperm. unfold aggregate.
  rewrite (group_keys_str_perm _ _ (Permutation_map (fun r => status (rec r)) Hperm)).
  rewrite (group_keys_str_Z_perm _ _
             (Permutation_map (fun r => (key (rec r), hour r)) Hperm)).
  assert (Hsize : forall e h s, size_at key df e h s = size_at key df' e h s).
  { intros e h s. unfold size_at. f_equal.
    apply Permutation_length, filter_perm, Hperm. }
  f_equal. apply map_ext. intros k.
  rewrite (map_ext _ (fun s => (s, size_at key df' (fst k) (snd k) s)))
    by (intros s; rewrite Hsize; reflexivity).
  reflexivity.
Qed.

Lemma aggregate_order_independent_witness :
  aggregate station_id (s1_records "CHARGING" 3 ++ s1_records "AVAILABLE" 7)
  = aggregate station_id (s1_records "AVAILABLE" 7 ++ s1_records "CHARGING" 3).
Proof.
  apply aggregate_order_independent, Permutation_app_comm.
Defined.

(** When no two rows of a connector share an hour, as in the connector table
    that data preparation writes, the downtime table does not depend on the
    order of the rows of its input. *)
Theorem reliability_downtime_order_independent :
  forall (R : Type) (evse_id : R -> string) (hour charging_count : R -> Z)
         (df df' : list R) (gap_hours : Z),
    Permutation df df' ->
    (forall e, NoDup (map hour (evse_group evse_id df e))) ->
    compute_reliability_downtime evse_id hour charging_count df' gap_hours
    = compute_reliability_downtime evse_id hour charging_count df gap_hours.
Proof.
  intros R evse_id hour charging_count df df' gap_hours Hperm Hnd.
  unfold compute_reliability_downtime.
  rewrite (group_keys_str_perm _ _ (Permutation_map evse_id Hperm)).
  apply map_ext. intros e. unfold downtime_of_group.
  assert (Hsort : sort_by_hour hour (evse_group evse_id df' e)
                  = sort_by_hour hour (evse_group evse_id df e)).
  { apply sort_by_hour_unique.
    - apply Hnd.
    - eapply perm_trans; [apply stable_sort_perm|].
      apply filter_perm, Permutation_sym, Hperm.
    - apply stable_sort_sorted.
      + intros x y. rewrite !Z.leb_le. lia.
      + intros x y z. rewrite !Z.leb_le. lia. }
  rewrite Hsort. reflexivity.
Qed.

Lemma reliability_downtime_order_independent_witness :
  detect (rev gap_frame) 4 = detect gap_frame 4.
Proof.
  apply (reliability_downtime_order_independent _ o_evse_id o_hour o_charging_count
           gap_frame (rev gap_frame) 4).
  - apply Permutation_rev.
  - intros e. unfold evse_group, gap_frame. cbn [filter o_evse_id].
    destruct (String.eqb "C2" e); cbn [map o_hour]; [|constructor].
    repeat constructor; simpl; intuition discriminate.
Defined.

(** ** From data preparation to the analytics *)

(** On the tables that data preparation builds from a list of canonical
    records, and started after whatever has been printed and written so far,
    the refined entry point stops with the KeyError when no record has status
    AVAILABLE; with such a record it stops with an OSError at its first write
    when the directory [/root/output/outputs/] does not exist (the program
    never creates it), and it completes when the directory exists, adding its
    five tables to the files in this order.  A run that stops has printed and
    written nothing. *)
Theorem refined_completes_iff_available :
  forall (df : list canon) (w : world (table Refined.station_view)),
    let station_tbl := aggregate station_id (exclude_unknown df) in
    let evse_tbl := aggregate evse_id (exclude_unknown df) in
    let r := Refined.main station_tbl evse_tbl w in
    let available := exists c, In c df /\ status c = "AVAILABLE" in
    (fst r = inr tt <-> available /\ In outputs (dirs w))
    /\ (fst r = inr tt ->
        map fst (files (snd r))
        = map fst (files w)
          ++ [ outputs ++ "daily_utilization_trends_refined.csv";
               outputs ++ "peak_periods_station_refined.csv";
               outputs ++ "global_peak_hour_of_day_refined.csv";
               outputs ++ "capacity_pressure_station_refined.csv";
               outputs ++ "reliability_evse_downtime_refined.csv" ]%string)
    /\ (~ available -> r = (inl (KeyError ["AVAILABLE"]), w))
    /\ (available -> ~ In outputs (dirs w) -> r = (inl OSError, w)).
Proof.
  intros df w station_tbl evse_tbl r available. unfold r.
  rewrite refined_main_from.
  assert (Hav : In "AVAILABLE" (status_columns station_tbl) <-> available).
  { unfold station_tbl, available. rewrite aggregate_columns_In. split.
    - intros [c [Hc Hs]]. apply exclude_unknown_In in Hc.
      exists (rec c). split; [apply Hc | exact Hs].
    - intros [c [Hc Hs]].
      exists (mk_clean c (floor_hour (timestamp c))). split; [|exact Hs].
      unfold exclude_unknown.
      apply (in_map (fun r0 => mk_clean r0 (floor_hour (timestamp r0))) _ c), filter_In.
      split; [exact Hc|]. rewrite Hs. reflexivity. }
  destruct (in_dec string_dec "AVAILABLE" (status_columns station_tbl)) as [Hin|Hout].
  - destruct (existsb (String.eqb outputs) (dirs w)) eqn:E.
    + apply existsb_eqb_In in E. cbn [fst snd files]. split; [|split; [|split]].
      * split; [intros _; split; [apply Hav, Hin | exact E] | reflexivity].
      * intros _. rewrite map_app. reflexivity.
      * intros H. exfalso. apply H, Hav, Hin.
      * intros _ H. contradiction.
    + assert (Hno : ~ In outputs (dirs w)).
      { intros H. apply existsb_eqb_In in H. rewrite H in E. discriminate. }
      cbn [fst snd files]. split; [|split; [|split]].
      * split; [discriminate | intros [_ H]; contradiction].
      * discriminate.
      * intros H. exfalso. apply H, Hav, Hin.
      * reflexivity.
  - cbn [fst snd files]. split; [|split; [|split]].
    + split; [discriminate | intros [H _]; exfalso; apply Hout, Hav, H].
    + discriminate.
    + reflexivity.
    + intros H. exfalso. apply Hout, Hav, H.
Qed.

(** Started where nothing has created the output directory, the refined
    entry point stops at its first write. *)
Example refined_fresh_run_stops :
  run (Refined.main (aggregate station_id (exclude_unknown small_df))
                    (aggregate evse_id (exclude_unknown small_df)))
  = (inl OSError, empty_world).
Proof. reflexivity. Qed.

Lemma refined_completes_iff_available_witness :
  fst (Refined.main (aggregate station_id (exclude_unknown small_df))
                    (aggregate evse_id (exclude_unknown small_df))
                    (mk_world [] [] [outputs])) = inr tt.
Proof.
  apply (proj2 (proj1 (refined_completes_iff_available small_df
                         (mk_world [] [] [outputs])))).
  split.
  - exists (mk_canon "S1" "E2" "AVAILABLE" (8 * ns_per_hour + 7)).
    split; [right; left; reflexivity | reflexivity].
  - left. reflexivity.
Defined.

(** In the connector frame that both entry points hand to the detector, no
    two rows of a connector share an hour; so every arrangement of a
    connector's rows in ascending order of hour is the one the detector
    works on, whatever algorithm sorts them. *)
Theorem pipeline_downtime_sort_unique :
  forall (df_clean : list clean) (e : string) (l : list evse_row),
    let evse_df := with_charging_count (aggregate evse_id df_clean) in
    let group := evse_group (fun r => entity (base r)) evse_df e in
    NoDup (map (fun r => h_hour (base r)) group)
    /\ (Permutation l group ->
        StronglySorted (fun a b => (h_hour (base a) <=? h_hour (base b)) = true) l ->
        l = sort_by_hour (fun r => h_hour (base r)) group).
Proof.
  intros df_clean e l evse_df group.
  assert (Hnd : NoDup (map (fun r => h_hour (base r)) group)).
  { unfold group, evse_group, evse_df, with_charging_count.
    rewrite filter_map_comm, map_map. cbn [base].
    apply keys_hours_distinct, aggregate_index_NoDup. }
  split; [exact Hnd|].
  intros Hperm Hs. apply sort_by_hour_unique; assumption.
Qed.

Lemma pipeline_downtime_sort_unique_witness :
  [mk_evse_row (mk_hourly_row "E1" (8 * ns_per_hour) [("CHARGING", 1)] 1 1 (Fin (1 # 1))) 1]
  = sort_by_hour (fun r => h_hour (base r))
      (evse_group (fun r => entity (base r))
         (with_charging_count
            (aggregate evse_id (exclude_unknown [mk_canon "S1" "E1" "CHARGING" (8 * ns_per_hour)])))
         "E1").
Proof.
  apply (proj2 (pipeline_downtime_sort_unique
                  (exclude_unknown [mk_canon "S1" "E1" "CHARGING" (8 * ns_per_hour)])
                  "E1" _)).
  - vm_compute. apply Permutation_refl.
  - repeat constructor.
Defined.

(** The UNKNOWN percentage of the report lies between 0 and 100, and it is
    100 exactly when no record is left for the hourly tables. *)
Theorem unknown_percentage_range :
  forall df : list canon,
    df <> [] ->
    let total := Z.of_nat (List.length df) in
    let unknown_count := get (value_counts df) "UNKNOWN" 0 in
    let pct := (Qmake unknown_count 1 / Qmake total 1 * 100)%Q in
    0 <= unknown_count <= total
    /\ (0 <= pct)%Q /\ (pct <= 100)%Q
    /\ ((pct == 100)%Q <-> exclude_unknown df = []).
Proof.
  intros df Hne total unknown_count pct.
  assert (Htotal : 0 < total).
  { unfold total. destruct df; [contradiction | simpl; lia]. }
  assert (Hacc : total = unknown_count + Z.of_nat (List.length (exclude_unknown df))).
  { unfold total, unknown_count. rewrite value_counts_get.
    unfold exclude_unknown, count_status. rewrite length_map.
    rewrite <- (filter_length (fun r => String.eqb (status r) "UNKNOWN") df) at 1.
    lia. }
  assert (Hu : 0 <= unknown_count).
  { unfold unknown_count. rewrite value_counts_get. unfold count_status. lia. }
  assert (Hpos : (0 < Qmake total 1)%Q) by (unfold Qlt; simpl; lia).
  assert (Hpct : (pct == Qmake (unknown_count * 100) 1 / Qmake total 1)%Q).
  { unfold pct, Qdiv, Qeq, Qmult, Qinv. destruct total; try lia. cbn [Qnum Qden]. lia. }
  split; [lia|]. split; [|split].
  - rewrite Hpct. apply Qle_shift_div_l; [exact Hpos|].
    unfold Qle, Qmult. cbn [Qnum Qden]. lia.
  - rewrite Hpct. apply Qle_shift_div_r; [exact Hpos|].
    unfold Qle, Qmult. cbn [Qnum Qden]. lia.
  - rewrite Hpct. split.
    + intros H.
      assert (Hq : (Qmake (unknown_count * 100) 1 == 100 * Qmake total 1)%Q).
      { rewrite <- H. field. intros Hz. rewrite Hz in Hpos. apply (Qlt_irrefl _ Hpos). }
      unfold Qeq, Qmult in Hq. cbn [Qnum Qden] in Hq.
      apply length_zero_iff_nil. lia.
    + intros Hnil. rewrite Hnil in Hacc. simpl in Hacc.
      rewrite Z.add_0_r in Hacc. rewrite <- Hacc.
      unfold Qeq, Qdiv, Qmult, Qinv. destruct total; try lia. cbn [Qnum Qden]. lia.
Qed.

Lemma unknown_percentage_range_witness :
  0 <= get (value_counts small_df) "UNKNOWN" 0 <= Z.of_nat (List.length small_df).
Proof.
  apply (unknown_percentage_range small_df). discriminate.
Defined.
